(** * linearis: project, document and attachment commands

    A shallow embedding of the command layer of the linearis CLI
    (src/commands/projects.ts, src/commands/documents.ts,
    src/commands/attachments.ts) and of the two GraphQL services they
    call (src/utils/graphql-documents-service.ts,
    src/utils/graphql-attachments-service.ts).

    - JavaScript values are the inductive [JS]; objects are association
      lists in insertion order, with distinct keys.
    - An asynchronous command is a tree of remote calls, [Prog]: every
      [await] of a remote call is a [Do] node whose continuation receives
      the reply or the rejection.  [run] plays a command against an
      environment and records the calls in the order they were made.
    - Strings are byte strings.  The code only searches for the ASCII
      characters '/' and '-' and for ASCII words, so positions computed on
      bytes agree with the positions JavaScript computes on UTF-16 units
      wherever the code uses them. *)

From Stdlib Require Import String Ascii List ZArith Lia Bool DecimalString.
Import ListNotations.
Open Scope string_scope.

(* ===================================================================== *)
(** ** JavaScript values                                                  *)
(* ===================================================================== *)

(** Numbers are the integers and NaN: the only numbers the commands
    compute themselves are results of [parseInt]. *)
#[warnings="-register-all"]
Inductive JS : Type :=
| JUndefined
| JNull
| JBool (b : bool)
| JNaN
| JNum (n : Z)
| JStr (s : string)
| JArr (items : list JS)
| JObj (fields : list (string * JS)).

(** The double quote character, for template literals that quote a value. *)
Definition dq : string := String "034"%char EmptyString.

(** [!v] is [negb (truthy v)]. *)
Definition truthy (v : JS) : bool :=
  match v with
  | JUndefined | JNull | JNaN => false
  | JBool b => b
  | JNum n => negb (n =? 0)%Z
  | JStr s => negb (s =? "")
  | JArr _ | JObj _ => true
  end.

Definition nullish (v : JS) : bool :=
  match v with
  | JUndefined | JNull => true
  | _ => false
  end.

(** [a || b] *)
Definition js_or (a b : JS) : JS := if truthy a then a else b.

Fixpoint assoc (k : string) (fields : list (string * JS)) : option JS :=
  match fields with
  | [] => None
  | (k', v) :: rest => if k' =? k then Some v else assoc k rest
  end.

(** [v.k] for a value that is neither null nor undefined.  Strings and
    arrays answer [length]; no other inherited property is asked for by
    the commands. *)
Definition get (v : JS) (k : string) : JS :=
  match v with
  | JObj fields =>
      match assoc k fields with
      | Some x => x
      | None => JUndefined
      end
  | JArr items => if k =? "length" then JNum (Z.of_nat (List.length items)) else JUndefined
  | JStr s => if k =? "length" then JNum (Z.of_nat (String.length s)) else JUndefined
  | _ => JUndefined
  end.

(** [v?.k] *)
Definition get_opt (v : JS) (k : string) : JS :=
  if nullish v then JUndefined else get v k.

(** [o.k = x] on an object's fields: an existing key keeps its place, a
    new key goes last. *)
Fixpoint set_field (k : string) (x : JS) (fields : list (string * JS))
  : list (string * JS) :=
  match fields with
  | [] => [(k, x)]
  | (k', v) :: rest =>
      if k' =? k then (k', x) :: rest else (k', v) :: set_field k x rest
  end.

Definition keys (fields : list (string * JS)) : list string :=
  map fst fields.

Definition string_of_nat (n : nat) : string :=
  NilEmpty.string_of_uint (Nat.to_uint n).

Definition string_of_Z (n : Z) : string :=
  NilZero.string_of_int (Z.to_int n).

(** [String(v)], which is also what a template literal applies. *)
Fixpoint toString (v : JS) : string :=
  match v with
  | JUndefined => "undefined"
  | JNull => "null"
  | JBool true => "true"
  | JBool false => "false"
  | JNaN => "NaN"
  | JNum n => string_of_Z n
  | JStr s => s
  | JArr items =>
      let elem (x : JS) (rest : string) : string :=
        match x with
        | JUndefined | JNull => rest
        | _ => toString x ++ rest
        end in
      (fix join (l : list JS) : string :=
         match l with
         | [] => ""
         | x :: [] => elem x ""
         | x :: t => elem x ("," ++ join t)
         end) items
  | JObj _ => "[object Object]"
  end.

(** The own enumerable properties that [{...v}] copies. *)
Fixpoint indexed (i : nat) (items : list JS) : list (string * JS) :=
  match items with
  | [] => []
  | x :: t => (string_of_nat i, x) :: indexed (S i) t
  end.

Fixpoint chars (s : string) : list JS :=
  match s with
  | EmptyString => []
  | String c t => JStr (String c EmptyString) :: chars t
  end.

Definition spread (v : JS) : list (string * JS) :=
  match v with
  | JObj fields => fields
  | JArr items => indexed 0 items
  | JStr s => indexed 0 (chars s)
  | _ => []
  end.

Definition opt_str (o : option string) : JS :=
  match o with
  | Some s => JStr s
  | None => JUndefined
  end.

(** A flag of commander is [true] or [undefined]: [if (flag)]. *)
Definition flag (o : option bool) : bool :=
  match o with
  | Some b => b
  | None => false
  end.

(** [if (s)] for an optional string. *)
Definition given (o : option string) : bool :=
  match o with
  | Some s => negb (s =? "")
  | None => false
  end.

(* ===================================================================== *)
(** ** Strings: the methods the commands call                             *)
(* ===================================================================== *)

(** [hay.includes(needle)] *)
Fixpoint includes (needle hay : string) : bool :=
  if prefix needle hay then true
  else match hay with
       | EmptyString => false
       | String _ t => includes needle t
       end.

(** [s.split(sep)] for a one-character separator. *)
Fixpoint split (sep : ascii) (s : string) : list string :=
  match s with
  | EmptyString => [""]
  | String c t =>
      if Ascii.eqb c sep then "" :: split sep t
      else match split sep t with
           | [] => [String c ""]
           | w :: ws => String c w :: ws
           end
  end.

(** [parts.indexOf(x)], with [None] for -1. *)
Fixpoint indexOf (x : string) (parts : list string) : option nat :=
  match parts with
  | [] => None
  | p :: t => if p =? x then Some 0
              else option_map S (indexOf x t)
  end.

(** [s.lastIndexOf(c)] for a one-character needle, with [None] for -1. *)
Fixpoint lastIndexOf (c : ascii) (s : string) : option nat :=
  match s with
  | EmptyString => None
  | String c' t =>
      match lastIndexOf c t with
      | Some i => Some (S i)
      | None => if Ascii.eqb c' c then Some 0 else None
      end
  end.

(** [s.substring(n)] *)
Fixpoint substring_from (n : nat) (s : string) : string :=
  match n, s with
  | O, _ => s
  | S n', String _ t => substring_from n' t
  | S _, EmptyString => EmptyString
  end.

(** [xs.join(", ")] *)
Fixpoint join (sep : string) (xs : list string) : string :=
  match xs with
  | [] => ""
  | x :: [] => x
  | x :: t => x ++ sep ++ join sep t
  end.

(* ===================================================================== *)
(** ** parseInt                                                           *)
(* ===================================================================== *)

(** The built-in [parseInt(s, radix)] on ASCII input: leading white space
    is skipped, a sign is read, with no radix (or radix 16) a [0x] prefix
    selects base 16, and the longest prefix of digits is the result; no
    digit at all is NaN, here [None].  The result is the exact integer;
    JavaScript rounds it to a double, which changes neither whether it is
    NaN nor how it compares with 0 and 1. *)
Definition isWhite (c : ascii) : bool :=
  let n := nat_of_ascii c in
  ((9 <=? n) && (n <=? 13))%nat || (n =? 32)%nat.

Fixpoint trimStart (s : string) : string :=
  match s with
  | String c t => if isWhite c then trimStart t else s
  | EmptyString => EmptyString
  end.

Definition digitValue (c : ascii) : option Z :=
  let n := Z.of_nat (nat_of_ascii c) in
  if ((48 <=? n) && (n <=? 57))%Z then Some (n - 48)%Z
  else if ((97 <=? n) && (n <=? 122))%Z then Some (n - 87)%Z
  else if ((65 <=? n) && (n <=? 90))%Z then Some (n - 55)%Z
  else None.

(** The value of the longest prefix of [s] made of digits below [radix],
    continuing from [acc]. *)
Fixpoint digits (radix : Z) (s : string) (acc : option Z) : option Z :=
  match s with
  | EmptyString => acc
  | String c t =>
      match digitValue c with
      | Some d =>
          if (d <? radix)%Z then
            digits radix t
              (Some (match acc with
                     | Some a => a * radix + d
                     | None => d
                     end)%Z)
          else acc
      | None => acc
      end
  end.

Definition stripHexPrefix (s : string) : option string :=
  match s with
  | String "0" (String "x" t) => Some t
  | String "0" (String "X" t) => Some t
  | _ => None
  end.

Definition parseInt (s : string) (radix : option Z) : option Z :=
  let s1 := trimStart s in
  let '(negative, s2) :=
    match s1 with
    | String "-" t => (true, t)
    | String "+" t => (false, t)
    | _ => (false, s1)
    end in
  let r := match radix with Some r => r | None => 0%Z end in
  if (negb (r =? 0) && ((r <? 2) || (36 <? r)))%Z then None
  else
    let '(base, s3) :=
      if ((r =? 0) || (r =? 16))%Z then
        match stripHexPrefix s2 with
        | Some t => (16%Z, t)
        | None => ((if (r =? 0)%Z then 10 else r)%Z, s2)
        end
      else (r, s2) in
    match digits base s3 None with
    | Some n => Some (if negative then (- n)%Z else n)
    | None => None
    end.

Definition js_num (n : option Z) : JS :=
  match n with
  | Some z => JNum z
  | None => JNaN
  end.

(* ===================================================================== *)
(** ** Errors                                                             *)
(* ===================================================================== *)

(** What a command can throw.  [Error msg] is [new Error(msg)];
    [TypeError] is what the runtime raises on a property read of null or
    undefined, or on an array method of a value that is not an array;
    [Rejected] is a rejected remote call, the transport's own error. *)
Inductive Error : Type :=
| Err (msg : string)
| NotFound (entityType identifier : string)
| MultipleMatches (entityType identifier : string)
                  (matches : list string) (disambiguation : string)
| TypeError (what : string)
| Rejected (msg : string).

(** Modelled from the spec: utils/error-messages.js is missing.  The
    not-found error names the field and the value; it is kept as the two
    arguments of the call. *)
Definition notFoundError (entityType identifier : string) : Error :=
  NotFound entityType identifier.

(** Modelled from the spec: utils/error-messages.js is missing.  The
    ambiguity error lists the candidates; it is kept as the four
    arguments of the call. *)
Definition multipleMatchesError (entityType identifier : string)
    (matches : list string) (disambiguation : string) : Error :=
  MultipleMatches entityType identifier matches disambiguation.

(** Modelled from the spec: the text of the two errors above is built in
    the missing utils/error-messages.js; this rendering names the field
    and the value, and lists every candidate. *)
Definition message (e : Error) : string :=
  match e with
  | Err msg => msg
  | NotFound entityType identifier =>
      entityType ++ " " ++ dq ++ identifier ++ dq ++ " not found"
  | MultipleMatches entityType identifier matches disambiguation =>
      "Multiple " ++ entityType ++ "s found matching " ++ dq ++ identifier
        ++ dq ++ ". Candidates: " ++ join ", " matches
        ++ ". Please " ++ disambiguation ++ "."
  | TypeError what => what
  | Rejected msg => msg
  end.

(* ===================================================================== *)
(** ** Remote calls and commands                                          *)
(* ===================================================================== *)

(** The query and mutation documents of src/queries. *)
Inductive Query : Type :=
| LIST_PROJECTS_QUERY
| GET_PROJECT_BY_ID_QUERY
| FIND_PROJECT_BY_NAME_QUERY
| CREATE_PROJECT_MUTATION
| UPDATE_PROJECT_MUTATION
| ARCHIVE_PROJECT_MUTATION
| CREATE_DOCUMENT_MUTATION
| UPDATE_DOCUMENT_MUTATION
| GET_DOCUMENT_QUERY
| LIST_DOCUMENTS_QUERY
| DELETE_DOCUMENT_MUTATION
| CREATE_ATTACHMENT_MUTATION
| DELETE_ATTACHMENT_MUTATION
| LIST_ATTACHMENTS_QUERY.

Definition mutation (q : Query) : bool :=
  match q with
  | CREATE_PROJECT_MUTATION | UPDATE_PROJECT_MUTATION
  | ARCHIVE_PROJECT_MUTATION | CREATE_DOCUMENT_MUTATION
  | UPDATE_DOCUMENT_MUTATION | DELETE_DOCUMENT_MUTATION
  | CREATE_ATTACHMENT_MUTATION | DELETE_ATTACHMENT_MUTATION => true
  | _ => false
  end.

(** Everything a command awaits from outside.  [RawRequest] is
    [graphQLService.rawRequest(query, variables)].  The other calls are
    methods whose bodies are not part of the sources at hand: the three
    resolvers of [LinearService] and
    [GraphQLDocumentsService.listDocumentsBySlugIds]. *)
Inductive Call : Type :=
| RawRequest (q : Query) (variables : JS)
| ResolveTeamId (team : string)
| ResolveProjectId (project : string)
| ResolveIssueId (issue : string)
| ListDocumentsBySlugIds (slugIds : list string) (limit : JS).

Definition is_mutation (c : Call) : bool :=
  match c with
  | RawRequest q _ => mutation q
  | _ => false
  end.

Inductive Outcome : Type :=
| Reply (v : JS)
| Fail (e : Error).

(** An asynchronous function body. *)
Inductive Prog (A : Type) : Type :=
| Ret (a : A)
| Throw (e : Error)
| Do (c : Call) (k : Outcome -> Prog A).

Arguments Ret {A} a.
Arguments Throw {A} e.
Arguments Do {A} c k.

Fixpoint bind {A B : Type} (p : Prog A) (f : A -> Prog B) : Prog B :=
  match p with
  | Ret a => f a
  | Throw e => Throw e
  | Do c k => Do c (fun o => bind (k o) f)
  end.

Notation "x <- p ;; q" := (bind p (fun x => q))
  (at level 61, p at next level, right associativity).
Notation "p ;;; q" := (bind p (fun _ => q))
  (at level 61, right associativity).

(** [await c] *)
Definition await (c : Call) : Prog JS :=
  Do c (fun o => match o with
                 | Reply v => Ret v
                 | Fail e => Throw e
                 end).

(** [try { p } catch (e) { h e }] *)
Fixpoint try_catch {A : Type} (p : Prog A) (h : Error -> Prog A) : Prog A :=
  match p with
  | Ret a => Ret a
  | Throw e => h e
  | Do c k => Do c (fun o => try_catch (k o) h)
  end.

(** [v.k], which raises on null and undefined. *)
Definition member (v : JS) (k : string) : Prog JS :=
  if nullish v
  then Throw (TypeError ("Cannot read properties of " ++ toString v))
  else Ret (get v k).

(** The elements of a value the code treats as an array ([.map],
    [.length], [[0]]).  The GraphQL schema makes these values lists; a
    value that is not a list raises here. *)
Definition elements (v : JS) : Prog (list JS) :=
  match v with
  | JArr items => Ret items
  | _ => Throw (TypeError "not an array")
  end.

Fixpoint mapM {A B : Type} (f : A -> Prog B) (l : list A) : Prog (list B) :=
  match l with
  | [] => Ret []
  | x :: t => y <- f x ;; ys <- mapM f t ;; Ret (y :: ys)
  end.

Definition rawRequest (q : Query) (variables : JS) : Prog JS :=
  await (RawRequest q variables).

(** The outside world: the outcome of a call, given the calls made before
    it (oldest first). *)
Definition Env : Type := list Call -> Call -> Outcome.

Inductive Result (A : Type) : Type :=
| Ok (a : A)
| Failed (e : Error).

Arguments Ok {A} a.
Arguments Failed {A} e.

Fixpoint exec {A : Type} (env : Env) (hist : list Call) (p : Prog A)
  : Result A * list Call :=
  match p with
  | Ret a => (Ok a, hist)
  | Throw e => (Failed e, hist)
  | Do c k => exec env (hist ++ [c]) (k (env hist c))
  end.

(** The result of a command and the calls it made, oldest first.  [Ok v]
    is [outputSuccess(v)]; [Failed e] is the error handed to
    [handleAsyncCommand]. *)
Definition run {A : Type} (env : Env) (p : Prog A) : Result A * list Call :=
  exec env [] p.

(** The runtime and the classifier the commands rely on.  [isUuid] is
    utils/uuid.js, which is not part of the sources at hand; [parseURL] is
    the platform's [new URL(s)], with [None] when the constructor throws. *)
Record URL : Type := mkURL { hostname : string; pathname : string }.

Class Runtime : Type := {
  isUuid : string -> bool;
  parseURL : string -> option URL
}.

(** [o || d] and [o ?? d] for an optional string option. *)
Definition str_or (o : option string) (d : string) : string :=
  match o with
  | Some s => if s =? "" then d else s
  | None => d
  end.

Definition str_coalesce (o : option string) (d : string) : string :=
  match o with
  | Some s => s
  | None => d
  end.

(** [if (o !== undefined) fields.k = o] *)
Definition assign_defined (k : string) (o : option JS)
    (fields : list (string * JS)) : list (string * JS) :=
  match o with
  | Some v => set_field k v fields
  | None => fields
  end.

(* ===================================================================== *)
(** ** src/commands/projects.ts                                           *)
(* ===================================================================== *)

Module ProjectListOptions.
Record t : Type := mk {
  limit : option string;
  includeArchived : option bool
}.
End ProjectListOptions.

Module ProjectReadOptions.
Record t : Type := mk {
  milestonesFirst : option string;
  issuesFirst : option string
}.
End ProjectReadOptions.

Module ProjectCreateOptions.
Record t : Type := mk {
  team : string;
  description : option string;
  icon : option string;
  color : option string;
  lead : option string;
  priority : option string;
  startDate : option string;
  targetDate : option string
}.
End ProjectCreateOptions.

Module ProjectUpdateOptions.
Record t : Type := mk {
  name : option string;
  description : option string;
  icon : option string;
  color : option string;
  lead : option string;
  priority : option string;
  startDate : option string;
  targetDate : option string;
  team : option string;
  clearLead : option bool;
  clearStartDate : option bool;
  clearTargetDate : option bool
}.
End ProjectUpdateOptions.

(** Transform GraphQL project response to normalize teams and other nested
    structures. *)
Definition transformProject (project : JS) : JS :=
  if negb (truthy project) then project
  else
    JObj
      (set_field "issues" (get_opt (get project "issues") "nodes")
      (set_field "projectMilestones"
                 (get_opt (get project "projectMilestones") "nodes")
      (set_field "members" (get_opt (get project "members") "nodes")
      (set_field "teams"
                 (js_or (get_opt (get project "teams") "nodes") (JArr []))
      (spread project))))).

(** One entry of the ambiguity listing: the candidate's name, quoted, and
    its state in brackets. *)
Definition candidate (p : JS) : Prog string :=
  name <- member p "name" ;;
  state <- member p "state" ;;
  Ret (dq ++ toString name ++ dq ++ " (" ++ toString state ++ ")").

Section Projects.
Context `{Runtime}.

(** Helper function to resolve project ID from name or UUID. *)
Definition resolveProjectIdFromGraphQL (projectNameOrId : string) : Prog JS :=
  if isUuid projectNameOrId then Ret (JStr projectNameOrId)
  else
    result <- rawRequest FIND_PROJECT_BY_NAME_QUERY
                (JObj [("name", JStr projectNameOrId)]) ;;
    projects <- member result "projects" ;;
    nodes <- elements (js_or (get_opt projects "nodes") (JArr [])) ;;
    if (List.length nodes =? 0)%nat then
      Throw (notFoundError "Project" projectNameOrId)
    else if (1 <? List.length nodes)%nat then
      matches <- mapM candidate nodes ;;
      Throw (multipleMatchesError "project" projectNameOrId matches
                                  "use the project ID")
    else member (nth 0 nodes JUndefined) "id".

(** projects list *)
Definition projects_list (options : ProjectListOptions.t) : Prog JS :=
  result <- rawRequest LIST_PROJECTS_QUERY
              (JObj [("first",
                      js_num (parseInt
                                (str_or (ProjectListOptions.limit options) "100")
                                None));
                     ("includeArchived",
                      JBool (flag (ProjectListOptions.includeArchived options)))]) ;;
  projects <- member result "projects" ;;
  nodes <- elements (js_or (get_opt projects "nodes") (JArr [])) ;;
  Ret (JArr (map transformProject nodes)).

(** projects read <projectIdOrName> *)
Definition projects_read (projectIdOrName : string)
    (options : ProjectReadOptions.t) : Prog JS :=
  projectId <- resolveProjectIdFromGraphQL projectIdOrName ;;
  let milestonesFirst :=
    parseInt (str_coalesce (ProjectReadOptions.milestonesFirst options) "25")
             None in
  let issuesFirst :=
    parseInt (str_coalesce (ProjectReadOptions.issuesFirst options) "50")
             None in
  result <- rawRequest GET_PROJECT_BY_ID_QUERY
              (JObj [("id", projectId);
                     ("milestonesFirst", js_or (js_num milestonesFirst) (JNum 1));
                     ("issuesFirst", js_or (js_num issuesFirst) (JNum 1));
                     ("skipMilestones",
                      JBool (match milestonesFirst with
                             | Some n => (n =? 0)%Z
                             | None => false
                             end));
                     ("skipIssues",
                      JBool (match issuesFirst with
                             | Some n => (n =? 0)%Z
                             | None => false
                             end))]) ;;
  project <- member result "project" ;;
  if negb (truthy project) then
    Throw (notFoundError "Project" projectIdOrName)
  else Ret (transformProject project).

(** The variables of the create mutation. *)
Definition createVars (name : string) (teamId : JS)
    (options : ProjectCreateOptions.t) : JS :=
  JObj [("name", JStr name);
        ("teamIds", JArr [teamId]);
        ("description", opt_str (ProjectCreateOptions.description options));
        ("icon", opt_str (ProjectCreateOptions.icon options));
        ("color", opt_str (ProjectCreateOptions.color options));
        ("leadId", opt_str (ProjectCreateOptions.lead options));
        ("priority",
         match ProjectCreateOptions.priority options with
         | Some p => if p =? "" then JUndefined
                     else js_num (parseInt p None)
         | None => JUndefined
         end);
        ("startDate", opt_str (ProjectCreateOptions.startDate options));
        ("targetDate", opt_str (ProjectCreateOptions.targetDate options))].

(** projects create <name> *)
Definition projects_create (name : string)
    (options : ProjectCreateOptions.t) : Prog JS :=
  teamId <- await (ResolveTeamId (ProjectCreateOptions.team options)) ;;
  result <- rawRequest CREATE_PROJECT_MUTATION (createVars name teamId options) ;;
  projectCreate <- member result "projectCreate" ;;
  if negb (truthy (get_opt projectCreate "success")) then
    Throw (Err "Failed to create project")
  else
    project <- member projectCreate "project" ;;
    Ret (transformProject project).

(** Build update variables (only include provided fields): the lines of
    the update action between the resolution of the project and the
    resolution of the team. *)
Definition updateVars (projectId : JS) (options : ProjectUpdateOptions.t)
  : list (string * JS) :=
  let vars := [("id", projectId)] in
  let vars := assign_defined "name"
                (option_map JStr (ProjectUpdateOptions.name options)) vars in
  let vars := assign_defined "description"
                (option_map JStr (ProjectUpdateOptions.description options))
                vars in
  let vars := assign_defined "icon"
                (option_map JStr (ProjectUpdateOptions.icon options)) vars in
  let vars := assign_defined "color"
                (option_map JStr (ProjectUpdateOptions.color options)) vars in
  let vars := assign_defined "priority"
                (option_map (fun p => js_num (parseInt p None))
                            (ProjectUpdateOptions.priority options)) vars in
  (* Handle lead *)
  let vars :=
    if flag (ProjectUpdateOptions.clearLead options)
    then set_field "leadId" JNull vars
    else assign_defined "leadId"
           (option_map JStr (ProjectUpdateOptions.lead options)) vars in
  (* Handle dates *)
  let vars :=
    if flag (ProjectUpdateOptions.clearStartDate options)
    then set_field "startDate" JNull vars
    else assign_defined "startDate"
           (option_map JStr (ProjectUpdateOptions.startDate options)) vars in
  let vars :=
    if flag (ProjectUpdateOptions.clearTargetDate options)
    then set_field "targetDate" JNull vars
    else assign_defined "targetDate"
           (option_map JStr (ProjectUpdateOptions.targetDate options)) vars in
  vars.

(** The update action up to the mutation: validation, resolution of the
    project, the update variables, and the team association. *)
Definition updateVariables (projectIdOrName : string)
    (options : ProjectUpdateOptions.t) : Prog (list (string * JS)) :=
  (* Validate mutually exclusive flags *)
  if given (ProjectUpdateOptions.lead options)
     && flag (ProjectUpdateOptions.clearLead options) then
    Throw (Err "Cannot use --lead and --clear-lead together")
  else if given (ProjectUpdateOptions.startDate options)
          && flag (ProjectUpdateOptions.clearStartDate options) then
    Throw (Err "Cannot use --start-date and --clear-start-date together")
  else if given (ProjectUpdateOptions.targetDate options)
          && flag (ProjectUpdateOptions.clearTargetDate options) then
    Throw (Err "Cannot use --target-date and --clear-target-date together")
  else
    projectId <- resolveProjectIdFromGraphQL projectIdOrName ;;
    let vars := updateVars projectId options in
    (* Handle team association *)
    match ProjectUpdateOptions.team options with
    | Some team =>
        teamId <- await (ResolveTeamId team) ;;
        Ret (set_field "teamIds" (JArr [teamId]) vars)
    | None => Ret vars
    end.

(** projects update <projectIdOrName> *)
Definition projects_update (projectIdOrName : string)
    (options : ProjectUpdateOptions.t) : Prog JS :=
  vars <- updateVariables projectIdOrName options ;;
  result <- rawRequest UPDATE_PROJECT_MUTATION (JObj vars) ;;
  projectUpdate <- member result "projectUpdate" ;;
  if negb (truthy (get_opt projectUpdate "success")) then
    Throw (Err "Failed to update project")
  else
    project <- member projectUpdate "project" ;;
    Ret (transformProject project).

(** projects archive <projectIdOrName> *)
Definition projects_archive (projectIdOrName : string) : Prog JS :=
  projectId <- resolveProjectIdFromGraphQL projectIdOrName ;;
  result <- rawRequest ARCHIVE_PROJECT_MUTATION (JObj [("id", projectId)]) ;;
  projectArchive <- member result "projectArchive" ;;
  if negb (truthy (get_opt projectArchive "success")) then
    Throw (Err "Failed to archive project")
  else Ret (JObj [("archived", JBool true); ("id", projectId)]).

End Projects.

(* ===================================================================== *)
(** ** src/utils/graphql-attachments-service.ts                           *)
(* ===================================================================== *)

(** Create an attachment on an issue. *)
Definition createAttachment (input : JS) : Prog JS :=
  result <- rawRequest CREATE_ATTACHMENT_MUTATION (JObj [("input", input)]) ;;
  attachmentCreate <- member result "attachmentCreate" ;;
  success <- member attachmentCreate "success" ;;
  if negb (truthy success) then
    Throw (Err ("Failed to create attachment on issue "
                  ++ toString (get input "issueId") ++ " for URL " ++ dq
                  ++ toString (get input "url") ++ dq))
  else member attachmentCreate "attachment".

(** Delete an attachment. *)
Definition deleteAttachment (id : string) : Prog JS :=
  result <- rawRequest DELETE_ATTACHMENT_MUTATION (JObj [("id", JStr id)]) ;;
  attachmentDelete <- member result "attachmentDelete" ;;
  success <- member attachmentDelete "success" ;;
  if negb (truthy success) then
    Throw (Err ("Failed to delete attachment: " ++ id))
  else Ret (JBool true).

(** List attachments on an issue. *)
Definition listAttachments (issueId : JS) : Prog JS :=
  result <- rawRequest LIST_ATTACHMENTS_QUERY (JObj [("issueId", issueId)]) ;;
  issue <- member result "issue" ;;
  if negb (truthy issue) then
    Throw (Err ("Issue not found: " ++ toString issueId))
  else
    attachments <- member issue "attachments" ;;
    member attachments "nodes".

(* ===================================================================== *)
(** ** src/utils/graphql-documents-service.ts                             *)
(* ===================================================================== *)

(** Create a new document. *)
Definition createDocument (input : JS) : Prog JS :=
  result <- rawRequest CREATE_DOCUMENT_MUTATION (JObj [("input", input)]) ;;
  documentCreate <- member result "documentCreate" ;;
  success <- member documentCreate "success" ;;
  if negb (truthy success) then
    Throw (Err ("Failed to create document " ++ dq
                  ++ toString (get input "title") ++ dq
                  ++ (if truthy (get input "projectId")
                      then " in project " ++ toString (get input "projectId")
                      else "")
                  ++ (if truthy (get input "teamId")
                      then " for team " ++ toString (get input "teamId")
                      else "")))
  else member documentCreate "document".

(** Update an existing document. *)
Definition updateDocument (id : string) (input : JS) : Prog JS :=
  result <- rawRequest UPDATE_DOCUMENT_MUTATION
              (JObj [("id", JStr id); ("input", input)]) ;;
  documentUpdate <- member result "documentUpdate" ;;
  success <- member documentUpdate "success" ;;
  if negb (truthy success) then
    Throw (Err ("Failed to update document: " ++ id))
  else member documentUpdate "document".

(** Get a single document by ID. *)
Definition getDocument (id : string) : Prog JS :=
  result <- rawRequest GET_DOCUMENT_QUERY (JObj [("id", JStr id)]) ;;
  document <- member result "document" ;;
  if negb (truthy document) then
    Throw (Err ("Document not found: " ++ id))
  else Ret document.

(** List documents with optional filtering. *)
Definition listDocuments (projectId : JS) (first : JS) : Prog JS :=
  let filter :=
    if truthy projectId
    then JObj [("project", JObj [("id", JObj [("eq", projectId)])])]
    else JUndefined in
  result <- rawRequest LIST_DOCUMENTS_QUERY
              (JObj [("first", if nullish first then JNum 50 else first);
                     ("filter", filter)]) ;;
  documents <- member result "documents" ;;
  member documents "nodes".

(** Delete (trash) a document. *)
Definition deleteDocument (id : string) : Prog JS :=
  result <- rawRequest DELETE_DOCUMENT_MUTATION (JObj [("id", JStr id)]) ;;
  documentDelete <- member result "documentDelete" ;;
  success <- member documentDelete "success" ;;
  if negb (truthy success) then
    Throw (Err ("Failed to delete document: " ++ id))
  else Ret (JBool true).

(* ===================================================================== *)
(** ** src/commands/documents.ts                                          *)
(* ===================================================================== *)

Module DocumentCreateOptions.
Record t : Type := mk {
  title : string;
  content : option string;
  project : option string;
  team : option string;
  icon : option string;
  color : option string;
  attachTo : option string
}.
End DocumentCreateOptions.

Module DocumentUpdateOptions.
Record t : Type := mk {
  title : option string;
  content : option string;
  project : option string;
  icon : option string;
  color : option string
}.
End DocumentUpdateOptions.

Module DocumentListOptions.
Record t : Type := mk {
  project : option string;
  issue : option string;
  limit : option string
}.
End DocumentListOptions.

(** [[...new Set(xs)]]: the first occurrence of every element, in order. *)
Fixpoint uniq_from (seen : list string) (xs : list string) : list string :=
  match xs with
  | [] => []
  | x :: t =>
      if existsb (String.eqb x) seen then uniq_from seen t
      else x :: uniq_from (x :: seen) t
  end.

Definition uniq (xs : list string) : list string := uniq_from [] xs.

(** [.filter((id) => id !== null)] *)
Fixpoint non_null (xs : list (option string)) : list string :=
  match xs with
  | [] => []
  | Some x :: t => x :: non_null t
  | None :: t => non_null t
  end.

(** [s || null] *)
Definition or_null (s : string) : option string :=
  if s =? "" then None else Some s.

(** [if (s) input.k = s] *)
Definition assign_given (k : string) (o : option string)
    (fields : list (string * JS)) : list (string * JS) :=
  match o with
  | Some s => if s =? "" then fields else set_field k (JStr s) fields
  | None => fields
  end.

Section Documents.
Context `{Runtime}.

(** Extract document slug ID from a Linear document URL.  The [catch]
    branch is the [None] of [parseURL]. *)
Definition extractDocumentIdFromUrl (url : string) : option string :=
  match parseURL url with
  | None => None
  | Some parsed =>
      if negb (includes "linear.app" (hostname parsed)) then None
      else
        let pathParts := split "/" (pathname parsed) in
        match indexOf "document" pathParts with
        | None => None
        | Some docIndex =>
            if (List.length pathParts - 1 <=? docIndex)%nat then None
            else
              let docSlug := nth (docIndex + 1) pathParts "" in
              match lastIndexOf "-" docSlug with
              | None => or_null docSlug
              | Some lastHyphenIndex =>
                  or_null (substring_from (lastHyphenIndex + 1) docSlug)
              end
        end
  end.

(** The command the error of a failed attachment proposes. *)
Definition retryCommand (attachTo url title : string) : string :=
  "linearis attachments create --issue " ++ dq ++ attachTo ++ dq
    ++ " --url " ++ dq ++ url ++ dq ++ " --title " ++ dq ++ title ++ dq.

(** Document was created but attachment failed - provide actionable
    error. *)
Definition attachFailure (document : JS) (attachTo : string)
    (attachError : Error) : Prog JS :=
  id <- member document "id" ;;
  url <- member document "url" ;;
  title <- member document "title" ;;
  Throw (Err ("Document created (" ++ toString id
                ++ ") but failed to attach to issue " ++ dq ++ attachTo ++ dq
                ++ ": " ++ message attachError ++ ". "
                ++ "To retry attachment: "
                ++ retryCommand attachTo (toString url) (toString title))).

(** documents create, first half: resolve the project and the team,
    create the document. *)
Definition createFromOptions (options : DocumentCreateOptions.t) : Prog JS :=
  (* Resolve project ID if provided *)
  projectId <- (if given (DocumentCreateOptions.project options)
                then await (ResolveProjectId
                              (str_coalesce
                                 (DocumentCreateOptions.project options) ""))
                else Ret JUndefined) ;;
  (* Resolve team ID if provided *)
  teamId <- (if given (DocumentCreateOptions.team options)
             then await (ResolveTeamId
                           (str_coalesce
                              (DocumentCreateOptions.team options) ""))
             else Ret JUndefined) ;;
  (* Create the document *)
  createDocument
    (JObj [("title", JStr (DocumentCreateOptions.title options));
           ("content", opt_str (DocumentCreateOptions.content options));
           ("projectId", projectId);
           ("teamId", teamId);
           ("icon", opt_str (DocumentCreateOptions.icon options));
           ("color", opt_str (DocumentCreateOptions.color options))]).

(** documents create, second half: optionally attach to issue. *)
Definition attachToIssue (document : JS) (options : DocumentCreateOptions.t)
  : Prog JS :=
  if given (DocumentCreateOptions.attachTo options) then
    let attachTo := str_coalesce (DocumentCreateOptions.attachTo options) "" in
    issueId <- await (ResolveIssueId attachTo) ;;
    try_catch
      (url <- member document "url" ;;
       title <- member document "title" ;;
       createAttachment
         (JObj [("issueId", issueId); ("url", url); ("title", title)]))
      (attachFailure document attachTo)
  else Ret JUndefined.

(** documents create *)
Definition documents_create (options : DocumentCreateOptions.t) : Prog JS :=
  document <- createFromOptions options ;;
  attachToIssue document options ;;;
  Ret document.

(** documents update <documentId> *)
Definition documents_update (documentId : string)
    (options : DocumentUpdateOptions.t) : Prog JS :=
  (* Build input with only provided fields *)
  let input := [] in
  let input := assign_given "title" (DocumentUpdateOptions.title options) input in
  let input := assign_given "content" (DocumentUpdateOptions.content options) input in
  input <- (if given (DocumentUpdateOptions.project options)
            then projectId <- await (ResolveProjectId
                                       (str_coalesce
                                          (DocumentUpdateOptions.project options)
                                          "")) ;;
                 Ret (set_field "projectId" projectId input)
            else Ret input) ;;
  let input := assign_given "icon" (DocumentUpdateOptions.icon options) input in
  let input := assign_given "color" (DocumentUpdateOptions.color options) input in
  updateDocument documentId (JObj input).

(** documents read <documentId> *)
Definition documents_read (documentId : string) : Prog JS :=
  getDocument documentId.

(** The slug id of one attachment: [extractDocumentIdFromUrl(att.url)]. *)
Definition attachmentSlugId (att : JS) : Prog (option string) :=
  url <- member att "url" ;;
  Ret (extractDocumentIdFromUrl (toString url)).

(** documents list *)
Definition documents_list (options : DocumentListOptions.t) : Prog JS :=
  (* Validate mutually exclusive options *)
  if given (DocumentListOptions.project options)
     && given (DocumentListOptions.issue options) then
    Throw (Err "Cannot use --project and --issue together. Choose one filter.")
  else
    (* Validate limit option *)
    let limit := parseInt (str_or (DocumentListOptions.limit options) "50")
                          (Some 10%Z) in
    if match limit with
       | None => true
       | Some n => (n <? 1)%Z
       end then
      Throw (Err ("Invalid limit " ++ dq
                    ++ toString (opt_str (DocumentListOptions.limit options))
                    ++ dq ++ ": must be a positive number"))
    else if given (DocumentListOptions.issue options) then
      (* Handle --issue filter: find documents via attachments *)
      issueId <- await (ResolveIssueId
                          (str_coalesce (DocumentListOptions.issue options) "")) ;;
      attachments <- listAttachments issueId ;;
      items <- elements attachments ;;
      (* Extract document slug IDs from Linear document URLs and deduplicate *)
      ids <- mapM attachmentSlugId items ;;
      let documentSlugIds := uniq (non_null ids) in
      if (List.length documentSlugIds =? 0)%nat then Ret (JArr [])
      else await (ListDocumentsBySlugIds documentSlugIds (js_num limit))
    else
      (* Handle --project filter or no filter *)
      projectId <- (if given (DocumentListOptions.project options)
                    then await (ResolveProjectId
                                  (str_coalesce
                                     (DocumentListOptions.project options) ""))
                    else Ret JUndefined) ;;
      listDocuments projectId (js_num limit).

(** documents delete <documentId> *)
Definition documents_delete (documentId : string) : Prog JS :=
  deleteDocument documentId ;;;
  Ret (JObj [("success", JBool true);
             ("message", JStr "Document moved to trash")]).

End Documents.

(* ===================================================================== *)
(** ** src/commands/attachments.ts                                        *)
(* ===================================================================== *)

Module AttachmentCreateOptions.
Record t : Type := mk {
  issue : string;
  url : string;
  title : string;
  subtitle : option string;
  comment : option string;
  iconUrl : option string
}.
End AttachmentCreateOptions.

(** attachments create *)
Definition attachments_create (options : AttachmentCreateOptions.t) : Prog JS :=
  issueId <- await (ResolveIssueId (AttachmentCreateOptions.issue options)) ;;
  createAttachment
    (JObj [("issueId", issueId);
           ("url", JStr (AttachmentCreateOptions.url options));
           ("title", JStr (AttachmentCreateOptions.title options));
           ("subtitle", opt_str (AttachmentCreateOptions.subtitle options));
           ("commentBody", opt_str (AttachmentCreateOptions.comment options));
           ("iconUrl", opt_str (AttachmentCreateOptions.iconUrl options))]).

(** attachments list *)
Definition attachments_list (issue : string) : Prog JS :=
  issueId <- await (ResolveIssueId issue) ;;
  listAttachments issueId.

(** attachments delete <attachmentId> *)
Definition attachments_delete (attachmentId : string) : Prog JS :=
  deleteAttachment attachmentId ;;;
  Ret (JObj [("deleted", JBool true); ("id", JStr attachmentId)]).

(* ===================================================================== *)
(** ** A concrete runtime, for examples                                   *)
(* ===================================================================== *)

Definition isHex (c : ascii) : bool :=
  match digitValue c with
  | Some d => (d <? 16)%Z
  | None => false
  end.

(** [s] starts with [n] hexadecimal digits: the rest of [s]. *)
Fixpoint hexGroup (n : nat) (s : string) : option string :=
  match n, s with
  | O, _ => Some s
  | S n', String c t => if isHex c then hexGroup n' t else None
  | S _, EmptyString => None
  end.

Definition hyphen (s : string) : option string :=
  match s with
  | String "-" t => Some t
  | _ => None
  end.

Definition andThen {A B : Type} (o : option A) (f : A -> option B) : option B :=
  match o with
  | Some a => f a
  | None => None
  end.

(** Modelled from the spec: utils/uuid.js is missing.  An opaque
    identifier has a fixed lexical shape, hyphenated groups of
    hexadecimal digits: 8, 4, 4, 4 and 12 of them. *)
Definition isUuidShape (s : string) : bool :=
  let groups :=
    andThen (andThen (andThen (andThen (andThen (andThen (andThen (andThen
      (hexGroup 8 s) hyphen) (hexGroup 4)) hyphen) (hexGroup 4)) hyphen)
      (hexGroup 4)) hyphen) (hexGroup 12) in
  match groups with
  | Some EmptyString => true
  | _ => false
  end.

(** [s] cut before the first character among [stops]. *)
Fixpoint cutAt (stops : list ascii) (s : string) : string * string :=
  match s with
  | EmptyString => (EmptyString, EmptyString)
  | String c t =>
      if existsb (Ascii.eqb c) stops then (EmptyString, s)
      else let '(a, b) := cutAt stops t in (String c a, b)
  end.

(** A stand-in for [new URL(s)] on plain http and https addresses without
    credentials and ports: enough to run the commands on examples.  The
    theorems hold for every [parseURL]. *)
Definition parseURLSimple (s : string) : option URL :=
  let rest :=
    if prefix "https://" s then Some (substring_from 8 s)
    else if prefix "http://" s then Some (substring_from 7 s)
    else None in
  match rest with
  | None => None
  | Some r =>
      let '(host, tail) := cutAt ["/"; "?"; "#"]%char r in
      if host =? "" then None
      else
        let '(path, _) := cutAt ["?"; "#"]%char tail in
        Some (mkURL host (if path =? "" then "/" else path))
  end.

Definition exampleRuntime : Runtime :=
  {| isUuid := isUuidShape; parseURL := parseURLSimple |}.

(* ===================================================================== *)
(** ** Vocabulary of the statements                                       *)
(* ===================================================================== *)

(** The name lookup of [resolveProjectIdFromGraphQL]. *)
Definition findProjectByName (name : string) : Call :=
  RawRequest FIND_PROJECT_BY_NAME_QUERY (JObj [("name", JStr name)]).

(** [result.projects?.nodes || []], the matches of a lookup. *)
Definition matchesOf (result : JS) : JS :=
  js_or (get_opt (get result "projects") "nodes") (JArr []).

(** The text of one candidate, for a candidate that is not null. *)
Definition candidateText (p : JS) : string :=
  dq ++ toString (get p "name") ++ dq ++ " (" ++ toString (get p "state") ++ ")".

(** The three exclusive pairs of [projects update] are respected. *)
Definition updateValid (options : ProjectUpdateOptions.t) : bool :=
  negb (given (ProjectUpdateOptions.lead options)
        && flag (ProjectUpdateOptions.clearLead options))
  && negb (given (ProjectUpdateOptions.startDate options)
           && flag (ProjectUpdateOptions.clearStartDate options))
  && negb (given (ProjectUpdateOptions.targetDate options)
           && flag (ProjectUpdateOptions.clearTargetDate options)).

(** The names a [projects update] may put in its variables. *)
Definition updateKeys : list string :=
  ["id"; "name"; "description"; "icon"; "color"; "priority"; "leadId";
   "startDate"; "targetDate"; "teamIds"].

(** An environment that answers from a table keyed by the position of the
    call in the run, and rejects everything else. *)
Definition scripted (script : list Outcome) : Env :=
  fun hist _ => nth (List.length hist) script (Fail (Rejected "no reply")).

(** The query that lists the attachments of an issue. *)
Definition listAttachmentsCall (issueId : JS) : Call :=
  RawRequest LIST_ATTACHMENTS_QUERY (JObj [("issueId", issueId)]).

(** A call that asks for documents. *)
Definition is_document_query (c : Call) : bool :=
  match c with
  | ListDocumentsBySlugIds _ _ => true
  | RawRequest LIST_DOCUMENTS_QUERY _ => true
  | RawRequest GET_DOCUMENT_QUERY _ => true
  | _ => false
  end.

(** The slug id the listing reads off one attachment that is not null. *)
Definition slugOf `{Runtime} (att : JS) : option string :=
  extractDocumentIdFromUrl (toString (get att "url")).

(** The reply to a mutation carries a non-success flag: the payload
    [result.field] is there and its [success] is not truthy. *)
Definition refused (result : JS) (field : string) : Prop :=
  nullish result = false
  /\ nullish (get result field) = false
  /\ truthy (get (get result field) "success") = false.

(** A program that makes no call. *)
Inductive Silent {A : Type} : Prog A -> Prop :=
| silent_ret (a : A) : Silent (Ret a)
| silent_throw (e : Error) : Silent (Throw e).

(* --------------------------------------------------------------------- *)
(** *** Example data                                                      *)
(* --------------------------------------------------------------------- *)

Definition exampleUuid : string := "123e4567-e89b-12d3-a456-426614174000".

Definition lookupReply (nodes : list JS) : JS :=
  JObj [("projects", JObj [("nodes", JArr nodes)])].

Definition projectNode (id name state : string) : JS :=
  JObj [("id", JStr id); ("name", JStr name); ("state", JStr state)].

Definition twoApollos : list JS :=
  [projectNode "p1" "Apollo" "started"; projectNode "p2" "apollo" "planned"].

Definition refusal (field : string) : JS :=
  JObj [(field, JObj [("success", JBool false)])].

Definition exampleUpdate : ProjectUpdateOptions.t :=
  ProjectUpdateOptions.mk (Some "Apollo 2") None None None None (Some "2")
    None None (Some "ENG") (Some true) None None.

Definition exampleUpdateVars : JS :=
  JObj [("id", JStr "p1"); ("name", JStr "Apollo 2"); ("priority", JNum 2);
        ("leadId", JNull); ("teamIds", JArr [JStr "team-1"])].

Definition exampleUpdateEnv : Env :=
  scripted [Reply (lookupReply [projectNode "p1" "Apollo" "started"]);
            Reply (JStr "team-1");
            Reply (refusal "projectUpdate")].

Definition exampleCreate : ProjectCreateOptions.t :=
  ProjectCreateOptions.mk "ENG" None None None None None None None.

Definition exampleCreateEnv : Env :=
  scripted [Reply (JStr "team-1"); Reply (refusal "projectCreate")].

Definition exampleProject : list (string * JS) :=
  [("id", JStr "p1");
   ("teams", JObj [("nodes", JArr [JObj [("key", JStr "ENG")]])]);
   ("members", JNull)].

Definition attachment (url : string) : JS :=
  JObj [("id", JStr "a"); ("url", JStr url)].

Definition exampleAttachments : list JS :=
  [attachment "https://linear.app/acme/document/design-notes-abc123";
   attachment "not a url";
   attachment "https://example.com/acme/document/other-zzz999";
   attachment "https://linear.app/acme/document/design-notes-abc123";
   attachment "https://linear.app/acme/issue/ENG-1"].

Definition attachmentsReply (atts : list JS) : JS :=
  JObj [("issue", JObj [("attachments", JObj [("nodes", JArr atts)])])].

Definition exampleDocument : JS :=
  JObj [("id", JStr "doc-1"); ("title", JStr "Design notes");
        ("slugId", JStr "abc123");
        ("url", JStr "https://linear.app/acme/document/design-notes-abc123")].

Definition exampleListByIssue : DocumentListOptions.t :=
  DocumentListOptions.mk None (Some "ENG-1") None.

Definition exampleListEnv : Env :=
  scripted [Reply (JStr "issue-1");
            Reply (attachmentsReply exampleAttachments);
            Reply (JArr [exampleDocument])].

Definition exampleDocumentCreate : DocumentCreateOptions.t :=
  DocumentCreateOptions.mk "Design notes" None None None None None
    (Some "ENG-1").

Definition exampleDocumentCreateEnv : Env :=
  scripted [Reply (JObj [("documentCreate",
                          JObj [("success", JBool true);
                                ("document", exampleDocument)])]);
            Reply (JStr "issue-1");
            Reply (refusal "attachmentCreate")].

Definition exampleCreateDocumentCall : Call :=
  RawRequest CREATE_DOCUMENT_MUTATION
    (JObj [("input",
            JObj [("title", JStr "Design notes");
                  ("content", JUndefined);
                  ("projectId", JUndefined);
                  ("teamId", JUndefined);
                  ("icon", JUndefined);
                  ("color", JUndefined)])]).

Definition exampleAttachCall : Call :=
  RawRequest CREATE_ATTACHMENT_MUTATION
    (JObj [("input",
            JObj [("issueId", JStr "issue-1");
                  ("url", get exampleDocument "url");
                  ("title", get exampleDocument "title")])]).

Definition exampleAttachError : Error :=
  Err ("Failed to create attachment on issue issue-1 for URL " ++ dq
         ++ "https://linear.app/acme/document/design-notes-abc123" ++ dq).

(* --------------------------------------------------------------------- *)
(** *** Shapes of programs                                                *)
(* --------------------------------------------------------------------- *)

(** [MayCall p c]: some run of [p] makes the call [c]. *)
Inductive MayCall {A : Type} : Prog A -> Call -> Prop :=
| may_now (c : Call) (k : Outcome -> Prog A) : MayCall (Do c k) c
| may_later (c : Call) (k : Outcome -> Prog A) (o : Outcome) (c' : Call) :
    MayCall (k o) c' -> MayCall (Do c k) c'.

(** A program whose calls are all queries and resolutions. *)
Inductive Lookups {A : Type} : Prog A -> Prop :=
| lookups_ret (a : A) : Lookups (Ret a)
| lookups_throw (e : Error) : Lookups (Throw e)
| lookups_do (c : Call) (k : Outcome -> Prog A) :
    is_mutation c = false -> (forall o, Lookups (k o)) -> Lookups (Do c k).

(** A program that calls nothing once it has sent a mutation. *)
Inductive EndsAtMutation {A : Type} : Prog A -> Prop :=
| ends_ret (a : A) : EndsAtMutation (Ret a)
| ends_throw (e : Error) : EndsAtMutation (Throw e)
| ends_last (c : Call) (k : Outcome -> Prog A) :
    (forall o, Silent (k o)) -> EndsAtMutation (Do c k)
| ends_before (c : Call) (k : Outcome -> Prog A) :
    is_mutation c = false -> (forall o, EndsAtMutation (k o)) ->
    EndsAtMutation (Do c k).

(** A program that answers the rejection of any of its calls by throwing
    that very error at once. *)
Inductive Unwrapped {A : Type} : Prog A -> Prop :=
| unwrapped_ret (a : A) : Unwrapped (Ret a)
| unwrapped_throw (e : Error) : Unwrapped (Throw e)
| unwrapped_do (c : Call) (k : Outcome -> Prog A) :
    (forall e, k (Fail e) = Throw e) ->
    (forall v, Unwrapped (k (Reply v))) -> Unwrapped (Do c k).

(** [c] occurs in [s]. *)
Fixpoint hasChar (c : ascii) (s : string) : bool :=
  match s with
  | EmptyString => false
  | String c' t => Ascii.eqb c' c || hasChar c t
  end.


(** What [if (s) input.k = s] keeps of an optional string. *)
Definition kept (o : option string) : option JS :=
  match o with
  | Some s => if s =? "" then None else Some (JStr s)
  | None => None
  end.

(** The limit [documents list] works with. *)
Definition listLimit (options : DocumentListOptions.t) : option Z :=
  parseInt (str_or (DocumentListOptions.limit options) "50") (Some 10%Z).

(** The limit parses to a positive integer. *)
Definition limitValid (options : DocumentListOptions.t) : bool :=
  match listLimit options with
  | Some n => (1 <=? n)%Z
  | None => false
  end.

(* --------------------------------------------------------------------- *)
(** *** More example data                                                 *)
(* --------------------------------------------------------------------- *)

(** The reply of a mutation that went through. *)
Definition confirmation (field : string) : JS :=
  JObj [(field, JObj [("success", JBool true)])].

Definition exampleArchiveEnv : Env :=
  scripted [Reply (lookupReply [projectNode "p1" "Apollo" "started"]);
            Reply (confirmation "projectArchive")].

Definition exampleArchiveCall : Call :=
  RawRequest ARCHIVE_PROJECT_MUTATION (JObj [("id", JStr "p1")]).

Definition exampleConflict : ProjectUpdateOptions.t :=
  ProjectUpdateOptions.mk None None None None (Some "alice") None
    None None None (Some true) None None.

Definition exampleRead : ProjectReadOptions.t :=
  ProjectReadOptions.mk (Some "0") (Some "many").

Definition exampleReadVars : JS :=
  JObj [("id", JStr exampleUuid);
        ("milestonesFirst", JNum 1);
        ("issuesFirst", JNum 1);
        ("skipMilestones", JBool true);
        ("skipIssues", JBool false)].

Definition exampleList : ProjectListOptions.t :=
  ProjectListOptions.mk None None.

Definition exampleDocumentUpdate : DocumentUpdateOptions.t :=
  DocumentUpdateOptions.mk (Some "") (Some "Body") None None None.

Definition exampleDocumentUpdateInput : JS :=
  JObj [("id", JStr "doc-1"); ("input", JObj [("content", JStr "Body")])].

Definition exampleListBoth : DocumentListOptions.t :=
  DocumentListOptions.mk (Some "Apollo") (Some "ENG-1") None.

Definition exampleListFive : DocumentListOptions.t :=
  DocumentListOptions.mk None None (Some "5").

Definition exampleDocumentUrl : string :=
  "https://linear.app/acme/document/design-notes-abc123".

(** A project as the API returns it when it has no lead and the query
    asked for no teams. *)
Definition exampleLeadless : list (string * JS) :=
  [("id", JStr "p2"); ("name", JStr "Gemini"); ("lead", JNull)].



(* ===================================================================== *)
(** ** Running commands: general facts                                    *)
(* ===================================================================== *)

Lemma exec_bind {A B : Type} (env : Env) (p : Prog A) (f : A -> Prog B) :
  forall hist,
    exec env hist (bind p f) =
    match exec env hist p with
    | (Ok a, h) => exec env h (f a)
    | (Failed e, h) => (Failed e, h)
    end.
Proof.
  induction p as [a | e | c k IH]; intros hist; simpl; auto.
Qed.

Lemma exec_try_catch {A : Type} (env : Env) (p : Prog A) (h : Error -> Prog A) :
  forall hist,
    exec env hist (try_catch p h) =
    match exec env hist p with
    | (Ok a, h') => (Ok a, h')
    | (Failed e, h') => exec env h' (h e)
    end.
Proof.
  induction p as [a | e | c k IH]; intros hist; simpl; auto.
Qed.

Lemma exec_await (env : Env) (hist : list Call) (c : Call) :
  exec env hist (await c) =
  (match env hist c with
   | Reply v => Ok v
   | Fail e => Failed e
   end, (hist ++ [c])%list).
Proof.
  unfold await; simpl. destruct (env hist c); reflexivity.
Qed.

Lemma exec_member (env : Env) (hist : list Call) (v : JS) (k : string) :
  nullish v = false ->
  exec env hist (member v k) = (Ok (get v k), hist).
Proof.
  intros Hv. unfold member. rewrite Hv. reflexivity.
Qed.

Lemma silent_exec {A : Type} (env : Env) (hist : list Call) (p : Prog A) :
  Silent p -> snd (exec env hist p) = hist.
Proof.
  intros [a | e]; reflexivity.
Qed.

Lemma silent_bind {A B : Type} (p : Prog A) (f : A -> Prog B) :
  Silent p -> (forall a, Silent (f a)) -> Silent (bind p f).
Proof.
  intros [a | e] Hf; simpl; auto. constructor.
Qed.

Lemma silent_member (v : JS) (k : string) : Silent (member v k).
Proof.
  unfold member. destruct (nullish v); constructor.
Qed.

Lemma silent_elements (v : JS) : Silent (elements v).
Proof.
  destruct v; constructor.
Qed.

Lemma silent_candidate (p : JS) : Silent (candidate p).
Proof.
  unfold candidate.
  apply silent_bind; [apply silent_member | intros name].
  apply silent_bind; [apply silent_member | intros state].
  constructor.
Qed.

Lemma silent_mapM {A B : Type} (f : A -> Prog B) (l : list A) :
  (forall a, Silent (f a)) -> Silent (mapM f l).
Proof.
  intros Hf. induction l as [| x t IH]; simpl.
  - constructor.
  - apply silent_bind; [apply Hf | intros y].
    apply silent_bind; [exact IH | intros ys]. constructor.
Qed.

Lemma candidate_text (p : JS) :
  nullish p = false -> candidate p = Ret (candidateText p).
Proof.
  intros Hp. unfold candidate, member. rewrite Hp. reflexivity.
Qed.

Lemma mapM_candidate (nodes : list JS) :
  Forall (fun p => nullish p = false) nodes ->
  mapM candidate nodes = Ret (map candidateText nodes).
Proof.
  induction 1 as [| p t Hp _ IH]; simpl.
  - reflexivity.
  - rewrite (candidate_text p Hp), IH. reflexivity.
Qed.

(* ===================================================================== *)
(** ** Resolution of a project name                                       *)
(* ===================================================================== *)

Section ProjectResolution.
Context `{Runtime}.

(** The only call resolution ever makes is the name lookup, and it makes
    it exactly when the input is not an opaque identifier. *)
Lemma resolve_trace (env : Env) (hist : list Call) (s : string) :
  snd (exec env hist (resolveProjectIdFromGraphQL s)) =
  if isUuid s then hist else (hist ++ [findProjectByName s])%list.
Proof.
  unfold resolveProjectIdFromGraphQL.
  destruct (isUuid s); [reflexivity |].
  rewrite exec_bind. unfold rawRequest. rewrite exec_await.
  fold (findProjectByName s).
  destruct (env hist (findProjectByName s)) as [result | e]; [| reflexivity].
  apply silent_exec.
  apply silent_bind; [apply silent_member | intros projects].
  apply silent_bind; [apply silent_elements | intros nodes].
  destruct (List.length nodes =? 0)%nat; [constructor |].
  destruct (1 <? List.length nodes)%nat; [| apply silent_member].
  apply silent_bind; [| intros; constructor].
  apply silent_mapM, silent_candidate.
Qed.

(** What resolution does with the reply of the lookup. *)
Lemma resolve_lookup (env : Env) (name : string) (result : JS)
    (nodes : list JS) :
  isUuid name = false ->
  env [] (findProjectByName name) = Reply result ->
  nullish result = false ->
  matchesOf result = JArr nodes ->
  run env (resolveProjectIdFromGraphQL name) =
  exec env [findProjectByName name]
    (if (List.length nodes =? 0)%nat then
       Throw (notFoundError "Project" name)
     else if (1 <? List.length nodes)%nat then
       matches <- mapM candidate nodes ;;
       Throw (multipleMatchesError "project" name matches "use the project ID")
     else member (nth 0 nodes JUndefined) "id").
Proof.
  intros Huuid Hreply Hresult Hnodes.
  unfold run, resolveProjectIdFromGraphQL. rewrite Huuid.
  rewrite exec_bind. unfold rawRequest. rewrite exec_await.
  fold (findProjectByName name). rewrite Hreply.
  rewrite exec_bind, (exec_member _ _ _ _ Hresult).
  rewrite exec_bind. fold (matchesOf result). rewrite Hnodes.
  reflexivity.
Qed.

(** A failed resolution is the failure of the command: nothing is called
    after it. *)
Lemma resolution_failure_ends_command (env : Env) (name : string)
    (e : Error) (h : list Call) :
  run env (resolveProjectIdFromGraphQL name) = (Failed e, h) ->
  (forall options, run env (projects_read name options) = (Failed e, h))
  /\ (forall options, updateValid options = true ->
                     run env (projects_update name options) = (Failed e, h))
  /\ run env (projects_archive name) = (Failed e, h).
Proof.
  unfold run. intros Hres. repeat split.
  - intros options. unfold projects_read. rewrite exec_bind, Hres. reflexivity.
  - intros options Hvalid. unfold projects_update, updateVariables.
    unfold updateValid in Hvalid.
    apply andb_prop in Hvalid as [Hvalid Htarget].
    apply andb_prop in Hvalid as [Hlead Hstart].
    apply negb_true_iff in Hlead, Hstart, Htarget.
    rewrite Hlead, Hstart, Htarget.
    rewrite !exec_bind, Hres. reflexivity.
  - unfold projects_archive. rewrite exec_bind, Hres. reflexivity.
Qed.

(** C5.  An input that already has the shape of an opaque identifier is
    returned unchanged by project resolution, and resolution makes no
    call at all: the name lookup is skipped. *)
Theorem C5_uuid_input_skips_lookup (env : Env) (s : string) :
  isUuid s = true ->
  run env (resolveProjectIdFromGraphQL s) = (Ok (JStr s), []).
Proof.
  intros Huuid. unfold run, resolveProjectIdFromGraphQL.
  rewrite Huuid. reflexivity.
Qed.

(** C4.  When the lookup of a project name returns no match, resolution
    fails with the not-found error built from the entity kind "Project"
    and the value the user supplied; the read, update and archive commands
    fail with that same error, and the only call of the run is the lookup,
    so no mutation is issued. *)
Theorem C4_no_match_is_not_found (env : Env) (name : string) (result : JS) :
  isUuid name = false ->
  env [] (findProjectByName name) = Reply result ->
  nullish result = false ->
  matchesOf result = JArr [] ->
  let outcome := (@Failed JS (notFoundError "Project" name),
                  [findProjectByName name]) in
  notFoundError "Project" name = NotFound "Project" name
  /\ run env (resolveProjectIdFromGraphQL name) = outcome
  /\ (forall options, run env (projects_read name options) = outcome)
  /\ (forall options, updateValid options = true ->
                     run env (projects_update name options) = outcome)
  /\ run env (projects_archive name) = outcome
  /\ existsb is_mutation (snd outcome) = false.
Proof.
  intros Huuid Hreply Hresult Hnodes outcome.
  assert (Hres : run env (resolveProjectIdFromGraphQL name) = outcome).
  { rewrite (resolve_lookup env name result [] Huuid Hreply Hresult Hnodes).
    reflexivity. }
  destruct (resolution_failure_ends_command env name _ _ Hres)
    as (Hread & Hupdate & Harchive).
  repeat split; auto.
Qed.

(** C3.  When the lookup of a project name returns more than one match,
    resolution fails with the ambiguity error whose listing has one entry
    per match, in order, each giving the candidate's name and state.
    Project resolution takes no scoping context, so nothing resolves the
    tie.  The read, update and archive commands fail with that same
    error, and the only call of the run is the lookup, so no mutation is
    issued. *)
Theorem C3_several_matches_are_ambiguous (env : Env) (name : string)
    (result : JS) (nodes : list JS) :
  isUuid name = false ->
  env [] (findProjectByName name) = Reply result ->
  nullish result = false ->
  matchesOf result = JArr nodes ->
  (1 < List.length nodes)%nat ->
  Forall (fun p => nullish p = false) nodes ->
  let listing := map candidateText nodes in
  let outcome :=
    (@Failed JS (multipleMatchesError "project" name listing
                                      "use the project ID"),
     [findProjectByName name]) in
  multipleMatchesError "project" name listing "use the project ID"
    = MultipleMatches "project" name listing "use the project ID"
  /\ List.length listing = List.length nodes
  /\ (forall i p, nth_error nodes i = Some p ->
                 nth_error listing i =
                 Some (dq ++ toString (get p "name") ++ dq
                          ++ " (" ++ toString (get p "state") ++ ")"))
  /\ run env (resolveProjectIdFromGraphQL name) = outcome
  /\ (forall options, run env (projects_read name options) = outcome)
  /\ (forall options, updateValid options = true ->
                     run env (projects_update name options) = outcome)
  /\ run env (projects_archive name) = outcome
  /\ existsb is_mutation (snd outcome) = false.
Proof.
  intros Huuid Hreply Hresult Hnodes Hmany Hobjects listing outcome.
  assert (Hres : run env (resolveProjectIdFromGraphQL name) = outcome).
  { rewrite (resolve_lookup env name result nodes Huuid Hreply Hresult Hnodes).
    destruct (Nat.eqb_spec (List.length nodes) 0) as [Hzero | _]; [lia |].
    destruct (Nat.ltb_spec 1 (List.length nodes)) as [_ | Hfew]; [| lia].
    rewrite exec_bind, (mapM_candidate nodes Hobjects). reflexivity. }
  destruct (resolution_failure_ends_command env name _ _ Hres)
    as (Hread & Hupdate & Harchive).
  repeat split; auto.
  - apply length_map.
  - intros i p Hp. unfold listing. rewrite nth_error_map, Hp. reflexivity.
Qed.

End ProjectResolution.

(* ===================================================================== *)
(** ** Objects as finite maps                                             *)
(* ===================================================================== *)

Lemma assoc_set_field (k k' : string) (x : JS) (fields : list (string * JS)) :
  assoc k (set_field k' x fields) =
  if k' =? k then Some x else assoc k fields.
Proof.
  induction fields as [| [k0 v0] rest IH]; simpl.
  - destruct (k' =? k); reflexivity.
  - destruct (String.eqb_spec k0 k') as [-> | Hne]; simpl.
    + destruct (k' =? k); reflexivity.
    + rewrite IH.
      destruct (String.eqb_spec k0 k) as [-> | Hne']; [| reflexivity].
      destruct (String.eqb_spec k' k) as [-> | _]; [congruence | reflexivity].
Qed.

Lemma assoc_assign_defined (k k' : string) (o : option JS)
    (fields : list (string * JS)) :
  assoc k (assign_defined k' o fields) =
  match o with
  | Some x => if k' =? k then Some x else assoc k fields
  | None => assoc k fields
  end.
Proof.
  destruct o; simpl; [apply assoc_set_field | reflexivity].
Qed.

Lemma assoc_set_field_other (k k' : string) (x : JS)
    (fields : list (string * JS)) :
  k' <> k -> assoc k (set_field k' x fields) = assoc k fields.
Proof.
  intros Hne. rewrite assoc_set_field.
  destruct (String.eqb_spec k' k); [contradiction | reflexivity].
Qed.

Lemma assoc_assign_defined_other (k k' : string) (o : option JS)
    (fields : list (string * JS)) :
  k' <> k -> assoc k (assign_defined k' o fields) = assoc k fields.
Proof.
  intros Hne. destruct o; simpl; [apply assoc_set_field_other, Hne | reflexivity].
Qed.

Lemma keys_set_field_present (k : string) (x : JS)
    (fields : list (string * JS)) :
  In k (keys fields) -> keys (set_field k x fields) = keys fields.
Proof.
  induction fields as [| [k0 v0] rest IH]; simpl; [tauto |].
  intros Hin. destruct (String.eqb_spec k0 k) as [-> | Hne]; simpl.
  - reflexivity.
  - f_equal. apply IH. destruct Hin; [contradiction | assumption].
Qed.

Lemma keys_set_field_absent (k : string) (x : JS)
    (fields : list (string * JS)) :
  ~ In k (keys fields) -> keys (set_field k x fields) = (keys fields ++ [k])%list.
Proof.
  induction fields as [| [k0 v0] rest IH]; simpl; [reflexivity |].
  intros Hnot. destruct (String.eqb_spec k0 k) as [-> | Hne]; simpl.
  - exfalso. apply Hnot. now left.
  - f_equal. apply IH. intros Hin. apply Hnot. now right.
Qed.

Lemma NoDup_set_field (k : string) (x : JS) (fields : list (string * JS)) :
  NoDup (keys fields) -> NoDup (keys (set_field k x fields)).
Proof.
  intros Hnd. destruct (in_dec string_dec k (keys fields)) as [Hin | Hnot].
  - rewrite keys_set_field_present; assumption.
  - rewrite keys_set_field_absent by assumption.
    apply NoDup_app; [assumption | repeat constructor; simpl; tauto |].
    intros a Ha [<- | []]. contradiction.
Qed.

Lemma NoDup_assign_defined (k : string) (o : option JS)
    (fields : list (string * JS)) :
  NoDup (keys fields) -> NoDup (keys (assign_defined k o fields)).
Proof.
  destruct o; simpl; [apply NoDup_set_field | auto].
Qed.

Lemma get_set_field (k k' : string) (x : JS) (fields : list (string * JS)) :
  get (JObj (set_field k' x fields)) k =
  if k' =? k then x else get (JObj fields) k.
Proof.
  simpl. rewrite assoc_set_field. destruct (k' =? k); reflexivity.
Qed.

(* ===================================================================== *)
(** ** The variables of [projects update]                                 *)
(* ===================================================================== *)

Ltac assoc_step :=
  first [ rewrite assoc_assign_defined_other by discriminate
        | rewrite assoc_set_field_other by discriminate
        | rewrite assoc_assign_defined
        | rewrite assoc_set_field ].

Ltac assoc_away Hk :=
  repeat first
    [ rewrite assoc_assign_defined_other
        by (intros E; subst; apply Hk; unfold updateKeys; simpl; tauto)
    | rewrite assoc_set_field_other
        by (intros E; subst; apply Hk; unfold updateKeys; simpl; tauto) ].

Section UpdateVariables.
Context `{Runtime}.

Lemma updateVars_NoDup (pid : JS) (options : ProjectUpdateOptions.t) :
  NoDup (keys (updateVars pid options)).
Proof.
  unfold updateVars. cbv zeta.
  destruct (flag (ProjectUpdateOptions.clearLead options)),
           (flag (ProjectUpdateOptions.clearStartDate options)),
           (flag (ProjectUpdateOptions.clearTargetDate options));
    repeat first [apply NoDup_set_field | apply NoDup_assign_defined];
    simpl; repeat constructor; simpl; tauto.
Qed.

(** The value of every field of the variables, before the team is added. *)
Lemma updateVars_fields (pid : JS) (options : ProjectUpdateOptions.t) :
  let fields := updateVars pid options in
  assoc "id" fields = Some pid
  /\ assoc "name" fields = option_map JStr (ProjectUpdateOptions.name options)
  /\ assoc "description" fields
     = option_map JStr (ProjectUpdateOptions.description options)
  /\ assoc "icon" fields = option_map JStr (ProjectUpdateOptions.icon options)
  /\ assoc "color" fields = option_map JStr (ProjectUpdateOptions.color options)
  /\ assoc "priority" fields
     = option_map (fun p => js_num (parseInt p None))
                  (ProjectUpdateOptions.priority options)
  /\ assoc "leadId" fields
     = (if flag (ProjectUpdateOptions.clearLead options) then Some JNull
        else option_map JStr (ProjectUpdateOptions.lead options))
  /\ assoc "startDate" fields
     = (if flag (ProjectUpdateOptions.clearStartDate options) then Some JNull
        else option_map JStr (ProjectUpdateOptions.startDate options))
  /\ assoc "targetDate" fields
     = (if flag (ProjectUpdateOptions.clearTargetDate options) then Some JNull
        else option_map JStr (ProjectUpdateOptions.targetDate options))
  /\ assoc "teamIds" fields = None
  /\ (forall k, ~ In k updateKeys -> assoc k fields = None).
Proof.
  unfold updateVars. cbv zeta.
  destruct options as [name description icon color lead priority startDate
                       targetDate team clearLead clearStartDate clearTargetDate].
  cbn [ProjectUpdateOptions.name ProjectUpdateOptions.description
       ProjectUpdateOptions.icon ProjectUpdateOptions.color
       ProjectUpdateOptions.lead ProjectUpdateOptions.priority
       ProjectUpdateOptions.startDate ProjectUpdateOptions.targetDate
       ProjectUpdateOptions.team ProjectUpdateOptions.clearLead
       ProjectUpdateOptions.clearStartDate
       ProjectUpdateOptions.clearTargetDate].
  destruct (flag clearLead), (flag clearStartDate), (flag clearTargetDate);
    (repeat split;
     [ repeat assoc_step; reflexivity
     | repeat assoc_step; destruct name; reflexivity
     | repeat assoc_step; destruct description; reflexivity
     | repeat assoc_step; destruct icon; reflexivity
     | repeat assoc_step; destruct color; reflexivity
     | repeat assoc_step; destruct priority; reflexivity
     | repeat assoc_step; try destruct lead; reflexivity
     | repeat assoc_step; try destruct startDate; reflexivity
     | repeat assoc_step; try destruct targetDate; reflexivity
     | repeat assoc_step; reflexivity
     | intros k Hk; assoc_away Hk; cbn [assoc];
       destruct (String.eqb_spec "id" k) as [<- | _];
       [exfalso; apply Hk; unfold updateKeys; simpl; tauto | reflexivity] ]).
Qed.

End UpdateVariables.

Section UpdateCommand.
Context `{Runtime}.

(** Everything [projects update] calls before its mutation is a lookup. *)
Lemma updateVariables_calls (env : Env) (s : string)
    (options : ProjectUpdateOptions.t) (c : Call) :
  In c (snd (exec env [] (updateVariables s options))) ->
  is_mutation c = false.
Proof.
  unfold updateVariables.
  destruct (given (ProjectUpdateOptions.lead options)
            && flag (ProjectUpdateOptions.clearLead options));
    [simpl; tauto |].
  destruct (given (ProjectUpdateOptions.startDate options)
            && flag (ProjectUpdateOptions.clearStartDate options));
    [simpl; tauto |].
  destruct (given (ProjectUpdateOptions.targetDate options)
            && flag (ProjectUpdateOptions.clearTargetDate options));
    [simpl; tauto |].
  rewrite exec_bind.
  pose proof (resolve_trace env [] s) as Htrace.
  destruct (exec env [] (resolveProjectIdFromGraphQL s)) as [[pid | e] h].
  - simpl in Htrace.
    assert (Hh : forall c', In c' h -> is_mutation c' = false).
    { intros c' Hc'. subst h. destruct (isUuid s); simpl in Hc'; [tauto |].
      destruct Hc' as [<- | []]. reflexivity. }
    destruct (ProjectUpdateOptions.team options) as [team |]; simpl.
    + destruct (env h (ResolveTeamId team)); simpl;
        intros Hc; apply in_app_or in Hc as [Hc | [<- | []]]; auto.
    + apply Hh.
  - simpl in *. subst h. destruct (isUuid s); simpl; [tauto |].
    intros [<- | []]. reflexivity.
Qed.

(** The variables [projects update] hands to its mutation. *)
Lemma updateVariables_ok (env : Env) (s : string)
    (options : ProjectUpdateOptions.t) (vars : list (string * JS))
    (h : list Call) :
  exec env [] (updateVariables s options) = (Ok vars, h) ->
  exists pid,
    fst (run env (resolveProjectIdFromGraphQL s)) = Ok pid
    /\ match ProjectUpdateOptions.team options with
       | None => vars = updateVars pid options
       | Some _ =>
           exists teamId,
             vars = set_field "teamIds" (JArr [teamId]) (updateVars pid options)
       end.
Proof.
  unfold updateVariables, run.
  destruct (given (ProjectUpdateOptions.lead options)
            && flag (ProjectUpdateOptions.clearLead options));
    [discriminate |].
  destruct (given (ProjectUpdateOptions.startDate options)
            && flag (ProjectUpdateOptions.clearStartDate options));
    [discriminate |].
  destruct (given (ProjectUpdateOptions.targetDate options)
            && flag (ProjectUpdateOptions.clearTargetDate options));
    [discriminate |].
  rewrite exec_bind.
  destruct (exec env [] (resolveProjectIdFromGraphQL s)) as [[pid | e] h'];
    [| discriminate].
  intros Hrun. exists pid. split; [reflexivity |].
  destruct (ProjectUpdateOptions.team options) as [team |]; simpl in Hrun.
  - destruct (env h' (ResolveTeamId team)) as [teamId | e]; simpl in Hrun;
      [| discriminate].
    exists teamId. congruence.
  - congruence.
Qed.

(** C1.  The variables of every update mutation that [projects update]
    sends are an object with distinct keys that holds the resolved project
    id under [id], every option the caller set under its own name, and
    nothing else: an option left unset has no key in the object.  The
    clear flags put an explicit null under [leadId], [startDate] and
    [targetDate], which differs from the key being absent ([Some JNull]
    against [None]). *)
Theorem C1_update_variables_are_the_set_fields (env : Env) (s : string)
    (options : ProjectUpdateOptions.t) (v : JS) :
  In (RawRequest UPDATE_PROJECT_MUTATION v)
     (snd (run env (projects_update s options))) ->
  exists pid fields,
    v = JObj fields
    /\ NoDup (keys fields)
    /\ fst (run env (resolveProjectIdFromGraphQL s)) = Ok pid
    /\ assoc "id" fields = Some pid
    /\ assoc "name" fields = option_map JStr (ProjectUpdateOptions.name options)
    /\ assoc "description" fields
       = option_map JStr (ProjectUpdateOptions.description options)
    /\ assoc "icon" fields = option_map JStr (ProjectUpdateOptions.icon options)
    /\ assoc "color" fields
       = option_map JStr (ProjectUpdateOptions.color options)
    /\ assoc "priority" fields
       = option_map (fun p => js_num (parseInt p None))
                    (ProjectUpdateOptions.priority options)
    /\ assoc "leadId" fields
       = (if flag (ProjectUpdateOptions.clearLead options) then Some JNull
          else option_map JStr (ProjectUpdateOptions.lead options))
    /\ assoc "startDate" fields
       = (if flag (ProjectUpdateOptions.clearStartDate options) then Some JNull
          else option_map JStr (ProjectUpdateOptions.startDate options))
    /\ assoc "targetDate" fields
       = (if flag (ProjectUpdateOptions.clearTargetDate options)
          then Some JNull
          else option_map JStr (ProjectUpdateOptions.targetDate options))
    /\ match ProjectUpdateOptions.team options with
       | None => assoc "teamIds" fields = None
       | Some _ => exists teamId, assoc "teamIds" fields = Some (JArr [teamId])
       end
    /\ (forall k, ~ In k updateKeys -> assoc k fields = None)
    /\ Some JNull <> @None JS.
Proof.
  unfold run at 1. unfold projects_update. rewrite exec_bind.
  destruct (exec env [] (updateVariables s options)) as [[vars | e] h] eqn:Hvars.
  - pose proof (updateVariables_calls env s options) as Hcalls.
    rewrite Hvars in Hcalls. simpl in Hcalls.
    rewrite exec_bind. unfold rawRequest. rewrite exec_await.
    intros Hin.
    assert (Hv : v = JObj vars).
    { assert (Hin' : In (RawRequest UPDATE_PROJECT_MUTATION v)
                        (h ++ [RawRequest UPDATE_PROJECT_MUTATION (JObj vars)])).
      { destruct (env h (RawRequest UPDATE_PROJECT_MUTATION (JObj vars)))
          as [result | e]; [| exact Hin].
        rewrite silent_exec in Hin; [exact Hin |].
        apply silent_bind; [apply silent_member | intros projectUpdate].
        destruct (negb (truthy (get_opt projectUpdate "success")));
          [constructor |].
        apply silent_bind; [apply silent_member | intros; constructor]. }
      apply in_app_or in Hin' as [Hold | [Hnew | []]].
      - apply Hcalls in Hold. discriminate.
      - congruence. }
    destruct (updateVariables_ok env s options vars h Hvars)
      as (pid & Hpid & Hteam).
    destruct (updateVars_fields pid options)
      as (Hid & Hname & Hdesc & Hicon & Hcolor & Hprio & Hlead & Hstart
          & Htarget & Hteams & Hother).
    exists pid, vars. split; [exact Hv |].
    destruct (ProjectUpdateOptions.team options) as [team |].
    + destruct Hteam as (teamId & ->).
      split; [apply NoDup_set_field, updateVars_NoDup |].
      split; [exact Hpid |].
      rewrite !assoc_set_field_other by discriminate.
      repeat (split; [assumption |]).
      split; [exists teamId; rewrite assoc_set_field; reflexivity |].
      split; [| discriminate].
      intros k Hk. rewrite assoc_set_field_other; [apply Hother, Hk |].
      intros <-. apply Hk. unfold updateKeys. simpl. tauto.
    + subst vars.
      split; [apply updateVars_NoDup |].
      split; [exact Hpid |].
      repeat (split; [assumption |]).
      discriminate.
  - pose proof (updateVariables_calls env s options) as Hcalls.
    rewrite Hvars in Hcalls. simpl. intros Hin.
    apply Hcalls in Hin. discriminate.
Qed.

End UpdateCommand.

(* ===================================================================== *)
(** ** The response transformer                                           *)
(* ===================================================================== *)

(** Every property of a transformed project object. *)
Lemma get_transformProject (fields : list (string * JS)) (k : string) :
  get (transformProject (JObj fields)) k =
  if "issues" =? k then get_opt (get (JObj fields) "issues") "nodes"
  else if "projectMilestones" =? k then
    get_opt (get (JObj fields) "projectMilestones") "nodes"
  else if "members" =? k then get_opt (get (JObj fields) "members") "nodes"
  else if "teams" =? k then
    js_or (get_opt (get (JObj fields) "teams") "nodes") (JArr [])
  else get (JObj fields) k.
Proof.
  unfold transformProject. cbn [truthy negb spread].
  rewrite !get_set_field. reflexivity.
Qed.

(** C7.  On a project object the transformer replaces each of the four
    nested node lists, [teams], [members], [projectMilestones] and
    [issues], by the flat array of its nodes.  When the response has no
    such list, [members], [projectMilestones] and [issues] become
    undefined and [teams] becomes the empty array.  Nothing else is
    normalised: every other property is copied as it is, the optional
    [lead] relationship included, so a lead that is absent from the
    response as null is null in the output, and one that is there is
    kept.  A missing project (null, undefined) is returned as it is. *)
Theorem C7_transform_flattens_node_lists (fields : list (string * JS)) :
  let project := JObj fields in
  let out := transformProject project in
  (forall rel connection nodes,
      In rel ["teams"; "members"; "projectMilestones"; "issues"] ->
      get project rel = connection ->
      nullish connection = false ->
      get connection "nodes" = JArr nodes ->
      get out rel = JArr nodes)
  /\ (forall rel,
         In rel ["members"; "projectMilestones"; "issues"] ->
         nullish (get project rel) = true ->
         get out rel = JUndefined)
  /\ (nullish (get project "teams") = true -> get out "teams" = JArr [])
  /\ (forall k,
         ~ In k ["teams"; "members"; "projectMilestones"; "issues"] ->
         get out k = get project k)
  /\ (exists outFields, out = JObj outFields)
  /\ (forall missing, truthy missing = false ->
                      transformProject missing = missing)
  /\ get out "lead" = get project "lead"
  /\ (get project "lead" = JNull -> get out "lead" <> JUndefined).
Proof.
  intros project out.
  assert (Hlead : get out "lead" = get project "lead").
  { unfold out, project. rewrite get_transformProject. reflexivity. }
  unfold out, project in *.
  repeat match goal with |- _ /\ _ => split end;
    [| | | | | | exact Hlead
     | intros Hnull; rewrite Hlead, Hnull; discriminate].
  - intros rel connection nodes Hrel Hget Hpresent Hnodes.
    rewrite get_transformProject.
    simpl in Hrel.
    destruct Hrel as [<- | [<- | [<- | [<- | []]]]];
      cbn [String.eqb Ascii.eqb Bool.eqb];
      rewrite Hget; unfold get_opt; rewrite Hpresent, Hnodes; reflexivity.
  - intros rel Hrel Habsent.
    rewrite get_transformProject.
    simpl in Hrel.
    destruct Hrel as [<- | [<- | [<- | []]]];
      cbn [String.eqb Ascii.eqb Bool.eqb];
      unfold get_opt; rewrite Habsent; reflexivity.
  - intros Habsent. rewrite get_transformProject.
    cbn [String.eqb Ascii.eqb Bool.eqb].
    unfold get_opt. rewrite Habsent. reflexivity.
  - intros k Hk. rewrite get_transformProject.
    destruct (String.eqb_spec "issues" k) as [<- | _];
      [exfalso; apply Hk; simpl; tauto |].
    destruct (String.eqb_spec "projectMilestones" k) as [<- | _];
      [exfalso; apply Hk; simpl; tauto |].
    destruct (String.eqb_spec "members" k) as [<- | _];
      [exfalso; apply Hk; simpl; tauto |].
    destruct (String.eqb_spec "teams" k) as [<- | _];
      [exfalso; apply Hk; simpl; tauto |].
    reflexivity.
  - unfold transformProject. cbn [truthy negb]. eexists. reflexivity.
  - intros missing Hmissing. unfold transformProject.
    rewrite Hmissing. reflexivity.
Qed.

(** C7, as first stated, fails for the [lead] relationship: a project
    that has no lead comes back with [lead: null], and the transformer
    hands that null on; it is not normalised to undefined, and [teams],
    absent from the same response, becomes the empty array. *)
Lemma C7_absent_lead_stays_null :
  get (JObj exampleLeadless) "lead" = JNull
  /\ get (transformProject (JObj exampleLeadless)) "lead" = JNull
  /\ get (transformProject (JObj exampleLeadless)) "lead" <> JUndefined
  /\ get (transformProject (JObj exampleLeadless)) "teams" = JArr [].
Proof.
  repeat split; try reflexivity. discriminate.
Qed.

(* ===================================================================== *)
(** ** Sets of slug ids                                                   *)
(* ===================================================================== *)

Lemma existsb_eqb_In (x : string) (seen : list string) :
  existsb (String.eqb x) seen = true <-> In x seen.
Proof.
  rewrite existsb_exists. split.
  - intros (y & Hy & Heq). apply String.eqb_eq in Heq. congruence.
  - intros Hin. exists x. split; [assumption | apply String.eqb_refl].
Qed.

Lemma uniq_from_In (x : string) (xs : list string) :
  forall seen, In x (uniq_from seen xs) <-> In x xs /\ ~ In x seen.
Proof.
  induction xs as [| y t IH]; intros seen; simpl; [tauto |].
  destruct (existsb (String.eqb y) seen) eqn:Hseen.
  - apply existsb_eqb_In in Hseen. rewrite IH.
    split; [tauto |]. intros [[<- | Hin] Hnot]; [contradiction | tauto].
  - assert (Hnot : ~ In y seen).
    { intros Hin. apply existsb_eqb_In in Hin. congruence. }
    simpl. rewrite IH. simpl.
    destruct (string_dec y x) as [<- | Hne]; [tauto |]. tauto.
Qed.

Lemma uniq_from_NoDup (xs : list string) :
  forall seen, NoDup (uniq_from seen xs).
Proof.
  induction xs as [| y t IH]; intros seen; simpl; [constructor |].
  destruct (existsb (String.eqb y) seen); [apply IH |].
  constructor; [| apply IH].
  rewrite uniq_from_In. simpl. tauto.
Qed.

Lemma uniq_In (x : string) (xs : list string) : In x (uniq xs) <-> In x xs.
Proof.
  unfold uniq. rewrite uniq_from_In. simpl. tauto.
Qed.

Lemma uniq_NoDup (xs : list string) : NoDup (uniq xs).
Proof.
  apply uniq_from_NoDup.
Qed.

Lemma non_null_In {A : Type} (f : A -> option string) (l : list A)
    (id : string) :
  In id (non_null (map f l)) <-> exists a, In a l /\ f a = Some id.
Proof.
  induction l as [| a t IH]; simpl.
  - split; [tauto | intros (a & [] & _)].
  - destruct (f a) as [x |] eqn:Hfa; simpl; rewrite IH.
    + split.
      * intros [<- | (b & Hb & Hfb)]; [exists a; auto | exists b; auto].
      * intros (b & [<- | Hb] & Hfb); [left; congruence | right; exists b; auto].
    + split.
      * intros (b & Hb & Hfb). exists b. auto.
      * intros (b & [<- | Hb] & Hfb); [congruence | exists b; auto].
Qed.

(** Dropping the elements that yield nothing changes nothing. *)
(* ===================================================================== *)
(** ** documents list                                                     *)
(* ===================================================================== *)

Lemma listAttachments_trace (env : Env) (hist : list Call) (issueId : JS) :
  snd (exec env hist (listAttachments issueId)) =
  (hist ++ [listAttachmentsCall issueId])%list.
Proof.
  unfold listAttachments, rawRequest. rewrite exec_bind, exec_await.
  fold (listAttachmentsCall issueId).
  destruct (env hist (listAttachmentsCall issueId)); [| reflexivity].
  apply silent_exec.
  apply silent_bind; [apply silent_member | intros issue].
  destruct (negb (truthy issue)); [constructor |].
  apply silent_bind; intros; apply silent_member.
Qed.

Section DocumentsList.
Context `{Runtime}.

Lemma mapM_attachmentSlugId (atts : list JS) :
  Forall (fun a => nullish a = false) atts ->
  mapM attachmentSlugId atts = Ret (map slugOf atts).
Proof.
  induction 1 as [| a t Ha _ IH]; simpl; [reflexivity |].
  unfold attachmentSlugId at 1. unfold member. rewrite Ha. simpl.
  rewrite IH. reflexivity.
Qed.

(** The run of [documents list --issue]: the issue is resolved, its
    attachments are listed, and the documents are asked for by the
    distinct slug ids the attachments yield, unless there is none. *)
Lemma documents_list_by_issue (env : Env) (options : DocumentListOptions.t)
    (issue : string) (n : Z) (issueId : JS) (atts : list JS) (h : list Call) :
  given (DocumentListOptions.project options) = false ->
  DocumentListOptions.issue options = Some issue ->
  issue <> "" ->
  parseInt (str_or (DocumentListOptions.limit options) "50") (Some 10%Z)
    = Some n ->
  (1 <= n)%Z ->
  env [] (ResolveIssueId issue) = Reply issueId ->
  exec env [ResolveIssueId issue] (listAttachments issueId)
    = (Ok (JArr atts), h) ->
  Forall (fun a => nullish a = false) atts ->
  let ids := uniq (non_null (map slugOf atts)) in
  h = [ResolveIssueId issue; listAttachmentsCall issueId]
  /\ run env (documents_list options) =
     match ids with
     | [] => (Ok (JArr []), h)
     | _ :: _ =>
         (match env h (ListDocumentsBySlugIds ids (JNum n)) with
          | Reply documents => Ok documents
          | Fail e => Failed e
          end, (h ++ [ListDocumentsBySlugIds ids (JNum n)])%list)
     end.
Proof.
  intros Hproject Hissue Hne Hlimit Hpos Hresolve Hlist Hatts ids.
  split.
  { pose proof (listAttachments_trace env [ResolveIssueId issue] issueId) as Ht.
    rewrite Hlist in Ht. exact Ht. }
  unfold run, documents_list.
  rewrite Hproject, Hlimit. cbn [andb].
  destruct (Z.ltb_spec n 1) as [Hlt | _]; [lia |].
  assert (Hgiven : given (DocumentListOptions.issue options) = true).
  { rewrite Hissue. cbn [given].
    destruct (String.eqb_spec issue ""); [contradiction | reflexivity]. }
  rewrite Hgiven, Hissue. cbn [str_coalesce].
  rewrite exec_bind, exec_await, Hresolve. cbn [app].
  rewrite exec_bind, Hlist.
  rewrite exec_bind. cbn [elements exec].
  rewrite exec_bind, (mapM_attachmentSlugId atts Hatts). cbn [exec].
  fold ids. destruct ids as [| id rest]; cbn [List.length Nat.eqb].
  - reflexivity.
  - rewrite exec_await. reflexivity.
Qed.

(** A limit that does not parse to a positive integer stops
    [documents list] before any call. *)
Lemma documents_list_invalid_limit (env : Env)
    (options : DocumentListOptions.t) (limit : string) :
  given (DocumentListOptions.project options)
  && given (DocumentListOptions.issue options) = false ->
  DocumentListOptions.limit options = Some limit ->
  limit <> "" ->
  match parseInt limit (Some 10%Z) with
  | None => True
  | Some n => (n < 1)%Z
  end ->
  run env (documents_list options) =
  (Failed (Err ("Invalid limit " ++ dq ++ limit ++ dq
                  ++ ": must be a positive number")), []).
Proof.
  intros Hexclusive Hlimit Hne Hbad.
  unfold run, documents_list. rewrite Hexclusive, Hlimit.
  cbn [str_or opt_str toString].
  destruct (String.eqb_spec limit "") as [-> | _]; [congruence |].
  destruct (parseInt limit (Some 10%Z)) as [n |]; [| reflexivity].
  destruct (Z.ltb_spec n 1) as [_ | Hge]; [reflexivity | lia].
Qed.

(** C10.  In [documents list --issue] the slug ids handed to the document
    lookup are distinct, and they are exactly the slug ids the issue's
    attachments yield.  The output is the reply of that one lookup, so a
    lookup that answers with one document per slug id asked puts every
    document in the output once.  When no attachment yields a slug id the
    output is the empty list and the run makes no document query. *)
Theorem C10_slug_ids_are_deduplicated (env : Env)
    (options : DocumentListOptions.t) (issue : string) (n : Z)
    (issueId : JS) (atts : list JS) (h : list Call) :
  given (DocumentListOptions.project options) = false ->
  DocumentListOptions.issue options = Some issue ->
  issue <> "" ->
  parseInt (str_or (DocumentListOptions.limit options) "50") (Some 10%Z)
    = Some n ->
  (1 <= n)%Z ->
  env [] (ResolveIssueId issue) = Reply issueId ->
  exec env [ResolveIssueId issue] (listAttachments issueId)
    = (Ok (JArr atts), h) ->
  Forall (fun a => nullish a = false) atts ->
  let ids := uniq (non_null (map slugOf atts)) in
  NoDup ids
  /\ (forall id, In id ids <-> exists a, In a atts /\ slugOf a = Some id)
  /\ (forall slugIds limit,
         In (ListDocumentsBySlugIds slugIds limit)
            (snd (run env (documents_list options))) ->
         slugIds = ids /\ NoDup slugIds)
  /\ (forall documents,
         ids <> [] ->
         env h (ListDocumentsBySlugIds ids (JNum n)) = Reply documents ->
         fst (run env (documents_list options)) = Ok documents)
  /\ (forall fetch : string -> JS,
         ids <> [] ->
         (forall a b, In a ids -> In b ids -> fetch a = fetch b -> a = b) ->
         env h (ListDocumentsBySlugIds ids (JNum n))
           = Reply (JArr (map fetch ids)) ->
         exists documents,
           fst (run env (documents_list options)) = Ok (JArr documents)
           /\ NoDup documents)
  /\ (ids = [] ->
      run env (documents_list options) = (Ok (JArr []), h)
      /\ existsb is_document_query h = false).
Proof.
  intros Hproject Hissue Hne Hlimit Hpos Hresolve Hlist Hatts ids.
  destruct (documents_list_by_issue env options issue n issueId atts h
              Hproject Hissue Hne Hlimit Hpos Hresolve Hlist Hatts)
    as [Hh Hrun].
  fold ids in Hrun.
  assert (Hnodup : NoDup ids) by apply uniq_NoDup.
  split; [exact Hnodup |].
  split.
  { intros id. unfold ids. rewrite uniq_In. apply non_null_In. }
  split.
  { intros slugIds limit Hin. rewrite Hrun in Hin. subst h.
    assert (Hsame : slugIds = ids).
    { destruct ids; simpl in Hin.
      - destruct Hin as [Hc | [Hc | []]]; discriminate.
      - destruct Hin as [Hc | [Hc | [Hc | []]]]; try discriminate.
        congruence. }
    split; [exact Hsame | rewrite Hsame; exact Hnodup]. }
  split.
  { intros documents Hsome Hreply. rewrite Hrun.
    destruct ids; [congruence |]. rewrite Hreply. reflexivity. }
  split.
  { intros fetch Hsome Hinj Hreply. exists (map fetch ids). split.
    - rewrite Hrun. destruct ids; [congruence |]. rewrite Hreply. reflexivity.
    - apply NoDup_map_NoDup_ForallPairs; [| exact Hnodup].
      intros a b Ha Hb. apply Hinj; assumption. }
  intros Hnone. split.
  - rewrite Hrun, Hnone. reflexivity.
  - subst h. reflexivity.
Qed.

End DocumentsList.

(* ===================================================================== *)
(** ** What a message carries                                             *)
(* ===================================================================== *)

Lemma prefix_app (x post : string) : prefix x (x ++ post) = true.
Proof.
  induction x as [| c t IH]; simpl.
  - destruct post; reflexivity.
  - destruct (Ascii.ascii_dec c c) as [_ | Hne]; [exact IH | congruence].
Qed.

Lemma prefix_refl (x : string) : prefix x x = true.
Proof.
  induction x as [| c t IH]; simpl; [reflexivity |].
  destruct (Ascii.ascii_dec c c) as [_ | Hne]; [exact IH | congruence].
Qed.

Lemma includes_unfold (x hay : string) :
  includes x hay =
  if prefix x hay then true
  else match hay with
       | EmptyString => false
       | String _ t => includes x t
       end.
Proof.
  destruct hay; reflexivity.
Qed.

Lemma includes_prefix (x post : string) : includes x (x ++ post) = true.
Proof.
  rewrite includes_unfold, prefix_app. reflexivity.
Qed.

Lemma includes_refl (x : string) : includes x x = true.
Proof.
  rewrite includes_unfold, prefix_refl. reflexivity.
Qed.

Lemma includes_app_l (x pre hay : string) :
  includes x hay = true -> includes x (pre ++ hay) = true.
Proof.
  intros Hin. induction pre as [| c t IH]; [exact Hin |].
  rewrite includes_unfold. cbn [append]. rewrite IH.
  destruct (prefix x (String c (t ++ hay))); reflexivity.
Qed.

Lemma prefix_app_r (x a b : string) :
  prefix x a = true -> prefix x (a ++ b) = true.
Proof.
  revert a. induction x as [| c t IH]; intros a Hp.
  - destruct (a ++ b); reflexivity.
  - destruct a as [| c' a']; [discriminate |].
    cbn [append prefix] in *.
    destruct (Ascii.ascii_dec c c'); [apply IH, Hp | discriminate].
Qed.

Lemma includes_app_r (x a b : string) :
  includes x a = true -> includes x (a ++ b) = true.
Proof.
  induction a as [| c t IH]; intros Hin; rewrite includes_unfold in Hin.
  - destruct (prefix x "") eqn:Hp; [| discriminate].
    rewrite includes_unfold, (prefix_app_r x "" b Hp). reflexivity.
  - rewrite includes_unfold.
    destruct (prefix x (String c t)) eqn:Hp.
    + rewrite (prefix_app_r _ _ b Hp). reflexivity.
    + cbn [append]. rewrite (IH Hin).
      destruct (prefix x (String c (t ++ b))); reflexivity.
Qed.

Ltac carried :=
  first [ apply includes_refl
        | apply includes_prefix
        | apply includes_app_r; solve [carried]
        | apply includes_app_l; carried ].

(* ===================================================================== *)
(** ** documents create --attach-to                                       *)
(* ===================================================================== *)

Lemma createAttachment_trace (env : Env) (hist : list Call) (input : JS) :
  snd (exec env hist (createAttachment input)) =
  (hist ++ [RawRequest CREATE_ATTACHMENT_MUTATION (JObj [("input", input)])])%list.
Proof.
  unfold createAttachment, rawRequest. rewrite exec_bind, exec_await.
  destruct (env hist _); [| reflexivity].
  apply silent_exec.
  apply silent_bind; [apply silent_member | intros attachmentCreate].
  apply silent_bind; [apply silent_member | intros success].
  destruct (negb (truthy success)); [constructor | apply silent_member].
Qed.

Lemma createDocument_trace (env : Env) (hist : list Call) (input : JS) :
  snd (exec env hist (createDocument input)) =
  (hist ++ [RawRequest CREATE_DOCUMENT_MUTATION (JObj [("input", input)])])%list.
Proof.
  unfold createDocument, rawRequest. rewrite exec_bind, exec_await.
  destruct (env hist _); [| reflexivity].
  apply silent_exec.
  apply silent_bind; [apply silent_member | intros documentCreate].
  apply silent_bind; [apply silent_member | intros success].
  destruct (negb (truthy success)); [constructor | apply silent_member].
Qed.

Section DocumentsCreate.
Context `{Runtime}.

(** The first half of [documents create] deletes nothing. *)
Lemma createFromOptions_no_delete (env : Env)
    (options : DocumentCreateOptions.t) (variables : JS) :
  ~ In (RawRequest DELETE_DOCUMENT_MUTATION variables)
       (snd (exec env [] (createFromOptions options))).
Proof.
  unfold createFromOptions.
  rewrite exec_bind.
  destruct (given (DocumentCreateOptions.project options)).
  - rewrite exec_await.
    destruct (env [] _) as [projectId | e];
      [| cbn [snd app]; intros [Hin | []]; discriminate].
    rewrite exec_bind.
    destruct (given (DocumentCreateOptions.team options)).
    + rewrite exec_await.
      destruct (env _ (ResolveTeamId _)) as [teamId | e];
        [| cbn [snd app]; intros [Hin | [Hin | []]]; discriminate].
      rewrite createDocument_trace. cbn [app].
      intros [Hin | [Hin | [Hin | []]]]; discriminate.
    + cbn [exec]. rewrite createDocument_trace. cbn [app].
      intros [Hin | [Hin | []]]; discriminate.
  - cbn [exec]. rewrite exec_bind.
    destruct (given (DocumentCreateOptions.team options)).
    + rewrite exec_await.
      destruct (env _ (ResolveTeamId _)) as [teamId | e];
        [| cbn [snd app]; intros [Hin | []]; discriminate].
      rewrite createDocument_trace. cbn [app].
      intros [Hin | [Hin | []]]; discriminate.
    + cbn [exec]. rewrite createDocument_trace. cbn [app].
      intros [Hin | []]; discriminate.
Qed.

(** C9.  In [documents create --attach-to], when the document has been
    created and the creation of the attachment then fails, the command
    fails with an error whose message contains the id of the created
    document, the issue identifier the user supplied and the command that
    retries the attachment, ready to run:
    [linearis attachments create --issue "I" --url "U" --title "T"] with
    the issue as the user gave it and the url and the title of the
    created document, each between double quotes.  After the creation of
    the document the run only resolves the issue and tries the
    attachment: nothing deletes the document. *)
Theorem C9_failed_attachment_keeps_document (env : Env)
    (options : DocumentCreateOptions.t) (attachTo : string)
    (document issueId : JS) (attachError : Error) (h h' : list Call) :
  DocumentCreateOptions.attachTo options = Some attachTo ->
  attachTo <> "" ->
  exec env [] (createFromOptions options) = (Ok document, h) ->
  nullish document = false ->
  env h (ResolveIssueId attachTo) = Reply issueId ->
  exec env (h ++ [ResolveIssueId attachTo])
       (createAttachment
          (JObj [("issueId", issueId);
                 ("url", get document "url");
                 ("title", get document "title")]))
    = (Failed attachError, h') ->
  let retry := "linearis attachments create --issue " ++ dq ++ attachTo ++ dq
                 ++ " --url " ++ dq ++ toString (get document "url") ++ dq
                 ++ " --title " ++ dq ++ toString (get document "title") ++ dq in
  let msg := "Document created (" ++ toString (get document "id")
               ++ ") but failed to attach to issue " ++ dq ++ attachTo ++ dq
               ++ ": " ++ message attachError ++ ". "
               ++ "To retry attachment: " ++ retry in
  run env (documents_create options) = (Failed (Err msg), h')
  /\ includes (toString (get document "id")) msg = true
  /\ includes attachTo msg = true
  /\ includes retry msg = true
  /\ h' = (h ++ [ResolveIssueId attachTo;
                 RawRequest CREATE_ATTACHMENT_MUTATION
                   (JObj [("input",
                           JObj [("issueId", issueId);
                                 ("url", get document "url");
                                 ("title", get document "title")])])])%list
  /\ (forall variables,
         ~ In (RawRequest DELETE_DOCUMENT_MUTATION variables) h').
Proof.
  intros Hattach Hne Hcreate Hdoc Hresolve Hfail retry msg.
  assert (Htrace :
            h' = (h ++ [ResolveIssueId attachTo;
                        RawRequest CREATE_ATTACHMENT_MUTATION
                          (JObj [("input",
                                  JObj [("issueId", issueId);
                                        ("url", get document "url");
                                        ("title", get document "title")])])])%list).
  { pose proof (createAttachment_trace env (h ++ [ResolveIssueId attachTo])
                  (JObj [("issueId", issueId);
                         ("url", get document "url");
                         ("title", get document "title")])) as Ht.
    rewrite Hfail in Ht. cbn [snd] in Ht. rewrite Ht.
    rewrite <- app_assoc. reflexivity. }
  split; [| split; [| split; [| split; [| split]]]].
  - unfold run, documents_create. rewrite exec_bind, Hcreate.
    rewrite exec_bind. unfold attachToIssue.
    assert (Hgiven : given (DocumentCreateOptions.attachTo options) = true).
    { rewrite Hattach. cbn [given].
      destruct (String.eqb_spec attachTo ""); [contradiction | reflexivity]. }
    rewrite Hgiven, Hattach. cbn [str_coalesce].
    rewrite exec_bind, exec_await, Hresolve.
    rewrite exec_try_catch.
    rewrite exec_bind, (exec_member _ _ _ _ Hdoc).
    rewrite exec_bind, (exec_member _ _ _ _ Hdoc).
    rewrite Hfail.
    unfold attachFailure.
    rewrite exec_bind, (exec_member _ _ _ _ Hdoc).
    rewrite exec_bind, (exec_member _ _ _ _ Hdoc).
    rewrite exec_bind, (exec_member _ _ _ _ Hdoc).
    reflexivity.
  - unfold msg. carried.
  - unfold msg. carried.
  - unfold msg. carried.
  - exact Htrace.
  - intros variables Hin. rewrite Htrace in Hin.
    apply in_app_or in Hin as [Hin | [Hin | [Hin | []]]]; try discriminate.
    pose proof (createFromOptions_no_delete env options variables) as Hnone.
    rewrite Hcreate in Hnone. exact (Hnone Hin).
Qed.

End DocumentsCreate.

(* ===================================================================== *)
(** ** Mutations the server refuses                                       *)
(* ===================================================================== *)

Ltac refuse Hreply Hrefused :=
  let Hresult := fresh "Hresult" in
  let Hpayload := fresh "Hpayload" in
  let Hflag := fresh "Hflag" in
  destruct Hrefused as (Hresult & Hpayload & Hflag);
  unfold rawRequest;
  rewrite exec_bind, exec_await, Hreply;
  rewrite exec_bind, (exec_member _ _ _ _ Hresult).

Lemma createDocument_refused (env : Env) (hist : list Call) (input result : JS) :
  env hist (RawRequest CREATE_DOCUMENT_MUTATION (JObj [("input", input)]))
    = Reply result ->
  refused result "documentCreate" ->
  exists msg,
    exec env hist (createDocument input) =
    (Failed (Err msg),
     (hist ++ [RawRequest CREATE_DOCUMENT_MUTATION (JObj [("input", input)])])%list)
    /\ includes "Failed to create document" msg = true
    /\ includes (toString (get input "title")) msg = true
    /\ (truthy (get input "projectId") = true ->
        includes (toString (get input "projectId")) msg = true)
    /\ (truthy (get input "teamId") = true ->
        includes (toString (get input "teamId")) msg = true).
Proof.
  intros Hreply Hrefused. eexists. split; [| split; [| split; [| split]]].
  - unfold createDocument. refuse Hreply Hrefused.
    rewrite exec_bind, (exec_member _ _ _ _ Hpayload).
    rewrite Hflag. reflexivity.
  - rewrite includes_unfold. reflexivity.
  - carried.
  - intros Hp. rewrite Hp. carried.
  - intros Ht. rewrite Ht.
    destruct (truthy (get input "projectId")); carried.
Qed.

Lemma updateDocument_refused (env : Env) (hist : list Call) (id : string)
    (input result : JS) :
  env hist (RawRequest UPDATE_DOCUMENT_MUTATION
              (JObj [("id", JStr id); ("input", input)])) = Reply result ->
  refused result "documentUpdate" ->
  exec env hist (updateDocument id input) =
  (Failed (Err ("Failed to update document: " ++ id)),
   (hist ++ [RawRequest UPDATE_DOCUMENT_MUTATION
               (JObj [("id", JStr id); ("input", input)])])%list).
Proof.
  intros Hreply Hrefused. unfold updateDocument. refuse Hreply Hrefused.
  rewrite exec_bind, (exec_member _ _ _ _ Hpayload).
  rewrite Hflag. reflexivity.
Qed.

Lemma deleteDocument_refused (env : Env) (hist : list Call) (id : string)
    (result : JS) :
  env hist (RawRequest DELETE_DOCUMENT_MUTATION (JObj [("id", JStr id)]))
    = Reply result ->
  refused result "documentDelete" ->
  exec env hist (deleteDocument id) =
  (Failed (Err ("Failed to delete document: " ++ id)),
   (hist ++ [RawRequest DELETE_DOCUMENT_MUTATION (JObj [("id", JStr id)])])%list).
Proof.
  intros Hreply Hrefused. unfold deleteDocument. refuse Hreply Hrefused.
  rewrite exec_bind, (exec_member _ _ _ _ Hpayload).
  rewrite Hflag. reflexivity.
Qed.

Lemma createAttachment_refused (env : Env) (hist : list Call)
    (input result : JS) :
  env hist (RawRequest CREATE_ATTACHMENT_MUTATION (JObj [("input", input)]))
    = Reply result ->
  refused result "attachmentCreate" ->
  exec env hist (createAttachment input) =
  (Failed (Err ("Failed to create attachment on issue "
                  ++ toString (get input "issueId") ++ " for URL " ++ dq
                  ++ toString (get input "url") ++ dq)),
   (hist ++ [RawRequest CREATE_ATTACHMENT_MUTATION
               (JObj [("input", input)])])%list).
Proof.
  intros Hreply Hrefused. unfold createAttachment. refuse Hreply Hrefused.
  rewrite exec_bind, (exec_member _ _ _ _ Hpayload).
  rewrite Hflag. reflexivity.
Qed.

Lemma deleteAttachment_refused (env : Env) (hist : list Call) (id : string)
    (result : JS) :
  env hist (RawRequest DELETE_ATTACHMENT_MUTATION (JObj [("id", JStr id)]))
    = Reply result ->
  refused result "attachmentDelete" ->
  exec env hist (deleteAttachment id) =
  (Failed (Err ("Failed to delete attachment: " ++ id)),
   (hist ++ [RawRequest DELETE_ATTACHMENT_MUTATION
               (JObj [("id", JStr id)])])%list).
Proof.
  intros Hreply Hrefused. unfold deleteAttachment. refuse Hreply Hrefused.
  rewrite exec_bind, (exec_member _ _ _ _ Hpayload).
  rewrite Hflag. reflexivity.
Qed.

Section RefusedProjectMutations.
Context `{Runtime}.

Lemma projects_create_refused (env : Env) (name : string)
    (options : ProjectCreateOptions.t) (teamId result : JS) :
  env [] (ResolveTeamId (ProjectCreateOptions.team options)) = Reply teamId ->
  env [ResolveTeamId (ProjectCreateOptions.team options)]
      (RawRequest CREATE_PROJECT_MUTATION (createVars name teamId options))
    = Reply result ->
  refused result "projectCreate" ->
  run env (projects_create name options) =
  (Failed (Err "Failed to create project"),
   [ResolveTeamId (ProjectCreateOptions.team options);
    RawRequest CREATE_PROJECT_MUTATION (createVars name teamId options)]).
Proof.
  intros Hteam Hreply Hrefused. unfold run, projects_create.
  rewrite exec_bind, exec_await, Hteam. cbn [app].
  refuse Hreply Hrefused.
  unfold get_opt. rewrite Hpayload, Hflag. reflexivity.
Qed.

Lemma projects_update_refused (env : Env) (s : string)
    (options : ProjectUpdateOptions.t) (vars : list (string * JS))
    (h : list Call) (result : JS) :
  exec env [] (updateVariables s options) = (Ok vars, h) ->
  env h (RawRequest UPDATE_PROJECT_MUTATION (JObj vars)) = Reply result ->
  refused result "projectUpdate" ->
  run env (projects_update s options) =
  (Failed (Err "Failed to update project"),
   (h ++ [RawRequest UPDATE_PROJECT_MUTATION (JObj vars)])%list).
Proof.
  intros Hvars Hreply Hrefused. unfold run, projects_update.
  rewrite exec_bind, Hvars.
  refuse Hreply Hrefused.
  unfold get_opt. rewrite Hpayload, Hflag. reflexivity.
Qed.

Lemma projects_archive_refused (env : Env) (s : string) (pid : JS)
    (h : list Call) (result : JS) :
  exec env [] (resolveProjectIdFromGraphQL s) = (Ok pid, h) ->
  env h (RawRequest ARCHIVE_PROJECT_MUTATION (JObj [("id", pid)]))
    = Reply result ->
  refused result "projectArchive" ->
  run env (projects_archive s) =
  (Failed (Err "Failed to archive project"),
   (h ++ [RawRequest ARCHIVE_PROJECT_MUTATION (JObj [("id", pid)])])%list).
Proof.
  intros Hpid Hreply Hrefused. unfold run, projects_archive.
  rewrite exec_bind, Hpid.
  refuse Hreply Hrefused.
  unfold get_opt. rewrite Hpayload, Hflag. reflexivity.
Qed.

End RefusedProjectMutations.

(** C2.  A mutation whose reply carries a non-success flag makes the
    command fail with an error the command builds itself, never the
    transport's, and the message names the operation.  The document and
    attachment mutations put the identifiers of the request in the
    message: the title (and the project and team ids when given) for a
    document to create, the document id for update and delete, the issue
    id and the URL for an attachment to create, the attachment id for
    delete.  Project create, update and archive fail with a fixed message
    that names the operation only. *)
Theorem C2_refused_mutations_name_the_operation `{Runtime} :
  (forall env name options teamId result,
      env [] (ResolveTeamId (ProjectCreateOptions.team options))
        = Reply teamId ->
      env [ResolveTeamId (ProjectCreateOptions.team options)]
          (RawRequest CREATE_PROJECT_MUTATION (createVars name teamId options))
        = Reply result ->
      refused result "projectCreate" ->
      fst (run env (projects_create name options))
        = Failed (Err "Failed to create project"))
  /\ (forall env s options vars h result,
         exec env [] (updateVariables s options) = (Ok vars, h) ->
         env h (RawRequest UPDATE_PROJECT_MUTATION (JObj vars)) = Reply result ->
         refused result "projectUpdate" ->
         fst (run env (projects_update s options))
           = Failed (Err "Failed to update project"))
  /\ (forall env s pid h result,
         exec env [] (resolveProjectIdFromGraphQL s) = (Ok pid, h) ->
         env h (RawRequest ARCHIVE_PROJECT_MUTATION (JObj [("id", pid)]))
           = Reply result ->
         refused result "projectArchive" ->
         fst (run env (projects_archive s))
           = Failed (Err "Failed to archive project"))
  /\ (forall env hist input result,
         env hist (RawRequest CREATE_DOCUMENT_MUTATION (JObj [("input", input)]))
           = Reply result ->
         refused result "documentCreate" ->
         exists msg,
           fst (exec env hist (createDocument input)) = Failed (Err msg)
           /\ includes "Failed to create document" msg = true
           /\ includes (toString (get input "title")) msg = true)
  /\ (forall env hist id input result,
         env hist (RawRequest UPDATE_DOCUMENT_MUTATION
                     (JObj [("id", JStr id); ("input", input)])) = Reply result ->
         refused result "documentUpdate" ->
         exists msg,
           fst (exec env hist (updateDocument id input)) = Failed (Err msg)
           /\ includes "Failed to update document" msg = true
           /\ includes id msg = true)
  /\ (forall env hist id result,
         env hist (RawRequest DELETE_DOCUMENT_MUTATION (JObj [("id", JStr id)]))
           = Reply result ->
         refused result "documentDelete" ->
         exists msg,
           fst (exec env hist (deleteDocument id)) = Failed (Err msg)
           /\ includes "Failed to delete document" msg = true
           /\ includes id msg = true)
  /\ (forall env hist input result,
         env hist (RawRequest CREATE_ATTACHMENT_MUTATION
                     (JObj [("input", input)])) = Reply result ->
         refused result "attachmentCreate" ->
         exists msg,
           fst (exec env hist (createAttachment input)) = Failed (Err msg)
           /\ includes "Failed to create attachment" msg = true
           /\ includes (toString (get input "issueId")) msg = true
           /\ includes (toString (get input "url")) msg = true)
  /\ (forall env hist id result,
         env hist (RawRequest DELETE_ATTACHMENT_MUTATION
                     (JObj [("id", JStr id)])) = Reply result ->
         refused result "attachmentDelete" ->
         exists msg,
           fst (exec env hist (deleteAttachment id)) = Failed (Err msg)
           /\ includes "Failed to delete attachment" msg = true
           /\ includes id msg = true).
Proof.
  split; [| split; [| split; [| split; [| split; [| split; [| split]]]]]].
  - intros env name options teamId result Hteam Hreply Hrefused.
    rewrite (projects_create_refused env name options teamId result
               Hteam Hreply Hrefused). reflexivity.
  - intros env s options vars h result Hvars Hreply Hrefused.
    rewrite (projects_update_refused env s options vars h result
               Hvars Hreply Hrefused). reflexivity.
  - intros env s pid h result Hpid Hreply Hrefused.
    rewrite (projects_archive_refused env s pid h result
               Hpid Hreply Hrefused). reflexivity.
  - intros env hist input result Hreply Hrefused.
    destruct (createDocument_refused env hist input result Hreply Hrefused)
      as (msg & Hrun & Hop & Htitle & _).
    exists msg. rewrite Hrun. auto.
  - intros env hist id input result Hreply Hrefused.
    rewrite (updateDocument_refused env hist id input result Hreply Hrefused).
    eexists. split; [reflexivity |].
    split; [rewrite includes_unfold; reflexivity | carried].
  - intros env hist id result Hreply Hrefused.
    rewrite (deleteDocument_refused env hist id result Hreply Hrefused).
    eexists. split; [reflexivity |].
    split; [rewrite includes_unfold; reflexivity | carried].
  - intros env hist input result Hreply Hrefused.
    rewrite (createAttachment_refused env hist input result Hreply Hrefused).
    eexists. split; [reflexivity |].
    split; [rewrite includes_unfold; reflexivity |].
    split; carried.
  - intros env hist id result Hreply Hrefused.
    rewrite (deleteAttachment_refused env hist id result Hreply Hrefused).
    eexists. split; [reflexivity |].
    split; [rewrite includes_unfold; reflexivity | carried].
Qed.

(** C2, as first stated, fails: [projects create "Apollo" --team ENG]
    against a server that refuses the mutation fails with a message that
    carries neither the name nor the team the user supplied. *)
Lemma C2_project_error_carries_no_identifier :
  refused (refusal "projectCreate") "projectCreate"
  /\ run exampleCreateEnv (projects_create "Apollo" exampleCreate)
     = (Failed (Err "Failed to create project"),
        [ResolveTeamId "ENG";
         RawRequest CREATE_PROJECT_MUTATION
           (createVars "Apollo" (JStr "team-1") exampleCreate)])
  /\ includes "Apollo" "Failed to create project" = false
  /\ includes "ENG" "Failed to create project" = false.
Proof.
  repeat split; reflexivity.
Qed.

(* ===================================================================== *)
(** ** projects list                                                      *)
(* ===================================================================== *)

Lemma projects_list_trace (env : Env) (options : ProjectListOptions.t) :
  snd (run env (projects_list options)) =
  [RawRequest LIST_PROJECTS_QUERY
     (JObj [("first",
             js_num (parseInt (str_or (ProjectListOptions.limit options) "100")
                              None));
            ("includeArchived",
             JBool (flag (ProjectListOptions.includeArchived options)))])].
Proof.
  unfold run, projects_list, rawRequest. rewrite exec_bind, exec_await.
  destruct (env [] _); [| reflexivity].
  apply silent_exec.
  apply silent_bind; [apply silent_member | intros projects].
  apply silent_bind; [apply silent_elements | intros nodes]. constructor.
Qed.

(** C8, at [projects list --limit abc].  The limit parses to NaN; the
    command raises no validation error: its first and only call is the
    list query, sent with NaN as [first], and when the server answers the
    command succeeds; [--limit 0] is sent as 0 in the same way.
    [documents list --limit abc] stops before any call with the error
    that names the value. *)
Theorem C8_projects_list_sends_unparsed_limit `{Runtime} (env : Env) :
  let options := ProjectListOptions.mk (Some "abc") None in
  let query := RawRequest LIST_PROJECTS_QUERY
                 (JObj [("first", JNaN); ("includeArchived", JBool false)]) in
  parseInt "abc" None = None
  /\ snd (run env (projects_list options)) = [query]
  /\ run (scripted [Reply (lookupReply [])]) (projects_list options)
     = (Ok (JArr []), [query])
  /\ snd (run env (projects_list (ProjectListOptions.mk (Some "0") None)))
     = [RawRequest LIST_PROJECTS_QUERY
          (JObj [("first", JNum 0); ("includeArchived", JBool false)])]
  /\ run env (documents_list (DocumentListOptions.mk None None (Some "abc")))
     = (Failed (Err ("Invalid limit " ++ dq ++ "abc" ++ dq
                       ++ ": must be a positive number")), []).
Proof.
  intros options query.
  split; [reflexivity |].
  split; [apply projects_list_trace |].
  split; [reflexivity |].
  split; [apply projects_list_trace | reflexivity].
Qed.

(* ===================================================================== *)
(** ** The statements at work                                             *)
(* ===================================================================== *)

Lemma C1_update_variables_witness :
  exists pid fields,
    exampleUpdateVars = JObj fields
    /\ assoc "id" fields = Some pid
    /\ assoc "name" fields = Some (JStr "Apollo 2")
    /\ assoc "leadId" fields = Some JNull
    /\ assoc "icon" fields = None.
Proof.
  destruct (@C1_update_variables_are_the_set_fields exampleRuntime
              exampleUpdateEnv "Apollo" exampleUpdate exampleUpdateVars)
    as (pid & fields & Hv & _ & _ & Hid & Hname & _ & Hicon & _ & _ & Hlead & _).
  { vm_compute. auto. }
  exists pid, fields. repeat split; assumption.
Defined.

Lemma C2_refused_create_witness :
  fst (run exampleCreateEnv (projects_create "Apollo" exampleCreate))
  = Failed (Err "Failed to create project").
Proof.
  apply (proj1 (@C2_refused_mutations_name_the_operation exampleRuntime))
    with (teamId := JStr "team-1") (result := refusal "projectCreate").
  - reflexivity.
  - reflexivity.
  - repeat split; reflexivity.
Defined.

Lemma C3_several_matches_witness :
  run (scripted [Reply (lookupReply twoApollos)])
      (@projects_archive exampleRuntime "Apollo")
  = (Failed (MultipleMatches "project" "Apollo"
               (map candidateText twoApollos) "use the project ID"),
     [findProjectByName "Apollo"]).
Proof.
  pose proof (@C3_several_matches_are_ambiguous exampleRuntime
                (scripted [Reply (lookupReply twoApollos)]) "Apollo"
                (lookupReply twoApollos) twoApollos
                eq_refl eq_refl eq_refl eq_refl) as W.
  assert (Hmany : (1 < List.length twoApollos)%nat) by (simpl; lia).
  assert (Hobjects : Forall (fun p => nullish p = false) twoApollos)
    by (repeat constructor).
  specialize (W Hmany Hobjects). cbv zeta in W.
  apply W.
Defined.

Lemma C4_no_match_witness :
  run (scripted [Reply (lookupReply [])])
      (@projects_archive exampleRuntime "Apollo")
  = (Failed (NotFound "Project" "Apollo"), [findProjectByName "Apollo"]).
Proof.
  pose proof (@C4_no_match_is_not_found exampleRuntime
                (scripted [Reply (lookupReply [])]) "Apollo" (lookupReply [])
                eq_refl eq_refl eq_refl eq_refl) as W.
  cbv zeta in W. apply W.
Defined.

Lemma C5_uuid_input_witness :
  run (scripted []) (@resolveProjectIdFromGraphQL exampleRuntime exampleUuid)
  = (Ok (JStr exampleUuid), []).
Proof.
  apply (@C5_uuid_input_skips_lookup exampleRuntime). reflexivity.
Defined.

Lemma C7_transform_witness :
  get (transformProject (JObj exampleProject)) "teams"
  = JArr [JObj [("key", JStr "ENG")]]
  /\ get (transformProject (JObj exampleProject)) "members" = JUndefined
  /\ get (transformProject (JObj exampleProject)) "id" = JStr "p1".
Proof.
  pose proof (C7_transform_flattens_node_lists exampleProject) as W.
  cbv zeta in W. destruct W as (Hflat & Habsent & _ & Hkept & _).
  split; [| split].
  - apply (Hflat "teams" (JObj [("nodes", JArr [JObj [("key", JStr "ENG")]])]));
      [simpl; auto | reflexivity | reflexivity | reflexivity].
  - apply Habsent; [simpl; auto | reflexivity].
  - rewrite Hkept; [reflexivity |].
    simpl. intros [Hk | [Hk | [Hk | [Hk | []]]]]; discriminate.
Defined.

Lemma C9_failed_attachment_witness :
  exists msg,
    fst (run exampleDocumentCreateEnv (documents_create exampleDocumentCreate))
    = Failed (Err msg)
    /\ includes "doc-1" msg = true
    /\ includes "ENG-1" msg = true
    /\ includes
         ("linearis attachments create --issue " ++ dq ++ "ENG-1" ++ dq
            ++ " --url " ++ dq
            ++ "https://linear.app/acme/document/design-notes-abc123" ++ dq
            ++ " --title " ++ dq ++ "Design notes" ++ dq) msg = true.
Proof.
  pose proof (C9_failed_attachment_keeps_document exampleDocumentCreateEnv
                exampleDocumentCreate "ENG-1" exampleDocument (JStr "issue-1")
                exampleAttachError
                [exampleCreateDocumentCall]
                [exampleCreateDocumentCall; ResolveIssueId "ENG-1";
                 exampleAttachCall]
                eq_refl) as W.
  assert (Hne : "ENG-1" <> "") by discriminate.
  specialize (W Hne eq_refl eq_refl eq_refl eq_refl). cbv zeta in W.
  destruct W as (Hrun & Hid & Hissue & Hretry & _).
  eexists. rewrite Hrun. split; [reflexivity |].
  split; [exact Hid | split; [exact Hissue | exact Hretry]].
Defined.

Lemma C10_deduplicated_witness :
  snd (run exampleListEnv (@documents_list exampleRuntime exampleListByIssue))
  = [ResolveIssueId "ENG-1"; listAttachmentsCall (JStr "issue-1");
     ListDocumentsBySlugIds ["abc123"] (JNum 50)]
  /\ NoDup (uniq (non_null (map (@slugOf exampleRuntime) exampleAttachments))).
Proof.
  pose proof (@C10_slug_ids_are_deduplicated exampleRuntime
                exampleListEnv exampleListByIssue "ENG-1" 50%Z (JStr "issue-1")
                exampleAttachments
                [ResolveIssueId "ENG-1"; listAttachmentsCall (JStr "issue-1")]
                eq_refl eq_refl) as W.
  assert (Hne : "ENG-1" <> "") by discriminate.
  assert (Hpos : (1 <= 50)%Z) by lia.
  assert (Hatts : Forall (fun a => nullish a = false) exampleAttachments)
    by (repeat constructor).
  specialize (W Hne eq_refl Hpos eq_refl eq_refl Hatts). cbv zeta in W.
  destruct W as (Hnodup & _).
  split; [reflexivity | exact Hnodup].
Defined.

(* ===================================================================== *)
(** ** Traces                                                             *)
(* ===================================================================== *)

(** A run only adds calls to the history. *)
Lemma exec_extends {A : Type} (env : Env) (p : Prog A) :
  forall hist, exists new, snd (exec env hist p) = (hist ++ new)%list.
Proof.
  induction p as [a | e | c k IH]; intros hist; simpl.
  - exists []. now rewrite app_nil_r.
  - exists []. now rewrite app_nil_r.
  - destruct (IH (env hist c) (hist ++ [c])%list) as [new Hnew].
    exists (c :: new). rewrite Hnew, <- app_assoc. reflexivity.
Qed.

(** A request followed by silent steps is the only call. *)
Lemma exec_one_call {A : Type} (env : Env) (hist : list Call) (c : Call)
    (f : JS -> Prog A) :
  (forall v, Silent (f v)) ->
  snd (exec env hist (bind (await c) f)) = (hist ++ [c])%list.
Proof.
  intros Hf. rewrite exec_bind, exec_await.
  destruct (env hist c); [apply silent_exec, Hf | reflexivity].
Qed.

Lemma exec_may {A : Type} (env : Env) (p : Prog A) (c : Call) :
  forall hist, In c (snd (exec env hist p)) -> In c hist \/ MayCall p c.
Proof.
  induction p as [a | e | c0 k IH]; intros hist Hin; simpl in Hin; auto.
  apply IH in Hin as [Hin | Hin].
  - apply in_app_or in Hin as [Hin | [<- | []]]; [now left | right; constructor].
  - right. econstructor 2. exact Hin.
Qed.

Lemma may_bind {A B : Type} (p : Prog A) (f : A -> Prog B) (c : Call) :
  MayCall (bind p f) c -> MayCall p c \/ exists a, MayCall (f a) c.
Proof.
  induction p as [a | e | c0 k IH]; simpl; intros Hm.
  - right. exists a. exact Hm.
  - inversion Hm.
  - inversion Hm as [| c1 k1 o c2 Hlater]; subst.
    + left. constructor.
    + apply IH in Hlater as [Hl | Hr];
        [left; econstructor 2; exact Hl | now right].
Qed.

Lemma may_await (c c' : Call) : MayCall (await c') c -> c = c'.
Proof.
  unfold await. intros Hm.
  inversion Hm as [| c1 k1 o c2 Hlater]; subst; [reflexivity |].
  destruct o; inversion Hlater.
Qed.

Lemma may_silent {A : Type} (p : Prog A) (c : Call) :
  Silent p -> ~ MayCall p c.
Proof.
  intros [a | e] Hm; inversion Hm.
Qed.

Lemma may_try_catch {A : Type} (p : Prog A) (h : Error -> Prog A) (c : Call) :
  MayCall (try_catch p h) c -> MayCall p c \/ exists e, MayCall (h e) c.
Proof.
  induction p as [a | e | c0 k IH]; simpl; intros Hm.
  - inversion Hm.
  - right. exists e. exact Hm.
  - inversion Hm as [| c1 k1 o c2 Hlater]; subst.
    + left. constructor.
    + apply IH in Hlater as [Hl | Hr];
        [left; econstructor 2; exact Hl | now right].
Qed.

(* ===================================================================== *)
(** ** Shapes of programs and what they say about runs                    *)
(* ===================================================================== *)

Lemma silent_lookups {A : Type} (p : Prog A) : Silent p -> Lookups p.
Proof.
  intros [a | e]; constructor.
Qed.

Lemma lookups_await (c : Call) : is_mutation c = false -> Lookups (await c).
Proof.
  intros Hc. unfold await. constructor; [exact Hc |].
  intros [v | e]; constructor.
Qed.

Lemma lookups_bind {A B : Type} (p : Prog A) (f : A -> Prog B) :
  Lookups p -> (forall a, Lookups (f a)) -> Lookups (bind p f).
Proof.
  intros Hp Hf. induction Hp as [a | e | c k Hc _ IH]; simpl; auto.
  - constructor.
  - constructor; auto.
Qed.

Lemma lookups_sound {A : Type} (env : Env) (p : Prog A) :
  Lookups p ->
  forall hist c, In c (snd (exec env hist p)) ->
                 In c hist \/ is_mutation c = false.
Proof.
  intros Hp. induction Hp as [a | e | c0 k Hc _ IH]; intros hist c Hin;
    simpl in Hin; auto.
  apply IH in Hin as [Hin | Hin]; [| now right].
  apply in_app_or in Hin as [Hin | [<- | []]]; auto.
Qed.

Lemma lookups_ends {A : Type} (p : Prog A) : Lookups p -> EndsAtMutation p.
Proof.
  intros Hp. induction Hp as [a | e | c k Hc _ IH].
  - constructor.
  - constructor.
  - apply ends_before; assumption.
Qed.

Lemma ends_request {A : Type} (c : Call) (f : JS -> Prog A) :
  (forall v, Silent (f v)) -> EndsAtMutation (bind (await c) f).
Proof.
  intros Hf. unfold await. simpl. apply ends_last.
  intros [v | e]; simpl; [apply Hf | constructor].
Qed.

Lemma ends_bind {A B : Type} (p : Prog A) (f : A -> Prog B) :
  Lookups p -> (forall a, EndsAtMutation (f a)) -> EndsAtMutation (bind p f).
Proof.
  intros Hp Hf. induction Hp as [a | e | c k Hc _ IH]; simpl; auto.
  - constructor.
  - apply ends_before; auto.
Qed.

Lemma ends_then_silent {A B : Type} (p : Prog A) (g : A -> Prog B) :
  EndsAtMutation p -> (forall a, Silent (g a)) -> EndsAtMutation (bind p g).
Proof.
  intros Hp Hg. induction Hp as [a | e | c k Hk | c k Hc _ IH]; simpl.
  - apply lookups_ends, silent_lookups, Hg.
  - constructor.
  - apply ends_last. intros o. apply silent_bind; auto.
  - apply ends_before; auto.
Qed.

Lemma ends_sound {A : Type} (env : Env) (p : Prog A) :
  EndsAtMutation p ->
  forall hist pre c post,
    snd (exec env hist p) = (hist ++ pre ++ c :: post)%list ->
    is_mutation c = true -> post = [].
Proof.
  intros Hp.
  induction Hp as [a | e | c0 k Hk | c0 k Hc _ IH];
    intros hist pre c post Htrace Hmut; simpl in Htrace.
  - rewrite <- (app_nil_r hist) in Htrace at 1.
    apply app_inv_head in Htrace. destruct pre; discriminate.
  - rewrite <- (app_nil_r hist) in Htrace at 1.
    apply app_inv_head in Htrace. destruct pre; discriminate.
  - rewrite (silent_exec _ _ _ (Hk (env hist c0))) in Htrace.
    apply app_inv_head in Htrace.
    destruct pre as [| x pre]; simpl in Htrace.
    + congruence.
    + destruct pre; discriminate.
  - destruct pre as [| x pre]; simpl in Htrace.
    + destruct (exec_extends env (k (env hist c0)) (hist ++ [c0])%list)
        as [new Hnew].
      rewrite Hnew, <- app_assoc in Htrace. apply app_inv_head in Htrace.
      simpl in Htrace. congruence.
    + destruct (exec_extends env (k (env hist c0)) (hist ++ [c0])%list)
        as [new Hnew].
      assert (Hx : x = c0).
      { rewrite Hnew, <- app_assoc in Htrace. apply app_inv_head in Htrace.
        simpl in Htrace. congruence. }
      subst x.
      apply (IH (env hist c0) (hist ++ [c0])%list pre c post); [| exact Hmut].
      rewrite Htrace, <- app_assoc. reflexivity.
Qed.

Lemma silent_unwrapped {A : Type} (p : Prog A) : Silent p -> Unwrapped p.
Proof.
  intros [a | e]; constructor.
Qed.

Lemma unwrapped_await (c : Call) : Unwrapped (await c).
Proof.
  unfold await. constructor; [reflexivity | intros v; constructor].
Qed.

Lemma unwrapped_bind {A B : Type} (p : Prog A) (f : A -> Prog B) :
  Unwrapped p -> (forall a, Unwrapped (f a)) -> Unwrapped (bind p f).
Proof.
  intros Hp Hf. induction Hp as [a | e | c k Hfail _ IH]; simpl; auto.
  - constructor.
  - constructor; [| exact IH].
    intros e. rewrite Hfail. reflexivity.
Qed.

Lemma unwrapped_sound {A : Type} (env : Env) (p : Prog A) :
  Unwrapped p ->
  forall hist pre c post e,
    snd (exec env hist p) = (hist ++ pre ++ c :: post)%list ->
    env (hist ++ pre)%list c = Fail e ->
    post = [] /\ fst (exec env hist p) = Failed e.
Proof.
  intros Hp.
  induction Hp as [a | e0 | c0 k Hfail _ IH];
    intros hist pre c post e Htrace Hrejected; simpl in Htrace.
  - rewrite <- (app_nil_r hist) in Htrace at 1.
    apply app_inv_head in Htrace. destruct pre; discriminate.
  - rewrite <- (app_nil_r hist) in Htrace at 1.
    apply app_inv_head in Htrace. destruct pre; discriminate.
  - destruct (exec_extends env (k (env hist c0)) (hist ++ [c0])%list)
      as [new Hnew].
    assert (Hhead : (c0 :: new = pre ++ c :: post)%list).
    { rewrite Hnew, <- app_assoc in Htrace. apply app_inv_head in Htrace.
      exact Htrace. }
    destruct pre as [| x pre]; simpl in Hhead.
    + injection Hhead as <- <-. rewrite app_nil_r in Hrejected.
      simpl. rewrite Hrejected, Hfail in *. simpl in *.
      rewrite <- (app_nil_r (hist ++ [c0])) in Hnew at 1.
      apply app_inv_head in Hnew. subst new. auto.
    + injection Hhead as <- Hnew'.
      simpl. destruct (env hist c0) as [v | e'] eqn:Hout.
      * apply (IH v (hist ++ [c0])%list pre c post e).
        -- rewrite Htrace, <- app_assoc. reflexivity.
        -- rewrite <- app_assoc. exact Hrejected.
      * rewrite Hfail in Hnew. simpl in Hnew.
        rewrite <- (app_nil_r (hist ++ [c0])) in Hnew at 1.
        apply app_inv_head in Hnew. subst new. destruct pre; discriminate.
Qed.

Ltac silence :=
  repeat first
    [ progress intros
    | apply silent_ret | apply silent_throw
    | apply silent_member | apply silent_elements | apply silent_candidate
    | apply silent_mapM
    | apply silent_bind
    | match goal with
      | |- Silent (if ?b then _ else _) => destruct b
      | |- Silent (match ?o with Some _ => _ | None => _ end) => destruct o
      end ].

Ltac lookups :=
  repeat first
    [ progress intros
    | apply lookups_ret | apply lookups_throw
    | apply lookups_await; reflexivity
    | apply silent_lookups; solve [silence]
    | apply lookups_bind
    | match goal with
      | |- Lookups (if ?b then _ else _) => destruct b
      | |- Lookups (match ?o with Some _ => _ | None => _ end) => destruct o
      end ].

Ltac ends :=
  repeat first
    [ progress intros
    | apply ends_ret | apply ends_throw
    | apply ends_request; solve [silence]
    | apply lookups_ends; solve [lookups]
    | apply ends_then_silent; [| solve [silence]]
    | apply ends_bind; [solve [lookups] |]
    | match goal with
      | |- EndsAtMutation (if ?b then _ else _) => destruct b
      | |- EndsAtMutation (match ?o with Some _ => _ | None => _ end) =>
          destruct o
      end ].

Ltac unwrapped :=
  repeat first
    [ progress intros
    | apply unwrapped_ret | apply unwrapped_throw
    | apply unwrapped_await
    | apply silent_unwrapped; solve [silence]
    | apply unwrapped_bind
    | match goal with
      | |- Unwrapped (if ?b then _ else _) => destruct b
      | |- Unwrapped (match ?o with Some _ => _ | None => _ end) => destruct o
      end ].

Lemma existsb_none {A : Type} (f : A -> bool) (l : list A) :
  (forall x, In x l -> f x = false) -> existsb f l = false.
Proof.
  intros Hall. induction l as [| x t IH]; simpl; [reflexivity |].
  rewrite (Hall x (or_introl eq_refl)), IH; [reflexivity |].
  intros y Hy. apply Hall. now right.
Qed.

Lemma lookups_run {A : Type} (env : Env) (p : Prog A) :
  Lookups p -> existsb is_mutation (snd (run env p)) = false.
Proof.
  intros Hp. apply existsb_none. intros c Hin.
  destruct (lookups_sound env p Hp [] c Hin) as [[] | Hc]. exact Hc.
Qed.

Section CommandShapes.
Context `{Runtime}.

Lemma lookups_resolve (s : string) : Lookups (resolveProjectIdFromGraphQL s).
Proof.
  unfold resolveProjectIdFromGraphQL, rawRequest. lookups.
Qed.

Lemma unwrapped_resolve (s : string) :
  Unwrapped (resolveProjectIdFromGraphQL s).
Proof.
  unfold resolveProjectIdFromGraphQL, rawRequest. unwrapped.
Qed.

Lemma lookups_updateVariables (s : string) (options : ProjectUpdateOptions.t) :
  Lookups (updateVariables s options).
Proof.
  unfold updateVariables, resolveProjectIdFromGraphQL, rawRequest. lookups.
Qed.

(** The commands that read send no mutation, whatever the server
    answers. *)
Theorem read_commands_send_no_mutation (env : Env) :
  (forall options,
      existsb is_mutation (snd (run env (projects_list options))) = false)
  /\ (forall name options,
         existsb is_mutation (snd (run env (projects_read name options)))
         = false)
  /\ (forall documentId,
         existsb is_mutation (snd (run env (documents_read documentId)))
         = false)
  /\ (forall options,
         existsb is_mutation (snd (run env (documents_list options))) = false)
  /\ (forall issue,
         existsb is_mutation (snd (run env (attachments_list issue))) = false).
Proof.
  repeat split; intros; apply lookups_run.
  - unfold projects_list, rawRequest. lookups.
  - unfold projects_read, resolveProjectIdFromGraphQL, rawRequest. lookups.
  - unfold documents_read, getDocument, rawRequest. lookups.
  - unfold documents_list, listAttachments, listDocuments, attachmentSlugId,
      rawRequest. lookups.
  - unfold attachments_list, listAttachments, rawRequest. lookups.
Qed.

(** A command that writes sends its mutation last: once a mutation has
    been sent, the run makes no further call, whatever the reply.
    ([documents create], which attaches after it creates, is not among
    them.) *)
Theorem mutation_is_the_last_call (env : Env) (pre post : list Call)
    (c : Call) :
  is_mutation c = true ->
  (forall name options,
      snd (run env (projects_create name options)) = (pre ++ c :: post)%list ->
      post = [])
  /\ (forall s options,
         snd (run env (projects_update s options)) = (pre ++ c :: post)%list ->
         post = [])
  /\ (forall s,
         snd (run env (projects_archive s)) = (pre ++ c :: post)%list ->
         post = [])
  /\ (forall documentId options,
         snd (run env (documents_update documentId options))
         = (pre ++ c :: post)%list ->
         post = [])
  /\ (forall documentId,
         snd (run env (documents_delete documentId)) = (pre ++ c :: post)%list ->
         post = [])
  /\ (forall options,
         snd (run env (attachments_create options)) = (pre ++ c :: post)%list ->
         post = [])
  /\ (forall attachmentId,
         snd (run env (attachments_delete attachmentId))
         = (pre ++ c :: post)%list ->
         post = []).
Proof.
  intros Hmut.
  assert (Hsound : forall (p : Prog JS),
             EndsAtMutation p ->
             snd (run env p) = (pre ++ c :: post)%list -> post = []).
  { intros p Hp Htrace.
    exact (ends_sound env p Hp [] pre c post Htrace Hmut). }
  repeat split; intros; eapply Hsound; try eassumption.
  - unfold projects_create, rawRequest. ends.
  - unfold projects_update, rawRequest.
    apply ends_bind; [apply lookups_updateVariables |]. ends.
  - unfold projects_archive, rawRequest.
    apply ends_bind; [apply lookups_resolve |]. ends.
  - unfold documents_update, updateDocument, rawRequest. ends.
  - unfold documents_delete, deleteDocument, rawRequest. ends.
  - unfold attachments_create, createAttachment, rawRequest. ends.
  - unfold attachments_delete, deleteAttachment, rawRequest. ends.
Qed.

(** Outside [documents create], a rejected call ends the command at once
    with the error of the rejection, unchanged: nothing is called after
    it, nothing wraps it. *)
Theorem rejected_call_ends_the_command (env : Env) (pre post : list Call)
    (c : Call) (e : Error) :
  env pre c = Fail e ->
  let ended (p : Prog JS) :=
    snd (run env p) = (pre ++ c :: post)%list ->
    post = [] /\ fst (run env p) = Failed e in
  (forall options, ended (projects_list options))
  /\ (forall name options, ended (projects_read name options))
  /\ (forall name options, ended (projects_create name options))
  /\ (forall s options, ended (projects_update s options))
  /\ (forall s, ended (projects_archive s))
  /\ (forall documentId options, ended (documents_update documentId options))
  /\ (forall documentId, ended (documents_read documentId))
  /\ (forall options, ended (documents_list options))
  /\ (forall documentId, ended (documents_delete documentId))
  /\ (forall options, ended (attachments_create options))
  /\ (forall issue, ended (attachments_list issue))
  /\ (forall attachmentId, ended (attachments_delete attachmentId)).
Proof.
  intros Hrejected ended.
  assert (Hsound : forall (p : Prog JS),
             Unwrapped p ->
             snd (run env p) = (pre ++ c :: post)%list ->
             post = [] /\ fst (run env p) = Failed e).
  { intros p Hp Htrace.
    exact (unwrapped_sound env p Hp [] pre c post e Htrace Hrejected). }
  unfold ended.
  repeat match goal with |- _ /\ _ => split end;
    intros; (eapply Hsound; [| eassumption]).
  - unfold projects_list, rawRequest. unwrapped.
  - unfold projects_read, resolveProjectIdFromGraphQL, rawRequest. unwrapped.
  - unfold projects_create, rawRequest. unwrapped.
  - unfold projects_update, updateVariables, resolveProjectIdFromGraphQL,
      rawRequest. unwrapped.
  - unfold projects_archive, resolveProjectIdFromGraphQL, rawRequest. unwrapped.
  - unfold documents_update, updateDocument, rawRequest. unwrapped.
  - unfold documents_read, getDocument, rawRequest. unwrapped.
  - unfold documents_list, listAttachments, listDocuments, attachmentSlugId,
      rawRequest. unwrapped.
  - unfold documents_delete, deleteDocument, rawRequest. unwrapped.
  - unfold attachments_create, createAttachment, rawRequest. unwrapped.
  - unfold attachments_list, listAttachments, rawRequest. unwrapped.
  - unfold attachments_delete, deleteAttachment, rawRequest. unwrapped.
Qed.

End CommandShapes.

(* ===================================================================== *)
(** ** Project commands                                                   *)
(* ===================================================================== *)

Lemma first_call {A : Type} (env : Env) (p : Prog A) (c : Call)
    (k : Outcome -> Prog A) :
  p = Do c k -> exists rest, snd (run env p) = c :: rest.
Proof.
  intros ->. unfold run. simpl.
  destruct (exec_extends env (k (env [] c)) [c]) as [new Hnew].
  exists new. exact Hnew.
Qed.

Section ProjectCommands.
Context `{Runtime}.

(** A name with exactly one match resolves to the id of that match, and
    [projects archive] then archives that id and reports it. *)
Theorem single_match_resolves_to_its_id (env : Env) (name : string)
    (result node : JS) :
  isUuid name = false ->
  env [] (findProjectByName name) = Reply result ->
  nullish result = false ->
  matchesOf result = JArr [node] ->
  nullish node = false ->
  let archive := RawRequest ARCHIVE_PROJECT_MUTATION
                   (JObj [("id", get node "id")]) in
  run env (resolveProjectIdFromGraphQL name)
  = (Ok (get node "id"), [findProjectByName name])
  /\ (forall reply,
         env [findProjectByName name] archive = Reply reply ->
         nullish reply = false ->
         truthy (get_opt (get reply "projectArchive") "success") = true ->
         run env (projects_archive name)
         = (Ok (JObj [("archived", JBool true); ("id", get node "id")]),
            [findProjectByName name; archive])).
Proof.
  intros Huuid Hreply Hresult Hnodes Hnode archive.
  assert (Hres : run env (resolveProjectIdFromGraphQL name)
                 = (Ok (get node "id"), [findProjectByName name])).
  { rewrite (resolve_lookup env name result [node] Huuid Hreply Hresult Hnodes).
    cbn [List.length Nat.eqb Nat.ltb Nat.leb nth].
    apply exec_member, Hnode. }
  split; [exact Hres |].
  intros reply Harchive Hnn Hsuccess.
  unfold run in *. unfold projects_archive.
  rewrite exec_bind, Hres.
  unfold rawRequest. rewrite exec_bind, exec_await.
  fold archive. rewrite Harchive.
  rewrite exec_bind, (exec_member _ _ _ _ Hnn), Hsuccess.
  reflexivity.
Qed.

(** With an opaque id the project commands make no lookup: resolution
    makes no call, and archive, read and an update without [--team] make
    one call only, which carries the id as it was typed. *)
Theorem opaque_id_goes_straight_to_the_request (env : Env) (s : string) :
  isUuid s = true ->
  snd (run env (projects_archive s))
  = [RawRequest ARCHIVE_PROJECT_MUTATION (JObj [("id", JStr s)])]
  /\ (forall options,
         exists variables,
           snd (run env (projects_read s options))
           = [RawRequest GET_PROJECT_BY_ID_QUERY (JObj variables)]
           /\ assoc "id" variables = Some (JStr s))
  /\ (forall options,
         updateValid options = true ->
         ProjectUpdateOptions.team options = None ->
         snd (run env (projects_update s options))
         = [RawRequest UPDATE_PROJECT_MUTATION
              (JObj (updateVars (JStr s) options))]).
Proof.
  intros Huuid. split; [| split].
  - unfold run, projects_archive, resolveProjectIdFromGraphQL, rawRequest.
    rewrite Huuid. cbn [bind].
    apply (exec_one_call env []). silence.
  - intros options. eexists. split.
    + unfold run, projects_read, resolveProjectIdFromGraphQL, rawRequest.
      rewrite Huuid. cbn [bind].
      apply (exec_one_call env []). silence.
    + reflexivity.
  - intros options Hvalid Hteam.
    unfold run, projects_update, updateVariables, resolveProjectIdFromGraphQL,
      rawRequest.
    unfold updateValid in Hvalid.
    apply andb_prop in Hvalid as [Hvalid Htarget].
    apply andb_prop in Hvalid as [Hlead Hstart].
    apply negb_true_iff in Hlead, Hstart, Htarget.
    rewrite Hlead, Hstart, Htarget, Huuid, Hteam. cbn [bind].
    apply (exec_one_call env []). silence.
Qed.

(** [projects update] rejects an option given together with its clear
    flag before any call, the lead pair first; an empty value does not
    count as given.  With no such pair the command always reaches the
    server. *)
Theorem conflicting_update_flags_stop_before_any_call (env : Env) (s : string)
    (options : ProjectUpdateOptions.t) :
  let lead := given (ProjectUpdateOptions.lead options)
              && flag (ProjectUpdateOptions.clearLead options) in
  let start := given (ProjectUpdateOptions.startDate options)
               && flag (ProjectUpdateOptions.clearStartDate options) in
  let target := given (ProjectUpdateOptions.targetDate options)
                && flag (ProjectUpdateOptions.clearTargetDate options) in
  (lead = true ->
   run env (projects_update s options)
   = (Failed (Err "Cannot use --lead and --clear-lead together"), []))
  /\ (lead = false -> start = true ->
      run env (projects_update s options)
      = (Failed (Err "Cannot use --start-date and --clear-start-date together"),
         []))
  /\ (lead = false -> start = false -> target = true ->
      run env (projects_update s options)
      = (Failed
           (Err "Cannot use --target-date and --clear-target-date together"),
         []))
  /\ (lead = false -> start = false -> target = false ->
      snd (run env (projects_update s options)) <> [])
  /\ (ProjectUpdateOptions.lead options = Some "" -> lead = false).
Proof.
  intros lead start target. unfold lead, start, target.
  split; [| split; [| split; [| split]]].
  - intros Hlead. unfold run, projects_update, updateVariables.
    rewrite Hlead. reflexivity.
  - intros Hlead Hstart. unfold run, projects_update, updateVariables.
    rewrite Hlead, Hstart. reflexivity.
  - intros Hlead Hstart Htarget. unfold run, projects_update, updateVariables.
    rewrite Hlead, Hstart, Htarget. reflexivity.
  - intros Hlead Hstart Htarget.
    unfold projects_update, updateVariables, resolveProjectIdFromGraphQL,
      rawRequest.
    rewrite Hlead, Hstart, Htarget.
    destruct (isUuid s);
      destruct (ProjectUpdateOptions.team options);
      match goal with
      | |- snd (run env ?p) <> [] =>
          let Hc := fresh in
          destruct (first_call env p _ _ eq_refl) as [rest Hc];
          rewrite Hc; discriminate
      end.
  - intros Hempty. rewrite Hempty. reflexivity.
Qed.

(** Whatever [--milestones-first] and [--issues-first] hold, the counts
    [projects read] sends are numbers other than 0: a count that parses
    to 0 or does not parse is sent as 1, and the matching skip flag is set
    exactly for 0.  The defaults are 25 and 50, and the id sent is the one
    resolution returned. *)
Theorem read_sends_usable_counts (env : Env) (name : string)
    (options : ProjectReadOptions.t) (v : JS) :
  In (RawRequest GET_PROJECT_BY_ID_QUERY v)
     (snd (run env (projects_read name options))) ->
  let milestones :=
    parseInt (str_coalesce (ProjectReadOptions.milestonesFirst options) "25")
             None in
  let issues :=
    parseInt (str_coalesce (ProjectReadOptions.issuesFirst options) "50")
             None in
  let sent (n : option Z) : Z :=
    match n with
    | Some 0%Z | None => 1%Z
    | Some k => k
    end in
  let zero (n : option Z) : bool :=
    match n with
    | Some 0%Z => true
    | _ => false
    end in
  (exists pid,
      fst (run env (resolveProjectIdFromGraphQL name)) = Ok pid
      /\ get v "id" = pid)
  /\ get v "milestonesFirst" = JNum (sent milestones)
  /\ sent milestones <> 0%Z
  /\ get v "issuesFirst" = JNum (sent issues)
  /\ sent issues <> 0%Z
  /\ get v "skipMilestones" = JBool (zero milestones)
  /\ get v "skipIssues" = JBool (zero issues)
  /\ (ProjectReadOptions.milestonesFirst options = None ->
      get v "milestonesFirst" = JNum 25)
  /\ (ProjectReadOptions.issuesFirst options = None ->
      get v "issuesFirst" = JNum 50).
Proof.
  intros Hin milestones issues sent zero.
  unfold run, projects_read in Hin. rewrite exec_bind in Hin.
  pose proof (resolve_trace env [] name) as Htrace.
  unfold run.
  destruct (exec env [] (resolveProjectIdFromGraphQL name)) as [[pid | e] h].
  - unfold rawRequest in Hin. rewrite exec_one_call in Hin by silence.
    simpl in Htrace. subst h.
    assert (Hv : RawRequest GET_PROJECT_BY_ID_QUERY v
                 = RawRequest GET_PROJECT_BY_ID_QUERY
                     (JObj [("id", pid);
                            ("milestonesFirst",
                             js_or (js_num milestones) (JNum 1));
                            ("issuesFirst", js_or (js_num issues) (JNum 1));
                            ("skipMilestones",
                             JBool match milestones with
                                   | Some n => (n =? 0)%Z
                                   | None => false
                                   end);
                            ("skipIssues",
                             JBool match issues with
                                   | Some n => (n =? 0)%Z
                                   | None => false
                                   end)])).
    { apply in_app_or in Hin as [Hin | [Hin | []]];
        [| symmetry; exact Hin].
      destruct (isUuid name); simpl in Hin; [tauto |].
      destruct Hin as [Hin | []]. discriminate. }
    injection Hv as ->.
    split; [exists pid; split; reflexivity |].
    cbn [get assoc String.eqb Ascii.eqb Bool.eqb].
    split; [destruct milestones as [[| k | k] |]; reflexivity |].
    split; [destruct milestones as [[| k | k] |]; discriminate |].
    split; [destruct issues as [[| k | k] |]; reflexivity |].
    split; [destruct issues as [[| k | k] |]; discriminate |].
    split; [destruct milestones as [[| k | k] |]; reflexivity |].
    split; [destruct issues as [[| k | k] |]; reflexivity |].
    split.
    + intros Hnone. unfold milestones. rewrite Hnone. reflexivity.
    + intros Hnone. unfold issues. rewrite Hnone. reflexivity.
  - simpl in Hin, Htrace. subst h. destruct (isUuid name); simpl in Hin;
      [tauto |].
    destruct Hin as [Hin | []]. discriminate.
Qed.

(** A lookup that finds nothing fails with an error that names what the
    caller asked for: [projects read] names the name or id it was given
    (not the id it resolved to), [getDocument] the document id,
    [listAttachments] the issue id. *)
Theorem missing_entity_is_reported_by_its_name :
  (forall env name options pid h result,
      exec env [] (resolveProjectIdFromGraphQL name) = (Ok pid, h) ->
      (forall variables,
          env h (RawRequest GET_PROJECT_BY_ID_QUERY variables) = Reply result) ->
      nullish result = false ->
      truthy (get result "project") = false ->
      fst (run env (projects_read name options))
      = Failed (notFoundError "Project" name))
  /\ (forall env hist id result,
         env hist (RawRequest GET_DOCUMENT_QUERY (JObj [("id", JStr id)]))
         = Reply result ->
         nullish result = false ->
         truthy (get result "document") = false ->
         exec env hist (getDocument id)
         = (Failed (Err ("Document not found: " ++ id)),
            (hist ++ [RawRequest GET_DOCUMENT_QUERY
                        (JObj [("id", JStr id)])])%list))
  /\ (forall env hist issueId result,
         env hist (listAttachmentsCall issueId) = Reply result ->
         nullish result = false ->
         truthy (get result "issue") = false ->
         exec env hist (listAttachments issueId)
         = (Failed (Err ("Issue not found: " ++ toString issueId)),
            (hist ++ [listAttachmentsCall issueId])%list)).
Proof.
  split; [| split].
  - intros env name options pid h result Hpid Hreply Hresult Hmissing.
    unfold run, projects_read. rewrite exec_bind, Hpid.
    unfold rawRequest. rewrite exec_bind, exec_await, Hreply.
    rewrite exec_bind, (exec_member _ _ _ _ Hresult), Hmissing. reflexivity.
  - intros env hist id result Hreply Hresult Hmissing.
    unfold getDocument, rawRequest. rewrite exec_bind, exec_await, Hreply.
    rewrite exec_bind, (exec_member _ _ _ _ Hresult), Hmissing. reflexivity.
  - intros env hist issueId result Hreply Hresult Hmissing.
    unfold listAttachments, rawRequest. fold (listAttachmentsCall issueId).
    rewrite exec_bind, exec_await, Hreply.
    rewrite exec_bind, (exec_member _ _ _ _ Hresult), Hmissing. reflexivity.
Qed.

(** [projects list] prints one entry per project of the reply, in order,
    and no entry lacks its [teams]: the empty array stands in when the
    reply has none.  A reply without projects prints the empty list
    instead of failing. *)
Theorem listed_projects_always_have_teams (env : Env)
    (options : ProjectListOptions.t) (result : JS) (nodes : list JS) :
  (forall variables,
      env [] (RawRequest LIST_PROJECTS_QUERY variables) = Reply result) ->
  nullish result = false ->
  matchesOf result = JArr nodes ->
  Forall (fun p => truthy p = true) nodes ->
  exists printed,
    fst (run env (projects_list options)) = Ok (JArr printed)
    /\ List.length printed = List.length nodes
    /\ (forall i p, nth_error nodes i = Some p ->
                   nth_error printed i = Some (transformProject p))
    /\ Forall (fun out => truthy (get out "teams") = true) printed
    /\ (nullish (get result "projects") = true -> printed = []).
Proof.
  intros Hreply Hresult Hnodes Htruthy.
  exists (map transformProject nodes).
  split; [| split; [| split; [| split]]].
  - unfold run, projects_list, rawRequest.
    rewrite exec_bind, exec_await, Hreply.
    rewrite exec_bind, (exec_member _ _ _ _ Hresult).
    fold (matchesOf result). rewrite Hnodes. reflexivity.
  - apply length_map.
  - intros i p Hp. rewrite nth_error_map, Hp. reflexivity.
  - apply Forall_map. eapply Forall_impl; [| exact Htruthy].
    intros p Hp. unfold transformProject. rewrite Hp. cbn [negb].
    rewrite !get_set_field. cbn [String.eqb Ascii.eqb Bool.eqb].
    unfold js_or.
    destruct (truthy (get_opt (get p "teams") "nodes")) eqn:Hteams;
      [exact Hteams | reflexivity].
  - intros Hnone. unfold matchesOf, get_opt in Hnodes. rewrite Hnone in Hnodes.
    cbn in Hnodes. injection Hnodes as <-. reflexivity.
Qed.

End ProjectCommands.

(* ===================================================================== *)
(** ** Document commands                                                  *)
(* ===================================================================== *)

Lemma assoc_assign_given (k : string) (o : option string)
    (fields : list (string * JS)) :
  assoc k (assign_given k o fields) =
  match kept o with
  | Some x => Some x
  | None => assoc k fields
  end.
Proof.
  unfold assign_given, kept. destruct o as [s |]; [| reflexivity].
  destruct (s =? ""); [reflexivity |].
  rewrite assoc_set_field, String.eqb_refl. reflexivity.
Qed.

Lemma assoc_assign_given_other (k k' : string) (o : option string)
    (fields : list (string * JS)) :
  k' <> k -> assoc k (assign_given k' o fields) = assoc k fields.
Proof.
  intros Hne. unfold assign_given. destruct o as [s |]; [| reflexivity].
  destruct (s =? ""); [reflexivity | apply assoc_set_field_other, Hne].
Qed.

Lemma NoDup_assign_given (k : string) (o : option string)
    (fields : list (string * JS)) :
  NoDup (keys fields) -> NoDup (keys (assign_given k o fields)).
Proof.
  intros Hnd. unfold assign_given. destruct o as [s |]; [| exact Hnd].
  destruct (s =? ""); [exact Hnd | apply NoDup_set_field, Hnd].
Qed.

Lemma updateDocument_trace (env : Env) (hist : list Call) (id : string)
    (input : JS) :
  snd (exec env hist (updateDocument id input)) =
  (hist ++ [RawRequest UPDATE_DOCUMENT_MUTATION
              (JObj [("id", JStr id); ("input", input)])])%list.
Proof.
  unfold updateDocument, rawRequest. apply exec_one_call. silence.
Qed.

Ltac input_step :=
  first [ rewrite assoc_assign_given_other by discriminate
        | rewrite assoc_set_field_other by discriminate
        | rewrite assoc_assign_given
        | rewrite assoc_set_field ].

Ltac input_away Hk :=
  repeat first
    [ rewrite assoc_assign_given_other
        by (intros E; subst; apply Hk; simpl; tauto)
    | rewrite assoc_set_field_other
        by (intros E; subst; apply Hk; simpl; tauto) ].

(** The fields [documents update] puts in its input, given what the
    project resolved to (if it was asked). *)
Lemma update_input_fields (options : DocumentUpdateOptions.t)
    (project : option JS) :
  let base := assign_given "content" (DocumentUpdateOptions.content options)
                (assign_given "title" (DocumentUpdateOptions.title options) []) in
  let fields :=
    assign_given "color" (DocumentUpdateOptions.color options)
      (assign_given "icon" (DocumentUpdateOptions.icon options)
         (match project with
          | Some pid => set_field "projectId" pid base
          | None => base
          end)) in
  NoDup (keys fields)
  /\ assoc "title" fields = kept (DocumentUpdateOptions.title options)
  /\ assoc "content" fields = kept (DocumentUpdateOptions.content options)
  /\ assoc "icon" fields = kept (DocumentUpdateOptions.icon options)
  /\ assoc "color" fields = kept (DocumentUpdateOptions.color options)
  /\ assoc "projectId" fields = project
  /\ (forall k,
         ~ In k ["title"; "content"; "projectId"; "icon"; "color"] ->
         assoc k fields = None).
Proof.
  intros base fields. unfold fields, base.
  split; [| split; [| split; [| split; [| split; [| split]]]]].
  - destruct project;
      repeat first [apply NoDup_assign_given | apply NoDup_set_field];
      constructor.
  - destruct project; repeat input_step;
      destruct (kept (DocumentUpdateOptions.title options)); reflexivity.
  - destruct project; repeat input_step;
      destruct (kept (DocumentUpdateOptions.content options)); reflexivity.
  - destruct project; repeat input_step;
      destruct (kept (DocumentUpdateOptions.icon options)); reflexivity.
  - destruct project; repeat input_step;
      destruct (kept (DocumentUpdateOptions.color options)); reflexivity.
  - destruct project; repeat input_step; reflexivity.
  - intros k Hk. destruct project; input_away Hk; reflexivity.
Qed.

(** The input of every update mutation [documents update] sends holds
    the options that were given a non-empty value, under their own names,
    and nothing else: an empty value is dropped like a missing one (so no
    field can be set to the empty string), and [projectId] is there
    exactly when a project was named, with the id it resolved to.  With
    no option at all the mutation is still sent, with an empty input. *)
Theorem document_update_sends_nonempty_options (env : Env)
    (documentId : string) (options : DocumentUpdateOptions.t) :
  (forall v,
      In (RawRequest UPDATE_DOCUMENT_MUTATION v)
         (snd (run env (documents_update documentId options))) ->
      exists fields,
        v = JObj [("id", JStr documentId); ("input", JObj fields)]
        /\ NoDup (keys fields)
        /\ assoc "title" fields = kept (DocumentUpdateOptions.title options)
        /\ assoc "content" fields
           = kept (DocumentUpdateOptions.content options)
        /\ assoc "icon" fields = kept (DocumentUpdateOptions.icon options)
        /\ assoc "color" fields = kept (DocumentUpdateOptions.color options)
        /\ (if given (DocumentUpdateOptions.project options)
            then exists pid,
                env [] (ResolveProjectId
                          (str_coalesce (DocumentUpdateOptions.project options)
                                        ""))
                = Reply pid
                /\ assoc "projectId" fields = Some pid
            else assoc "projectId" fields = None)
        /\ (forall k,
               ~ In k ["title"; "content"; "projectId"; "icon"; "color"] ->
               assoc k fields = None))
  /\ (kept (DocumentUpdateOptions.title options) = None ->
      kept (DocumentUpdateOptions.content options) = None ->
      given (DocumentUpdateOptions.project options) = false ->
      kept (DocumentUpdateOptions.icon options) = None ->
      kept (DocumentUpdateOptions.color options) = None ->
      snd (run env (documents_update documentId options))
      = [RawRequest UPDATE_DOCUMENT_MUTATION
           (JObj [("id", JStr documentId); ("input", JObj [])])]).
Proof.
  split.
  - intros v Hin. unfold run, documents_update in Hin.
    rewrite exec_bind in Hin.
    destruct (given (DocumentUpdateOptions.project options)) eqn:Hgiven.
    + rewrite exec_bind, exec_await in Hin.
      destruct (env [] (ResolveProjectId _)) as [pid | e] eqn:Hpid;
        cbn [exec app] in Hin.
      * rewrite updateDocument_trace in Hin. cbn [app] in Hin.
        destruct Hin as [Hin | [Hin | []]]; [discriminate |].
        injection Hin as <-.
        destruct (update_input_fields options (Some pid))
          as (Hnd & Ht & Hc & Hi & Hco & Hp & Hother).
        eexists. split; [reflexivity |].
        repeat (split; [eassumption |]).
        split; [exists pid; split; [reflexivity | exact Hp] | exact Hother].
      * destruct Hin as [Hin | []]. discriminate.
    + cbn [exec] in Hin. rewrite updateDocument_trace in Hin. cbn [app] in Hin.
      destruct Hin as [Hin | []]. injection Hin as <-.
      destruct (update_input_fields options None)
        as (Hnd & Ht & Hc & Hi & Hco & Hp & Hother).
      eexists. split; [reflexivity |].
      repeat (split; [eassumption |]). exact Hother.
  - intros Htitle Hcontent Hproject Hicon Hcolor.
    unfold run, documents_update. rewrite exec_bind, Hproject.
    cbn [exec]. rewrite updateDocument_trace. cbn [app].
    assert (Hdrop : forall k o fields,
               kept o = None -> assign_given k o fields = fields).
    { intros k o fields Hk. unfold assign_given, kept in *.
      destruct o as [s |]; [| reflexivity].
      destruct (s =? ""); [reflexivity | discriminate]. }
    rewrite (Hdrop "title" _ _ Htitle), (Hdrop "content" _ _ Hcontent),
      (Hdrop "icon" _ _ Hicon), (Hdrop "color" _ _ Hcolor).
    reflexivity.
Qed.

Ltac may_cases H :=
  repeat match type of H with
    | MayCall (Ret _) _ => inversion H
    | MayCall (Throw _) _ => inversion H
    | MayCall (await _) _ => apply may_await in H
    | MayCall (member _ _) _ =>
        exfalso; exact (may_silent _ _ (silent_member _ _) H)
    | MayCall (elements _) _ =>
        exfalso; exact (may_silent _ _ (silent_elements _) H)
    | MayCall (mapM _ _) _ =>
        exfalso; refine (may_silent _ _ _ H); solve [silence]
    | MayCall (bind _ _) _ =>
        apply may_bind in H; destruct H as [H | [? H]]
    | MayCall (if ?b then _ else _) _ => destruct b
    | MayCall (match ?o with Some _ => _ | None => _ end) _ => destruct o
    end.

Lemma listLimit_default (options : DocumentListOptions.t) :
  given (DocumentListOptions.limit options) = false ->
  listLimit options = Some 50%Z.
Proof.
  unfold listLimit, given, str_or.
  destruct (DocumentListOptions.limit options) as [s |]; [| reflexivity].
  destruct (s =? ""); [reflexivity | discriminate].
Qed.

Section DocumentListing.
Context `{Runtime}.

(** [documents list] checks its options before any call: two filters at
    once are refused first, then a limit that does not parse to a
    positive integer, named in the error.  A missing or empty limit is
    50.  Once the options pass, the command always reaches the server. *)
Theorem document_list_checks_come_first (env : Env)
    (options : DocumentListOptions.t) :
  let both := given (DocumentListOptions.project options)
              && given (DocumentListOptions.issue options) in
  (both = true ->
   run env (documents_list options)
   = (Failed (Err "Cannot use --project and --issue together. Choose one filter."),
      []))
  /\ (both = false -> limitValid options = false ->
      exists limit,
        DocumentListOptions.limit options = Some limit
        /\ limit <> ""
        /\ run env (documents_list options)
           = (Failed (Err ("Invalid limit " ++ dq ++ limit ++ dq
                             ++ ": must be a positive number")), []))
  /\ (both = false -> limitValid options = true ->
      snd (run env (documents_list options)) <> [])
  /\ (given (DocumentListOptions.limit options) = false ->
      limitValid options = true).
Proof.
  intros both. unfold both.
  split; [| split; [| split]].
  - intros Hboth. unfold run, documents_list. rewrite Hboth. reflexivity.
  - intros Hboth Hinvalid.
    destruct (given (DocumentListOptions.limit options)) eqn:Hgiven.
    + unfold given in Hgiven.
      destruct (DocumentListOptions.limit options) as [limit |] eqn:Hlimit;
        [| discriminate].
      destruct (String.eqb_spec limit "") as [-> | Hne]; [discriminate |].
      exists limit. split; [reflexivity |]. split; [exact Hne |].
      unfold run, documents_list. rewrite Hboth, Hlimit.
      unfold limitValid, listLimit in Hinvalid. rewrite Hlimit in Hinvalid.
      cbn [opt_str toString].
      destruct (parseInt (str_or (Some limit) "50") (Some 10%Z)) as [n |];
        [| reflexivity].
      destruct (Z.leb_spec 1 n) as [Hle | Hlt]; [discriminate |].
      destruct (Z.ltb_spec n 1) as [_ | Hge]; [reflexivity | lia].
    + unfold limitValid in Hinvalid.
      rewrite (listLimit_default options Hgiven) in Hinvalid. discriminate.
  - intros Hboth Hvalid.
    unfold documents_list, listAttachments, listDocuments, rawRequest.
    rewrite Hboth.
    unfold limitValid, listLimit in Hvalid.
    destruct (parseInt (str_or (DocumentListOptions.limit options) "50")
                       (Some 10%Z)) as [n |]; [| discriminate].
    destruct (Z.leb_spec 1 n) as [Hle | Hlt]; [| discriminate].
    destruct (Z.ltb_spec n 1) as [Hlt | _]; [lia |].
    destruct (given (DocumentListOptions.issue options));
      destruct (given (DocumentListOptions.project options));
      match goal with
      | |- snd (run env ?p) <> [] =>
          let Hc := fresh in
          destruct (first_call env p _ _ eq_refl) as [rest Hc];
          rewrite Hc; discriminate
      end.
  - intros Hgiven. unfold limitValid.
    rewrite (listLimit_default options Hgiven). reflexivity.
Qed.

(** Every request for documents that [documents list] makes, through the
    attachments of an issue or directly, asks for the count its limit
    parses to, and that count is at least 1. *)
Theorem document_list_asks_for_a_positive_count (env : Env)
    (options : DocumentListOptions.t) (c : Call) :
  In c (snd (run env (documents_list options))) ->
  exists n,
    listLimit options = Some n
    /\ (1 <= n)%Z
    /\ (forall slugIds limit,
           c = ListDocumentsBySlugIds slugIds limit -> limit = JNum n)
    /\ (forall variables,
           c = RawRequest LIST_DOCUMENTS_QUERY variables ->
           get variables "first" = JNum n).
Proof.
  intros Hin. apply exec_may in Hin as [[] | Hmay].
  unfold documents_list, listAttachments, listDocuments, attachmentSlugId,
    rawRequest in Hmay.
  unfold listLimit.
  destruct (given (DocumentListOptions.project options)
            && given (DocumentListOptions.issue options));
    [inversion Hmay |].
  destruct (parseInt (str_or (DocumentListOptions.limit options) "50")
                     (Some 10%Z)) as [n |]; [| inversion Hmay].
  destruct (Z.ltb_spec n 1) as [Hlt | Hge]; [inversion Hmay |].
  exists n. split; [reflexivity |]. split; [lia |].
  may_cases Hmay; subst c;
    (split; [intros slugIds limit Heq | intros variables Heq]);
    try discriminate;
    inversion Heq; reflexivity.
Qed.

(** Without [--issue], [documents list] makes one list query: with no
    project it carries no filter, with a project it comes after the
    resolution and filters on the id resolved.  In both cases the nodes
    of the reply are printed as they are. *)
Theorem document_list_filters_by_the_resolved_project (env : Env)
    (options : DocumentListOptions.t) (n : Z) :
  given (DocumentListOptions.issue options) = false ->
  listLimit options = Some n ->
  (1 <= n)%Z ->
  (given (DocumentListOptions.project options) = false ->
   snd (run env (documents_list options))
   = [RawRequest LIST_DOCUMENTS_QUERY
        (JObj [("first", JNum n); ("filter", JUndefined)])])
  /\ (forall project pid,
         DocumentListOptions.project options = Some project ->
         project <> "" ->
         env [] (ResolveProjectId project) = Reply pid ->
         truthy pid = true ->
         snd (run env (documents_list options))
         = [ResolveProjectId project;
            RawRequest LIST_DOCUMENTS_QUERY
              (JObj [("first", JNum n);
                     ("filter",
                      JObj [("project",
                             JObj [("id", JObj [("eq", pid)])])])])])
  /\ (forall result,
         given (DocumentListOptions.project options) = false ->
         (forall variables,
             env [] (RawRequest LIST_DOCUMENTS_QUERY variables) = Reply result) ->
         nullish result = false ->
         nullish (get result "documents") = false ->
         fst (run env (documents_list options))
         = Ok (get (get result "documents") "nodes"))
  /\ (forall project pid result,
         DocumentListOptions.project options = Some project ->
         project <> "" ->
         env [] (ResolveProjectId project) = Reply pid ->
         (forall variables,
             env [ResolveProjectId project]
                 (RawRequest LIST_DOCUMENTS_QUERY variables) = Reply result) ->
         nullish result = false ->
         nullish (get result "documents") = false ->
         fst (run env (documents_list options))
         = Ok (get (get result "documents") "nodes")).
Proof.
  intros Hissue Hlimit Hpos.
  assert (Hstart : given (DocumentListOptions.project options) = false ->
                   documents_list options = listDocuments JUndefined (JNum n)).
  { intros Hproject. unfold documents_list.
    rewrite Hproject, Hissue. cbn [andb].
    unfold listLimit in Hlimit. rewrite Hlimit.
    destruct (Z.ltb_spec n 1) as [Hlt | _]; [lia |]. reflexivity. }
  split; [| split; [| split]].
  - intros Hproject. rewrite (Hstart Hproject).
    unfold run, listDocuments, rawRequest.
    apply (exec_one_call env []). silence.
  - intros project pid Hproject Hne Hpid Htruthy.
    unfold run, documents_list.
    rewrite Hissue, andb_false_r.
    unfold listLimit in Hlimit. rewrite Hlimit.
    destruct (Z.ltb_spec n 1) as [Hlt | _]; [lia |].
    rewrite Hproject. cbn [given str_coalesce].
    destruct (String.eqb_spec project "") as [-> | _]; [congruence |].
    cbn [negb]. rewrite exec_bind, exec_await, Hpid.
    unfold listDocuments, rawRequest. rewrite Htruthy. cbn [js_num nullish].
    apply (exec_one_call env [ResolveProjectId project]). silence.
  - intros result Hproject Hreply Hresult Hdocuments.
    rewrite (Hstart Hproject).
    unfold run, listDocuments, rawRequest.
    rewrite exec_bind, exec_await, Hreply.
    rewrite exec_bind, (exec_member _ _ _ _ Hresult).
    rewrite (exec_member _ _ _ _ Hdocuments). reflexivity.
  - intros project pid result Hproject Hne Hpid Hreply Hresult Hdocuments.
    unfold run, documents_list.
    rewrite Hissue, andb_false_r.
    unfold listLimit in Hlimit. rewrite Hlimit.
    destruct (Z.ltb_spec n 1) as [Hlt | _]; [lia |].
    rewrite Hproject. cbn [given str_coalesce].
    destruct (String.eqb_spec project "") as [-> | _]; [congruence |].
    cbn [negb]. rewrite exec_bind, exec_await, Hpid.
    unfold listDocuments, rawRequest.
    rewrite exec_bind, exec_await, Hreply.
    rewrite exec_bind, (exec_member _ _ _ _ Hresult).
    rewrite (exec_member _ _ _ _ Hdocuments). reflexivity.
Qed.

End DocumentListing.

(* ===================================================================== *)
(** ** documents create                                                   *)
(* ===================================================================== *)

Lemma then_return {A : Type} (env : Env) (hist : list Call) (p : Prog A)
    (document out : JS) :
  fst (exec env hist (bind p (fun _ => Ret document))) = Ok out ->
  out = document.
Proof.
  rewrite exec_bind. destruct (exec env hist p) as [[a | e] h]; simpl;
    congruence.
Qed.

Lemma createFromOptions_calls (env : Env) (options : DocumentCreateOptions.t)
    (c : Call) :
  In c (snd (exec env [] (createFromOptions options))) ->
  (exists project, c = ResolveProjectId project)
  \/ (exists team, c = ResolveTeamId team)
  \/ (exists input, c = RawRequest CREATE_DOCUMENT_MUTATION input).
Proof.
  intros Hin. apply exec_may in Hin as [[] | Hmay].
  unfold createFromOptions, createDocument, rawRequest in Hmay.
  may_cases Hmay; subst c; eauto.
Qed.

(** [documents create] prints the document it created, attached or not.
    An attachment is only asked for after the document was created and
    the issue resolved, and it links the url and the title of that very
    document to the issue id resolved.  Without [--attach-to] (or with an
    empty one) the command is the creation alone. *)
Theorem document_create_attaches_what_it_created (env : Env)
    (options : DocumentCreateOptions.t) :
  (forall out,
      fst (run env (documents_create options)) = Ok out ->
      exists h, exec env [] (createFromOptions options) = (Ok out, h))
  /\ (forall v,
         In (RawRequest CREATE_ATTACHMENT_MUTATION v)
            (snd (run env (documents_create options))) ->
         exists attachTo document h issueId,
           DocumentCreateOptions.attachTo options = Some attachTo
           /\ attachTo <> ""
           /\ exec env [] (createFromOptions options) = (Ok document, h)
           /\ env h (ResolveIssueId attachTo) = Reply issueId
           /\ v = JObj [("input",
                         JObj [("issueId", issueId);
                               ("url", get document "url");
                               ("title", get document "title")])])
  /\ (given (DocumentCreateOptions.attachTo options) = false ->
      run env (documents_create options)
      = exec env [] (createFromOptions options)).
Proof.
  split; [| split].
  - intros out Hout. unfold run, documents_create in Hout.
    rewrite exec_bind in Hout.
    destruct (exec env [] (createFromOptions options)) as [[document | e] h];
      [| discriminate].
    apply then_return in Hout. subst out. exists h. reflexivity.
  - intros v Hin. unfold run, documents_create in Hin.
    rewrite exec_bind in Hin.
    pose proof (createFromOptions_calls env options
                  (RawRequest CREATE_ATTACHMENT_MUTATION v)) as Hbefore.
    destruct (exec env [] (createFromOptions options))
      as [[document | e] h] eqn:Hcreate; cbn [snd] in Hbefore.
    + assert (Hnot : ~ In (RawRequest CREATE_ATTACHMENT_MUTATION v) h).
      { intros Hh. destruct (Hbefore Hh) as [[x Hx] | [[x Hx] | [x Hx]]];
          discriminate. }
      rewrite exec_bind in Hin. unfold attachToIssue in Hin.
      destruct (DocumentCreateOptions.attachTo options) as [attachTo |] eqn:Ha;
        cbn [given] in Hin;
        [| cbn [exec snd] in Hin; contradiction].
      destruct (String.eqb_spec attachTo "") as [-> | Hne];
        cbn [negb] in Hin; [cbn [exec snd] in Hin; contradiction |].
      cbn [str_coalesce] in Hin. rewrite exec_bind, exec_await in Hin.
      destruct (env h (ResolveIssueId attachTo)) as [issueId | e] eqn:Hissue.
      * rewrite exec_try_catch in Hin.
        assert (Hfail : forall e hist,
                   snd (exec env hist (attachFailure document attachTo e))
                   = hist).
        { intros e hist. apply silent_exec. unfold attachFailure. silence. }
        destruct (nullish document) eqn:Hdoc.
        -- unfold member at 1 in Hin. rewrite Hdoc in Hin. cbn [bind exec] in Hin.
           destruct (exec env (h ++ [ResolveIssueId attachTo])
                       (attachFailure document attachTo
                          (TypeError ("Cannot read properties of "
                                        ++ toString document))))
             as [[x | e] h'] eqn:Hhandler.
           ++ pose proof (Hfail (TypeError ("Cannot read properties of "
                                             ++ toString document))
                            (h ++ [ResolveIssueId attachTo])%list) as Hh'.
              rewrite Hhandler in Hh'. cbn [snd] in *. subst h'.
              apply in_app_or in Hin as [Hin | [Hin | []]];
                [contradiction | discriminate].
           ++ pose proof (Hfail (TypeError ("Cannot read properties of "
                                             ++ toString document))
                            (h ++ [ResolveIssueId attachTo])%list) as Hh'.
              rewrite Hhandler in Hh'. cbn [snd] in *. subst h'.
              apply in_app_or in Hin as [Hin | [Hin | []]];
                [contradiction | discriminate].
        -- rewrite exec_bind, (exec_member _ _ _ _ Hdoc) in Hin.
           rewrite exec_bind, (exec_member _ _ _ _ Hdoc) in Hin.
           pose proof (createAttachment_trace env
                         (h ++ [ResolveIssueId attachTo])
                         (JObj [("issueId", issueId);
                                ("url", get document "url");
                                ("title", get document "title")])) as Htrace.
           destruct (exec env (h ++ [ResolveIssueId attachTo])
                       (createAttachment
                          (JObj [("issueId", issueId);
                                 ("url", get document "url");
                                 ("title", get document "title")])))
             as [[attached | e] h'] eqn:Hattach; cbn [snd] in Htrace.
           ++ cbn [exec snd] in Hin. subst h'.
              apply in_app_or in Hin as [Hin | [Hin | []]].
              ** apply in_app_or in Hin as [Hin | [Hin | []]];
                   [contradiction | discriminate].
              ** injection Hin as <-.
                 exists attachTo, document, h, issueId. auto.
           ++ destruct (exec env h' (attachFailure document attachTo e))
                as [[x | e'] h''] eqn:Hhandler;
                pose proof (Hfail e h') as Hh'';
                rewrite Hhandler in Hh''; cbn [snd] in *; subst h'' h';
                (apply in_app_or in Hin as [Hin | [Hin | []]];
                 [ apply in_app_or in Hin as [Hin | [Hin | []]];
                   [contradiction | discriminate]
                 | injection Hin as <-;
                   exists attachTo, document, h, issueId; auto ]).
      * cbn [snd] in Hin.
        apply in_app_or in Hin as [Hin | [Hin | []]];
          [contradiction | discriminate].
    + cbn [snd] in Hin.
      destruct (Hbefore Hin) as [[x Hx] | [[x Hx] | [x Hx]]]; discriminate.
  - intros Hnone. unfold run, documents_create. rewrite exec_bind.
    unfold attachToIssue. rewrite Hnone.
    destruct (exec env [] (createFromOptions options)) as [[document | e] h];
      reflexivity.
Qed.

(* ===================================================================== *)
(** ** Slug ids taken from attachment urls                                *)
(* ===================================================================== *)


Lemma split_parts_lack_the_separator (sep : ascii) (s p : string) :
  In p (split sep s) -> hasChar sep p = false.
Proof.
  revert p. induction s as [| c t IH]; intros p; cbn [split].
  - intros [<- | []]. reflexivity.
  - destruct (Ascii.eqb c sep) eqn:Hc.
    + intros [<- | Hin]; [reflexivity | auto].
    + destruct (split sep t) as [| w ws].
      * intros [<- | []]. cbn [hasChar]. rewrite Hc. reflexivity.
      * intros [<- | Hin].
        -- cbn [hasChar]. rewrite Hc. apply IH. left. reflexivity.
        -- apply IH. right. exact Hin.
Qed.



Lemma lastIndexOf_none (c : ascii) (s : string) :
  lastIndexOf c s = None -> hasChar c s = false.
Proof.
  induction s as [| c' t IH]; cbn [lastIndexOf hasChar]; [reflexivity |].
  destruct (lastIndexOf c t); [discriminate |].
  destruct (Ascii.eqb c' c); [discriminate |].
  intros _. apply IH. reflexivity.
Qed.




Lemma after_the_last (c : ascii) (s : string) (i : nat) :
  lastIndexOf c s = Some i ->
  hasChar c (substring_from (i + 1) s) = false.
Proof.
  revert i. induction s as [| c' t IH]; intros i; cbn [lastIndexOf];
    [discriminate |].
  destruct (lastIndexOf c t) as [j |] eqn:Ht.
  - intros Hi. injection Hi as <-. cbn [Nat.add substring_from].
    apply IH. reflexivity.
  - destruct (Ascii.eqb c' c); [| discriminate].
    intros Hi. injection Hi as <-. cbn [Nat.add substring_from].
    apply lastIndexOf_none. exact Ht.
Qed.

Lemma substring_from_keeps_absence (c : ascii) (n : nat) (s : string) :
  hasChar c s = false -> hasChar c (substring_from n s) = false.
Proof.
  revert s. induction n as [| n IH]; intros s; [auto |].
  destruct s as [| c' t]; cbn [substring_from hasChar]; [auto |].
  intros Hs. apply orb_false_elim in Hs as [_ Ht]. auto.
Qed.

Lemma indexOf_found (x : string) (parts : list string) (i : nat) :
  indexOf x parts = Some i -> In x parts.
Proof.
  revert i. induction parts as [| p t IH]; intros i; cbn [indexOf];
    [discriminate |].
  destruct (String.eqb_spec p x) as [-> | Hne].
  - intros _. left. reflexivity.
  - destruct (indexOf x t) as [j |]; [| discriminate].
    intros _. right. apply (IH j). reflexivity.
Qed.

Lemma or_null_some (s r : string) :
  or_null s = Some r -> r = s /\ s <> "".
Proof.
  unfold or_null. destruct (String.eqb_spec s "") as [-> | Hne];
    [discriminate |].
  intros Hr. injection Hr as <-. auto.
Qed.


Section SlugIds.
Context `{Runtime}.

(** Whatever [extractDocumentIdFromUrl] returns is usable as a slug id:
    it is not empty and holds neither a hyphen nor a slash.  It is only
    returned for a url that parses, whose host mentions linear.app and
    whose path has a [document] segment. *)
Theorem extracted_slug_id_is_a_clean_token (url id : string) :
  extractDocumentIdFromUrl url = Some id ->
  id <> ""
  /\ hasChar "-" id = false
  /\ hasChar "/" id = false
  /\ exists parsed,
       parseURL url = Some parsed
       /\ includes "linear.app" (hostname parsed) = true
       /\ In "document" (split "/" (pathname parsed)).
Proof.
  unfold extractDocumentIdFromUrl.
  destruct (parseURL url) as [parsed |]; [| discriminate].
  destruct (includes "linear.app" (hostname parsed)) eqn:Hhost;
    cbn [negb]; [| discriminate].
  destruct (indexOf "document" (split "/" (pathname parsed)))
    as [docIndex |] eqn:Hindex; [| discriminate].
  destruct (List.length (split "/" (pathname parsed)) - 1 <=? docIndex)%nat
    eqn:Hlast; [discriminate |].
  apply Nat.leb_gt in Hlast.
  assert (Hslash : hasChar "/"
                     (nth (docIndex + 1) (split "/" (pathname parsed)) "")
                   = false).
  { apply (split_parts_lack_the_separator "/" (pathname parsed)).
    apply nth_In. lia. }
  set (docSlug := nth (docIndex + 1) (split "/" (pathname parsed)) "") in *.
  assert (Hrest : exists parsed0,
             Some parsed = Some parsed0
             /\ includes "linear.app" (hostname parsed0) = true
             /\ In "document" (split "/" (pathname parsed0))).
  { exists parsed. split; [reflexivity | split; [exact Hhost |]].
    apply (indexOf_found _ _ _ Hindex). }
  destruct (lastIndexOf "-" docSlug) as [lastHyphenIndex |] eqn:Hhyphen;
    intros Hid; apply or_null_some in Hid as [-> Hne].
  - repeat (split; [assumption || idtac |]); [| | exact Hrest].
    + apply after_the_last. exact Hhyphen.
    + apply substring_from_keeps_absence. exact Hslash.
  - repeat (split; [assumption || idtac |]); [| exact Hrest].
    apply lastIndexOf_none. exact Hhyphen.
Qed.


End SlugIds.

(* ===================================================================== *)
(** ** Attachments that link to no document                               *)
(* ===================================================================== *)





Section SkippedAttachments.
Context `{Runtime}.



End SkippedAttachments.


(* ===================================================================== *)
(** ** Confirmations                                                      *)
(* ===================================================================== *)

Section Confirmations.
Context `{Runtime}.

(** The three commands that print a bare confirmation, [documents
    delete], [attachments delete] and [projects archive], print it only
    after the service answered their mutation with a truthy [success].
    [attachments delete] and [projects archive] print the id the mutation
    was sent for; [documents delete] prints a fixed message and no id. *)
Theorem confirmation_means_the_service_confirmed (env : Env) :
  (forall id out,
      fst (run env (documents_delete id)) = Ok out ->
      out = JObj [("success", JBool true);
                  ("message", JStr "Document moved to trash")]
      /\ exists result,
           env [] (RawRequest DELETE_DOCUMENT_MUTATION (JObj [("id", JStr id)]))
           = Reply result
           /\ truthy (get (get result "documentDelete") "success") = true)
  /\ (forall id out,
         fst (run env (attachments_delete id)) = Ok out ->
         out = JObj [("deleted", JBool true); ("id", JStr id)]
         /\ exists result,
              env [] (RawRequest DELETE_ATTACHMENT_MUTATION
                        (JObj [("id", JStr id)]))
              = Reply result
              /\ truthy (get (get result "attachmentDelete") "success") = true)
  /\ (forall s out,
         fst (run env (projects_archive s)) = Ok out ->
         exists projectId h result,
           run env (resolveProjectIdFromGraphQL s) = (Ok projectId, h)
           /\ env h (RawRequest ARCHIVE_PROJECT_MUTATION
                       (JObj [("id", projectId)]))
              = Reply result
           /\ truthy (get_opt (get result "projectArchive") "success") = true
           /\ out = JObj [("archived", JBool true); ("id", projectId)]).
Proof.
  split; [| split].
  - intros id out.
    unfold run, documents_delete, deleteDocument, rawRequest.
    rewrite !exec_bind, exec_await.
    destruct (env [] (RawRequest DELETE_DOCUMENT_MUTATION
                        (JObj [("id", JStr id)])))
      as [result | e]; cbv beta iota; cbn [bind exec fst]; [| discriminate].
    unfold member.
    destruct (nullish result); cbn [bind exec fst]; [discriminate |].
    destruct (nullish (get result "documentDelete")); cbn [bind exec fst];
      [discriminate |].
    destruct (truthy (get (get result "documentDelete") "success")) eqn:Hok;
      cbn [negb bind exec fst]; [| discriminate].
    intros Hout. injection Hout as <-. eauto.
  - intros id out.
    unfold run, attachments_delete, deleteAttachment, rawRequest.
    rewrite !exec_bind, exec_await.
    destruct (env [] (RawRequest DELETE_ATTACHMENT_MUTATION
                        (JObj [("id", JStr id)])))
      as [result | e]; cbv beta iota; cbn [bind exec fst]; [| discriminate].
    unfold member.
    destruct (nullish result); cbn [bind exec fst]; [discriminate |].
    destruct (nullish (get result "attachmentDelete")); cbn [bind exec fst];
      [discriminate |].
    destruct (truthy (get (get result "attachmentDelete") "success")) eqn:Hok;
      cbn [negb bind exec fst]; [| discriminate].
    intros Hout. injection Hout as <-. eauto.
  - intros s out.
    unfold run, projects_archive, rawRequest.
    rewrite exec_bind.
    destruct (exec env [] (resolveProjectIdFromGraphQL s))
      as [[projectId | e] h]; cbv beta iota; cbn [bind exec fst];
      [| discriminate].
    rewrite exec_bind, exec_await.
    destruct (env h (RawRequest ARCHIVE_PROJECT_MUTATION
                       (JObj [("id", projectId)])))
      as [result | e] eqn:Hreply; cbv beta iota; cbn [bind exec fst];
      [| discriminate].
    rewrite exec_bind. unfold member.
    destruct (nullish result); cbn [bind exec fst]; [discriminate |].
    destruct (truthy (get_opt (get result "projectArchive") "success"))
      eqn:Hok; cbn [negb bind exec fst]; [| discriminate].
    intros Hout. injection Hout as <-.
    exists projectId, h, result. auto.
Qed.

End Confirmations.

(* ===================================================================== *)
(** ** Where things are created                                           *)
(* ===================================================================== *)

Lemma attachToIssue_creates_no_document (document : JS)
    (options : DocumentCreateOptions.t) (v : JS) :
  ~ MayCall (attachToIssue document options)
      (RawRequest CREATE_DOCUMENT_MUTATION v).
Proof.
  unfold attachToIssue. intros Hmay.
  destruct (given (DocumentCreateOptions.attachTo options)); [| inversion Hmay].
  apply may_bind in Hmay as [Hmay | [issueId Hmay]].
  - apply may_await in Hmay. discriminate.
  - apply may_try_catch in Hmay as [Hmay | [e Hmay]].
    + unfold createAttachment, rawRequest in Hmay.
      may_cases Hmay; discriminate.
    + refine (may_silent _ _ _ Hmay). unfold attachFailure. silence.
Qed.

Lemma documents_create_creates_first (env : Env)
    (options : DocumentCreateOptions.t) (v : JS) :
  In (RawRequest CREATE_DOCUMENT_MUTATION v)
     (snd (run env (documents_create options))) ->
  In (RawRequest CREATE_DOCUMENT_MUTATION v)
     (snd (exec env [] (createFromOptions options))).
Proof.
  unfold run, documents_create. rewrite exec_bind.
  destruct (exec env [] (createFromOptions options)) as [[document | e] h];
    [| auto].
  intros Hin. apply exec_may in Hin as [Hin | Hmay]; [exact Hin |].
  apply may_bind in Hmay as [Hmay | [x Hmay]]; [| inversion Hmay].
  destruct (attachToIssue_creates_no_document _ _ _ Hmay).
Qed.

(** What is created goes where the options resolved to.  A project is
    created under its name in the team [--team] resolved to; an
    attachment links the url and the title given to the issue [--issue]
    resolved to; a document is created in the project and the team its
    options resolved to, the project being resolved before the team, and
    in none when the option is missing or empty.  So no create mutation
    is sent unless every target named was resolved. *)
Theorem creations_use_the_resolved_ids (env : Env) :
  (forall name options v,
      In (RawRequest CREATE_PROJECT_MUTATION v)
         (snd (run env (projects_create name options))) ->
      exists teamId,
        env [] (ResolveTeamId (ProjectCreateOptions.team options))
        = Reply teamId
        /\ get v "name" = JStr name
        /\ get v "teamIds" = JArr [teamId])
  /\ (forall options v,
         In (RawRequest CREATE_ATTACHMENT_MUTATION v)
            (snd (run env (attachments_create options))) ->
         exists issueId,
           env [] (ResolveIssueId (AttachmentCreateOptions.issue options))
           = Reply issueId
           /\ get (get v "input") "issueId" = issueId
           /\ get (get v "input") "url"
              = JStr (AttachmentCreateOptions.url options)
           /\ get (get v "input") "title"
              = JStr (AttachmentCreateOptions.title options))
  /\ (forall options v,
         In (RawRequest CREATE_DOCUMENT_MUTATION v)
            (snd (run env (documents_create options))) ->
         let project :=
           str_coalesce (DocumentCreateOptions.project options) "" in
         let team := str_coalesce (DocumentCreateOptions.team options) "" in
         let before : list Call :=
           if given (DocumentCreateOptions.project options)
           then [ResolveProjectId project] else [] in
         get (get v "input") "title"
         = JStr (DocumentCreateOptions.title options)
         /\ (if given (DocumentCreateOptions.project options)
             then env [] (ResolveProjectId project)
                  = Reply (get (get v "input") "projectId")
             else get (get v "input") "projectId" = JUndefined)
         /\ (if given (DocumentCreateOptions.team options)
             then env before (ResolveTeamId team)
                  = Reply (get (get v "input") "teamId")
             else get (get v "input") "teamId" = JUndefined)).
Proof.
  split; [| split].
  - intros name options v.
    unfold run, projects_create, rawRequest.
    rewrite exec_bind, exec_await.
    destruct (env [] (ResolveTeamId (ProjectCreateOptions.team options)))
      as [teamId | e]; cbv beta iota.
    + rewrite exec_one_call by (intros result; silence).
      intros [Hin | [Hin | []]]; [discriminate |].
      injection Hin as <-. exists teamId. auto.
    + intros [Hin | []]. discriminate.
  - intros options v.
    unfold run, attachments_create.
    rewrite exec_bind, exec_await.
    destruct (env [] (ResolveIssueId (AttachmentCreateOptions.issue options)))
      as [issueId | e]; cbv beta iota.
    + rewrite createAttachment_trace.
      intros [Hin | [Hin | []]]; [discriminate |].
      injection Hin as <-. exists issueId. auto.
    + intros [Hin | []]. discriminate.
  - intros options v Hin project team before.
    apply documents_create_creates_first in Hin.
    unfold createFromOptions in Hin. fold project team in Hin.
    subst before.
    destruct (given (DocumentCreateOptions.project options));
      destruct (given (DocumentCreateOptions.team options));
      repeat (rewrite exec_bind in Hin; try rewrite exec_await in Hin;
              cbn [exec] in Hin;
              match type of Hin with
              | context [env ?h ?c] =>
                  destruct (env h c) eqn:?; cbv beta iota in Hin
              | _ => cbv beta iota in Hin
              end);
      try rewrite createDocument_trace in Hin;
      cbn [snd app] in Hin;
      repeat (destruct Hin as [Hin | Hin]; try discriminate Hin;
              try contradiction);
      injection Hin as <-; auto.
Qed.

(* ===================================================================== *)
(** ** The statements above, on examples                                  *)
(* ===================================================================== *)

Lemma mutation_is_the_last_call_witness :
  skipn 2 (snd (run exampleCreateEnv (projects_create "Apollo" exampleCreate)))
  = [].
Proof.
  pose proof (@mutation_is_the_last_call exampleRuntime exampleCreateEnv
                [ResolveTeamId "ENG"]
                (skipn 2 (snd (run exampleCreateEnv
                                 (projects_create "Apollo" exampleCreate))))
                (RawRequest CREATE_PROJECT_MUTATION
                   (createVars "Apollo" (JStr "team-1") exampleCreate))
                eq_refl) as W.
  destruct W as (Hcreate & _).
  apply (Hcreate "Apollo" exampleCreate). reflexivity.
Defined.

Lemma rejected_call_ends_the_command_witness :
  run (scripted []) (@projects_archive exampleRuntime "Apollo")
  = (Failed (Rejected "no reply"), [findProjectByName "Apollo"]).
Proof.
  pose proof (@rejected_call_ends_the_command exampleRuntime (scripted [])
                [] [] (findProjectByName "Apollo") (Rejected "no reply")
                eq_refl) as W.
  cbv zeta in W. destruct W as (_ & _ & _ & _ & Harchive & _).
  destruct (Harchive "Apollo" eq_refl) as [_ Hfailed].
  apply injective_projections; [exact Hfailed | reflexivity].
Defined.

Lemma single_match_witness :
  run exampleArchiveEnv (@projects_archive exampleRuntime "Apollo")
  = (Ok (JObj [("archived", JBool true); ("id", JStr "p1")]),
     [findProjectByName "Apollo"; exampleArchiveCall]).
Proof.
  pose proof (@single_match_resolves_to_its_id exampleRuntime exampleArchiveEnv
                "Apollo" (lookupReply [projectNode "p1" "Apollo" "started"])
                (projectNode "p1" "Apollo" "started")
                eq_refl eq_refl eq_refl eq_refl eq_refl) as W.
  cbv zeta in W. destruct W as [_ Harchive].
  exact (Harchive (confirmation "projectArchive") eq_refl eq_refl eq_refl).
Defined.

Lemma opaque_id_witness :
  snd (run (scripted []) (@projects_archive exampleRuntime exampleUuid))
  = [RawRequest ARCHIVE_PROJECT_MUTATION (JObj [("id", JStr exampleUuid)])].
Proof.
  assert (Hid : @isUuid exampleRuntime exampleUuid = true) by reflexivity.
  exact (proj1 (@opaque_id_goes_straight_to_the_request exampleRuntime
                  (scripted []) exampleUuid Hid)).
Defined.

Lemma conflicting_update_flags_witness :
  run (scripted []) (@projects_update exampleRuntime "Apollo" exampleConflict)
  = (Failed (Err "Cannot use --lead and --clear-lead together"), []).
Proof.
  pose proof (@conflicting_update_flags_stop_before_any_call exampleRuntime
                (scripted []) "Apollo" exampleConflict) as W.
  cbv zeta in W. destruct W as (Hlead & _).
  apply Hlead. reflexivity.
Defined.

Lemma read_sends_usable_counts_witness :
  get exampleReadVars "milestonesFirst" = JNum 1
  /\ get exampleReadVars "skipMilestones" = JBool true
  /\ get exampleReadVars "issuesFirst" = JNum 1
  /\ get exampleReadVars "skipIssues" = JBool false.
Proof.
  assert (Hin : In (RawRequest GET_PROJECT_BY_ID_QUERY exampleReadVars)
                   (snd (run (scripted [])
                           (@projects_read exampleRuntime exampleUuid
                              exampleRead))))
    by (left; reflexivity).
  pose proof (@read_sends_usable_counts exampleRuntime (scripted [])
                exampleUuid exampleRead exampleReadVars Hin) as W.
  cbv zeta in W.
  destruct W as (_ & Hm & _ & Hi & _ & Hsm & Hsi & _).
  repeat split; assumption.
Defined.

Lemma missing_entity_witness :
  exec (scripted [Reply (JObj [("document", JNull)])]) [] (getDocument "doc-9")
  = (Failed (Err "Document not found: doc-9"),
     [RawRequest GET_DOCUMENT_QUERY (JObj [("id", JStr "doc-9")])]).
Proof.
  pose proof (@missing_entity_is_reported_by_its_name exampleRuntime) as W.
  destruct W as (_ & Hdocument & _).
  exact (Hdocument (scripted [Reply (JObj [("document", JNull)])]) []
           "doc-9" (JObj [("document", JNull)]) eq_refl eq_refl eq_refl).
Defined.

Lemma listed_projects_witness :
  exists printed,
    fst (run (scripted [Reply (lookupReply [JObj exampleProject])])
           (projects_list exampleList))
    = Ok (JArr printed)
    /\ List.length printed = 1
    /\ Forall (fun out => truthy (get out "teams") = true) printed.
Proof.
  assert (Hnodes : Forall (fun p => truthy p = true) [JObj exampleProject])
    by (repeat constructor).
  pose proof (listed_projects_always_have_teams
                (scripted [Reply (lookupReply [JObj exampleProject])])
                exampleList (lookupReply [JObj exampleProject])
                [JObj exampleProject]
                (fun _ => eq_refl) eq_refl eq_refl Hnodes) as W.
  destruct W as (printed & Hrun & Hlength & _ & Hteams & _).
  exists printed. auto.
Defined.

Lemma document_update_witness :
  exists fields,
    exampleDocumentUpdateInput
    = JObj [("id", JStr "doc-1"); ("input", JObj fields)]
    /\ assoc "title" fields = None
    /\ assoc "content" fields = Some (JStr "Body").
Proof.
  assert (Hin : In (RawRequest UPDATE_DOCUMENT_MUTATION
                      exampleDocumentUpdateInput)
                   (snd (run (scripted [])
                           (documents_update "doc-1" exampleDocumentUpdate))))
    by (left; reflexivity).
  pose proof (document_update_sends_nonempty_options (scripted []) "doc-1"
                exampleDocumentUpdate) as W.
  destruct W as [Hsent _].
  destruct (Hsent exampleDocumentUpdateInput Hin)
    as (fields & Hv & _ & Htitle & Hcontent & _).
  exists fields. auto.
Defined.

Lemma document_list_checks_witness :
  run (scripted []) (@documents_list exampleRuntime exampleListBoth)
  = (Failed (Err "Cannot use --project and --issue together. Choose one filter."),
     []).
Proof.
  pose proof (@document_list_checks_come_first exampleRuntime (scripted [])
                exampleListBoth) as W.
  cbv zeta in W. destruct W as (Hboth & _).
  apply Hboth. reflexivity.
Defined.

Lemma document_list_count_witness :
  exists n, listLimit exampleListByIssue = Some n /\ (1 <= n)%Z.
Proof.
  assert (Hin : In (ListDocumentsBySlugIds ["abc123"] (JNum 50))
                   (snd (run exampleListEnv
                           (@documents_list exampleRuntime exampleListByIssue))))
    by (right; right; left; reflexivity).
  destruct (@document_list_asks_for_a_positive_count exampleRuntime
              exampleListEnv exampleListByIssue
              (ListDocumentsBySlugIds ["abc123"] (JNum 50)) Hin)
    as (n & Hlimit & Hpos & _).
  exists n. auto.
Defined.

Lemma document_list_filter_witness :
  snd (run (scripted []) (@documents_list exampleRuntime exampleListFive))
  = [RawRequest LIST_DOCUMENTS_QUERY
       (JObj [("first", JNum 5); ("filter", JUndefined)])].
Proof.
  assert (Hpos : (1 <= 5)%Z) by lia.
  pose proof (@document_list_filters_by_the_resolved_project exampleRuntime
                (scripted []) exampleListFive 5%Z eq_refl eq_refl Hpos) as W.
  destruct W as (Hplain & _).
  apply Hplain. reflexivity.
Defined.

Lemma document_create_witness :
  exists attachTo document h issueId,
    DocumentCreateOptions.attachTo exampleDocumentCreate = Some attachTo
    /\ exec exampleDocumentCreateEnv [] (createFromOptions exampleDocumentCreate)
       = (Ok document, h)
    /\ exampleDocumentCreateEnv h (ResolveIssueId attachTo) = Reply issueId
    /\ exampleAttachCall
       = RawRequest CREATE_ATTACHMENT_MUTATION
           (JObj [("input",
                   JObj [("issueId", issueId);
                         ("url", get document "url");
                         ("title", get document "title")])]).
Proof.
  assert (Hin : In exampleAttachCall
                   (snd (run exampleDocumentCreateEnv
                           (documents_create exampleDocumentCreate))))
    by (right; right; left; reflexivity).
  pose proof (document_create_attaches_what_it_created
                exampleDocumentCreateEnv exampleDocumentCreate) as W.
  destruct W as (_ & Hattach & _).
  destruct (Hattach _ Hin)
    as (attachTo & document & h & issueId & Ha & _ & Hcreate & Hissue & Hv).
  exists attachTo, document, h, issueId.
  repeat split; try assumption.
  unfold exampleAttachCall. rewrite Hv. reflexivity.
Defined.

Lemma extracted_slug_id_witness :
  "abc123" <> "" /\ hasChar "-" "abc123" = false
  /\ hasChar "/" "abc123" = false.
Proof.
  assert (Hextract : @extractDocumentIdFromUrl exampleRuntime exampleDocumentUrl
                     = Some "abc123") by reflexivity.
  destruct (@extracted_slug_id_is_a_clean_token exampleRuntime
              exampleDocumentUrl "abc123" Hextract)
    as (Hne & Hhyphen & Hslash & _).
  auto.
Defined.


Lemma confirmation_witness :
  exists result,
    scripted [Reply (confirmation "documentDelete")] []
      (RawRequest DELETE_DOCUMENT_MUTATION (JObj [("id", JStr "doc-1")]))
    = Reply result
    /\ truthy (get (get result "documentDelete") "success") = true.
Proof.
  pose proof (@confirmation_means_the_service_confirmed exampleRuntime
                (scripted [Reply (confirmation "documentDelete")])) as W.
  destruct W as (Hdelete & _).
  destruct (Hdelete "doc-1"
              (JObj [("success", JBool true);
                     ("message", JStr "Document moved to trash")]) eq_refl)
    as [_ Hresult].
  exact Hresult.
Defined.

Lemma creations_witness :
  exists teamId,
    exampleCreateEnv [] (ResolveTeamId "ENG") = Reply teamId
    /\ get (createVars "Apollo" (JStr "team-1") exampleCreate) "teamIds"
       = JArr [teamId].
Proof.
  assert (Hin : In (RawRequest CREATE_PROJECT_MUTATION
                      (createVars "Apollo" (JStr "team-1") exampleCreate))
                   (snd (run exampleCreateEnv
                           (projects_create "Apollo" exampleCreate))))
    by (right; left; reflexivity).
  pose proof (creations_use_the_resolved_ids exampleCreateEnv) as W.
  destruct W as (Hproject & _).
  destruct (Hproject "Apollo" exampleCreate _ Hin) as (teamId & Hteam & _ & Hids).
  exists teamId. auto.
Defined.

